(** * Cilium CRD registration: a shallow embedding of
      [pkg/k8s/apis/cilium.io/v2/client/register.go]

    The Go code talks to a Kubernetes apiserver through a typed client,
    polls through a [poller] interface and logs through logrus.  The
    embedding threads an explicit [World] (apiserver state, the calls that
    were issued, the log, a logical clock) through a small state monad in
    which Go run-time panics (nil dereference, index out of range) are a
    second outcome. *)

From Stdlib Require Import ZArith String Ascii List Bool Lia.
From stdpp Require Import base option list gmap strings.

Local Open Scope Z_scope.

(** ** Go values: errors *)

(** [metav1.StatusReason] of an apiserver error, as far as
    [k8s.io/apimachinery/pkg/api/errors] classifies it here. *)
Inductive StatusReason :=
| StatusReasonUnknown
| StatusReasonNotFound
| StatusReasonAlreadyExists
| StatusReasonConflict
| StatusReasonForbidden
| StatusReasonInternalError.

(** The Go [error] values this file can see:
    - [New msg] is [goerrors.New(msg)];
    - [Errorf prefix e] is [fmt.Errorf(prefix + "%w", e)];
    - [StatusError r msg] is an [*errors.StatusError] of the apiserver;
    - [ErrWaitTimeout] is [wait.ErrWaitTimeout]. *)
Inductive error :=
| New (msg : string)
| Errorf (prefix : string) (wrapped : error)
| StatusError (reason : StatusReason) (msg : string)
| ErrWaitTimeout.

#[global] Instance StatusReason_eq_dec : EqDecision StatusReason.
Proof. solve_decision. Defined.

#[global] Instance error_eq_dec : EqDecision error.
Proof. solve_decision. Defined.

(** [err.Error()] *)
Fixpoint Error (e : error) : string :=
  match e with
  | New msg => msg
  | Errorf prefix wrapped => prefix +:+ Error wrapped
  | StatusError _ msg => msg
  | ErrWaitTimeout => "timed out waiting for the condition"
  end.

(** [errors.Unwrap(err)] *)
Definition Unwrap (e : error) : option error :=
  match e with
  | Errorf _ wrapped => Some wrapped
  | _ => None
  end.

(** [errors.Is(err, target)]: [target] occurs in the chain of [err]. *)
Fixpoint Is (e target : error) : bool :=
  bool_decide (e = target) ||
  match e with
  | Errorf _ wrapped => Is wrapped target
  | _ => false
  end.

(** [errors.As(err, &status)] for the [APIStatus] interface: the first
    error of the chain of [err] that carries a status, if any.  Of the
    errors above only a [StatusError] does; an error made with [%w] hands
    the search on to the error it wraps. *)
Fixpoint asAPIStatus (e : error) : option StatusReason :=
  match e with
  | StatusError reason _ => Some reason
  | Errorf _ wrapped => asAPIStatus wrapped
  | New _ | ErrWaitTimeout => None
  end.

(** [errors.ReasonForError], on a possibly nil error: the reason of the
    status found by [errors.As], and [StatusReasonUnknown] when there is
    none. *)
Definition ReasonForError (err : option error) : StatusReason :=
  match err with
  | Some e =>
      match asAPIStatus e with
      | Some reason => reason
      | None => StatusReasonUnknown
      end
  | None => StatusReasonUnknown
  end.

Definition IsNotFound (err : option error) : bool :=
  bool_decide (ReasonForError err = StatusReasonNotFound).

Definition IsAlreadyExists (err : option error) : bool :=
  bool_decide (ReasonForError err = StatusReasonAlreadyExists).

Definition IsConflict (err : option error) : bool :=
  bool_decide (ReasonForError err = StatusReasonConflict).

(** [strings.HasPrefix] and [strings.Contains], used to say that a message
    embeds another one. *)
Fixpoint HasPrefix (s p : string) : bool :=
  match p, s with
  | EmptyString, _ => true
  | String b p', String a s' => bool_decide (a = b) && HasPrefix s' p'
  | String _ _, EmptyString => false
  end.

Fixpoint Contains (s sub : string) : bool :=
  HasPrefix s sub ||
  match s with
  | EmptyString => false
  | String _ s' => Contains s' sub
  end.

(** ** Go values: time *)

(** [time.Duration] counts nanoseconds. *)
Definition Duration := Z.
Definition Millisecond : Duration := 1000000.
Definition Second : Duration := 1000 * Millisecond.

(** ** The apiextensions/v1 object model *)

(** The schema payload ([*JSONSchemaProps]) is carried opaquely. *)
Definition JSONSchemaProps := string.

Record CustomResourceDefinitionNames := mkNames {
  Plural : string;
  Singular : string;
  ShortNames : list string;
  Kind : string;
  ListKind : string;
  Categories : list string;
}.

Record CustomResourceDefinitionVersion := mkVersion {
  VersionName : string;
  Served : bool;
  Storage : bool;
  Schema : option JSONSchemaProps;
}.

Record CustomResourceDefinitionSpec := mkSpec {
  Group : string;
  Names : CustomResourceDefinitionNames;
  Scope : string;
  Versions : list CustomResourceDefinitionVersion;
}.

(** Condition types and statuses are Go string types. *)
Definition Established : string := "Established".
Definition NamesAccepted : string := "NamesAccepted".
Definition ConditionTrue : string := "True".
Definition ConditionFalse : string := "False".
Definition ConditionUnknown : string := "Unknown".

Record CustomResourceDefinitionCondition := mkCondition {
  Type_ : string;
  Status_ : string;
  Reason : string;
}.

Record CustomResourceDefinitionStatus := mkStatus {
  Conditions : list CustomResourceDefinitionCondition;
}.

Record ObjectMeta := mkMeta {
  Name : string;
  ResourceVersion : string;
  Labels : gmap string string;
}.

Record CustomResourceDefinition := mkCRD {
  Meta : ObjectMeta;
  Spec : CustomResourceDefinitionSpec;
  Status : CustomResourceDefinitionStatus;
}.

(** The zero value Go gives to an omitted status. *)
Definition zeroStatus : CustomResourceDefinitionStatus := mkStatus [].

(** ** The apiextensions/v1beta1 object model *)

Module v1beta1.

Definition CustomResourceValidation := string.

Record CustomResourceDefinitionNames := mkNames {
  Plural : string;
  Singular : string;
  ShortNames : list string;
  Kind : string;
  ListKind : string;
  Categories : list string;
}.

Record CustomResourceDefinitionSpec := mkSpec {
  Group : string;
  Names : CustomResourceDefinitionNames;
  Scope : string;
  Validation : option CustomResourceValidation;
}.

Definition Established : string := "Established".
Definition NamesAccepted : string := "NamesAccepted".
Definition ConditionTrue : string := "True".
Definition ConditionFalse : string := "False".

Record CustomResourceDefinitionCondition := mkCondition {
  Type_ : string;
  Status_ : string;
  Reason : string;
}.

Record CustomResourceDefinitionStatus := mkStatus {
  Conditions : list CustomResourceDefinitionCondition;
}.

Record CustomResourceDefinition := mkCRD {
  Meta : ObjectMeta;
  Spec : CustomResourceDefinitionSpec;
  Status : CustomResourceDefinitionStatus;
}.

End v1beta1.

(** ** The world the code runs in *)

(** A call that reached the apiserver, on either API surface. *)
Inductive Call :=
| CallGet (name : string)
| CallCreate (obj : CustomResourceDefinition)
| CallUpdate (obj : CustomResourceDefinition)
| CallDelete (name : string)
| CallGetV1beta1 (name : string)
| CallCreateV1beta1 (obj : v1beta1.CustomResourceDefinition)
| CallUpdateV1beta1 (obj : v1beta1.CustomResourceDefinition)
| CallDeleteV1beta1 (name : string).

Definition isDelete (c : Call) : bool :=
  match c with
  | CallDelete _ | CallDeleteV1beta1 _ => true
  | _ => false
  end.

Definition isUpdate (c : Call) : bool :=
  match c with
  | CallUpdate _ | CallUpdateV1beta1 _ => true
  | _ => false
  end.

Definition isGet (c : Call) : bool :=
  match c with
  | CallGet _ | CallGetV1beta1 _ => true
  | _ => false
  end.

(** logrus: an entry is the list of its fields; a record is what one of the
    level methods writes. *)
Inductive Level := DebugLevel | InfoLevel | ErrorLevel.

Definition Entry := list (string * string).

Record LogRecord := mkLog {
  level : Level;
  message : string;
  fields : Entry;
}.

Definition WithField (key value : string) (e : Entry) : Entry :=
  e ++ [(key, value)].

Definition WithError (err : error) (e : Entry) : Entry :=
  WithField "error" (Error err) e.

Record World (σ : Type) := mkWorld {
  apiserver : σ;
  calls : list Call;
  logs : list LogRecord;
  clock : Duration;
}.
Arguments mkWorld {σ}.
Arguments apiserver {σ}.
Arguments calls {σ}.
Arguments logs {σ}.
Arguments clock {σ}.

(** What running a piece of Go code gives: a value, or a run-time panic. *)
Inductive outcome (A : Type) :=
| Done (a : A)
| Panic (msg : string).
Arguments Done {A}.
Arguments Panic {A}.

Definition indexOutOfRange : string :=
  "runtime error: index out of range [0] with length 0".
Definition nilDereference : string :=
  "runtime error: invalid memory address or nil pointer dereference".

Definition M (σ A : Type) : Type := World σ -> outcome A * World σ.

Definition ret {σ A} (a : A) : M σ A := fun w => (Done a, w).

Definition bind {σ A B} (m : M σ A) (k : A -> M σ B) : M σ B :=
  fun w =>
    match m w with
    | (Done a, w') => k a w'
    | (Panic msg, w') => (Panic msg, w')
    end.

Notation "'do' x <- c ; k" := (bind c (fun x => k))
  (at level 10, x name, c at level 100, k at level 200).
Notation "'do' ' pat <- c ; k" := (bind c (fun x => match x with pat => k end))
  (at level 10, pat pattern, c at level 100, k at level 200).

Definition lift {σ A} (o : outcome A) : M σ A := fun w => (o, w).

(** [*p] on a possibly nil pointer. *)
Definition deref {σ A} (p : option A) : M σ A :=
  match p with
  | Some a => ret a
  | None => lift (Panic nilDereference)
  end.

(** One request to the apiserver: it changes the server's state, and is
    recorded. *)
Definition request {σ R} (c : Call) (op : σ -> R * σ) : M σ R :=
  fun w =>
    let '(r, s) := op (apiserver w) in
    (Done r, mkWorld s (calls w ++ [c]) (logs w) (clock w)).

Definition write {σ} (l : Level) (e : Entry) (msg : string) : M σ unit :=
  fun w =>
    (Done tt, mkWorld (apiserver w) (calls w) (logs w ++ [mkLog l msg e]) (clock w)).

Definition Debug {σ} := @write σ DebugLevel.
Definition Info {σ} := @write σ InfoLevel.
Definition Error_ {σ} := @write σ ErrorLevel.

(** [time.Sleep] on the logical clock. *)
Definition sleep {σ} (d : Duration) : M σ unit :=
  fun w => (Done tt, mkWorld (apiserver w) (calls w) (logs w) (clock w + d)).

(** ** Collaborators *)

(** [v1client.CustomResourceDefinitionsGetter]: the four requests of the
    typed client, as transitions of the apiserver state.  A Go client
    returns a pointer and an error; the pointer may be nil. *)
Record CustomResourceDefinitionsGetter (σ : Type) := mkClient {
  Get : string -> σ -> (option CustomResourceDefinition * option error) * σ;
  Create : CustomResourceDefinition -> σ ->
           (option CustomResourceDefinition * option error) * σ;
  Update : CustomResourceDefinition -> σ ->
           (option CustomResourceDefinition * option error) * σ;
  Delete : string -> σ -> option error * σ;
}.
Arguments mkClient {σ}.
Arguments Get {σ}.
Arguments Create {σ}.
Arguments Update {σ}.
Arguments Delete {σ}.

(** [v1beta1client.CustomResourceDefinitionsGetter] *)
Record V1beta1CustomResourceDefinitionsGetter (σ : Type) := mkV1beta1Client {
  GetV1beta1 : string -> σ ->
               (option v1beta1.CustomResourceDefinition * option error) * σ;
  CreateV1beta1 : v1beta1.CustomResourceDefinition -> σ ->
                  (option v1beta1.CustomResourceDefinition * option error) * σ;
  UpdateV1beta1 : v1beta1.CustomResourceDefinition -> σ ->
                  (option v1beta1.CustomResourceDefinition * option error) * σ;
  DeleteV1beta1 : string -> σ -> option error * σ;
}.
Arguments mkV1beta1Client {σ}.
Arguments GetV1beta1 {σ}.
Arguments CreateV1beta1 {σ}.
Arguments UpdateV1beta1 {σ}.
Arguments DeleteV1beta1 {σ}.

(** [apiextensionsclient.Interface] *)
Record Clientset (σ : Type) := mkClientset {
  ApiextensionsV1 : CustomResourceDefinitionsGetter σ;
  ApiextensionsV1beta1 : V1beta1CustomResourceDefinitionsGetter σ;
}.
Arguments mkClientset {σ}.
Arguments ApiextensionsV1 {σ}.
Arguments ApiextensionsV1beta1 {σ}.

(** A Go closure handed to [Poll] reads and assigns variables of the
    enclosing function; [L] is the type of those variables, passed in and
    out of every evaluation. *)
Definition ConditionFunc (σ L : Type) : Type :=
  L -> M σ (L * (bool * option error)).

(** The [poller] interface of register.go. *)
Record poller (σ : Type) := mkPoller {
  Poll : forall L : Type,
    Duration -> Duration -> ConditionFunc σ L -> L -> M σ (L * option error);
}.
Arguments Poll {σ} _ {L}.

(** Modelled from the spec: [wait.Poll] of the vendored
    k8s.io/apimachinery, which [defaultPoll.Poll] calls and which is not
    among the sources.  Section 4.3: the predicate is invoked repeatedly at
    the fixed interval until it reports success, reports an error (which is
    terminal), or the timeout elapses without resolution (a distinct
    timeout error).  The waits between attempts are the only suspension
    points; an evaluation of the predicate takes no logical time. *)
Fixpoint pollAttempts {σ L} (attempts : nat) (interval : Duration)
    (conditionFn : ConditionFunc σ L) (l : L) : M σ (L * option error) :=
  match attempts with
  | O => ret (l, Some ErrWaitTimeout)
  | S attempts' =>
      do _ <- sleep interval;
      do '(l', (ok, err)) <- conditionFn l;
      match err with
      | Some e => ret (l', Some e)
      | None =>
          if ok then ret (l', None)
          else pollAttempts attempts' interval conditionFn l'
      end
  end.

Definition waitPoll {σ L} (interval timeout : Duration)
    (conditionFn : ConditionFunc σ L) (l : L) : M σ (L * option error) :=
  pollAttempts (Z.to_nat (timeout / interval)) interval conditionFn l.

(** [defaultPoll] and [newDefaultPoller] *)
Definition defaultPoll (σ : Type) : poller σ :=
  mkPoller σ (fun L interval duration conditionFn =>
                waitPoll interval duration conditionFn).

Definition newDefaultPoller (σ : Type) : poller σ := defaultPoll σ.

(** The specification gives the number of attempts of the converger only
    roughly ("~120 poll attempts").  The loop below leaves open how many
    ticks are delivered before the timeout: the predicate is evaluated on
    each of [ticks] ticks, one interval apart, and a last time when the
    timeout elapses, [rest] after the last tick; only then is the timeout
    error returned.  [defaultPoll] is this loop with one tick less than
    the intervals that fit into the timeout (lemma [pollAttempts_ticks]);
    with all of them delivered, the last two evaluations fall on the same
    instant. *)
Fixpoint pollTicks {σ L} (ticks : nat) (interval rest : Duration)
    (conditionFn : ConditionFunc σ L) (l : L) : M σ (L * option error) :=
  match ticks with
  | O =>
      do _ <- sleep rest;
      do '(l', (ok, err)) <- conditionFn l;
      match err with
      | Some e => ret (l', Some e)
      | None => if ok then ret (l', None) else ret (l', Some ErrWaitTimeout)
      end
  | S ticks' =>
      do _ <- sleep interval;
      do '(l', (ok, err)) <- conditionFn l;
      match err with
      | Some e => ret (l', Some e)
      | None =>
          if ok then ret (l', None)
          else pollTicks ticks' interval rest conditionFn l'
      end
  end.

Definition tickingPoll (σ : Type) (ticks : nat) : poller σ :=
  mkPoller σ (fun L interval timeout conditionFn =>
                pollTicks ticks interval (timeout - Z.of_nat ticks * interval)
                          conditionFn).

(** [pkg/versioncheck]: parsing and comparing versions.  The package is not
    among the sources; the code below only needs that a string parses or
    does not, and the comparison [LT]. *)
Class versioncheck := {
  semver : Type;
  Version : string -> option semver;
  LT : semver -> semver -> bool;
}.

(** The constants of [pkg/k8s/apis/cilium.io/v2] that register.go reads, and
    the package variable [comparableCRDSchemaVersion], which is
    [versioncheck.MustVersion] of the schema version: the process does not
    start unless that one parses. *)
Class k8sconstv2 `{versioncheck} := {
  CustomResourceDefinitionSchemaVersionKey : string;
  CustomResourceDefinitionSchemaVersion : string;
  CustomResourceDefinitionGroup : string;
  comparableCRDSchemaVersion : semver;
  MustVersion_parses :
    Version CustomResourceDefinitionSchemaVersion = Some comparableCRDSchemaVersion;
}.

(** [k8sversion.Capabilities()] *)
Record ServerCapabilities := mkCapabilities {
  APIExtensionsV1CRD : bool;
}.

(** The two conversion functions of k8s.io/apiextensions-apiserver that
    [convertToV1Beta1CRD] chains, through the internal representation. *)
Class conversion := {
  internalCustomResourceDefinition : Type;
  Convert_v1_CustomResourceDefinition_To_apiextensions_CustomResourceDefinition :
    CustomResourceDefinition -> internalCustomResourceDefinition * option error;
  Convert_apiextensions_CustomResourceDefinition_To_v1beta1_CustomResourceDefinition :
    internalCustomResourceDefinition ->
    v1beta1.CustomResourceDefinition * option error;
}.

(** ** register.go *)

Definition subsysK8s : string := "k8s".

(** The package logger. *)
Definition log : Entry := [("subsys", subsysK8s)].

Section Register.

Context {VC : versioncheck} {Consts : k8sconstv2} {Conv : conversion}.
Context {σ : Type}.

Definition constructV1CRD (name : string)
    (template : CustomResourceDefinition) : CustomResourceDefinition :=
  mkCRD
    (mkMeta name ""
       {[ CustomResourceDefinitionSchemaVersionKey :=
            CustomResourceDefinitionSchemaVersion ]})
    (mkSpec CustomResourceDefinitionGroup
       (mkNames (Plural (Names (Spec template)))
                (Singular (Names (Spec template)))
                (ShortNames (Names (Spec template)))
                (Kind (Names (Spec template)))
                "" [])
       (Scope (Spec template))
       (Versions (Spec template)))
    zeroStatus.

Definition constructV1beta1CRD (name : string)
    (template : v1beta1.CustomResourceDefinition)
    : v1beta1.CustomResourceDefinition :=
  v1beta1.mkCRD
    (mkMeta name ""
       {[ CustomResourceDefinitionSchemaVersionKey :=
            CustomResourceDefinitionSchemaVersion ]})
    (v1beta1.mkSpec CustomResourceDefinitionGroup
       (v1beta1.mkNames
          (v1beta1.Plural (v1beta1.Names (v1beta1.Spec template)))
          (v1beta1.Singular (v1beta1.Names (v1beta1.Spec template)))
          (v1beta1.ShortNames (v1beta1.Names (v1beta1.Spec template)))
          (v1beta1.Kind (v1beta1.Names (v1beta1.Spec template)))
          "" [])
       (v1beta1.Scope (v1beta1.Spec template))
       (v1beta1.Validation (v1beta1.Spec template)))
    (v1beta1.mkStatus []).

Definition needsUpdateV1 (clusterCRD : CustomResourceDefinition)
    : outcome bool :=
  match Versions (Spec clusterCRD) with
  | [] => Panic indexOutOfRange
  | v0 :: _ =>
      match Schema v0 with
      | None =>
          (* no validation detected *)
          Done true
      | Some _ =>
          match Labels (Meta clusterCRD) !! CustomResourceDefinitionSchemaVersionKey with
          | None =>
              (* no schema version detected *)
              Done true
          | Some v =>
              (* version in cluster is either unparsable or smaller than
                 current version *)
              match Version v with
              | None => Done true
              | Some clusterVersion =>
                  if LT clusterVersion comparableCRDSchemaVersion
                  then Done true
                  else Done false
              end
          end
      end
  end.

Definition needsUpdateV1beta1
    (clusterCRD : v1beta1.CustomResourceDefinition) : bool :=
  match v1beta1.Validation (v1beta1.Spec clusterCRD) with
  | None => true
  | Some _ =>
      match Labels (v1beta1.Meta clusterCRD) !! CustomResourceDefinitionSchemaVersionKey with
      | None => true
      | Some v =>
          match Version v with
          | None => true
          | Some clusterVersion =>
              if LT clusterVersion comparableCRDSchemaVersion
              then true
              else false
          end
      end
  end.

Definition convertToV1Beta1CRD (crd : CustomResourceDefinition)
    : option v1beta1.CustomResourceDefinition * option error :=
  match Convert_v1_CustomResourceDefinition_To_apiextensions_CustomResourceDefinition crd with
  | (_, Some err) =>
      (None, Some (New ("unable to convert v1 CRD to internal representation: "
                        +:+ Error err)))
  | (internalCRD, None) =>
      match Convert_apiextensions_CustomResourceDefinition_To_v1beta1_CustomResourceDefinition internalCRD with
      | (_, Some err) =>
          (None, Some (New ("unable to convert internally represented CRD to v1beta1: "
                            +:+ Error err)))
      | (v1beta1CRD, None) => (Some v1beta1CRD, None)
      end
  end.

(** [crd.Spec.Versions[0].Schema != nil] *)
Definition firstSchemaIsSet (crd : CustomResourceDefinition) : outcome bool :=
  match Versions (Spec crd) with
  | [] => Panic indexOutOfRange
  | v0 :: _ => Done (bool_decide (Schema v0 <> None))
  end.

(** [clusterCRD.ObjectMeta.Labels = crd.ObjectMeta.Labels] and
    [clusterCRD.Spec = crd.Spec] *)
Definition overwrite (crd clusterCRD : CustomResourceDefinition)
    : CustomResourceDefinition :=
  mkCRD
    (mkMeta (Name (Meta clusterCRD)) (ResourceVersion (Meta clusterCRD))
            (Labels (Meta crd)))
    (Spec crd)
    (Status clusterCRD).

(** The closure [updateV1CRD] polls with; it assigns [clusterCRD]. *)
Definition applyPredicate (scopedLog : Entry) (crd : CustomResourceDefinition)
    (client : CustomResourceDefinitionsGetter σ)
    : ConditionFunc σ (option CustomResourceDefinition) :=
  fun _ =>
    do '(clusterCRD, err) <- request (CallGet (Name (Meta crd)))
                                     (Get client (Name (Meta crd)));
    match err with
    | Some e => ret (clusterCRD, (false, Some e))
    | None =>
        do fetched <- deref clusterCRD;
        do stale <- lift (needsUpdateV1 fetched);
        if stale then
          do _ <- Debug scopedLog "CRD validation is different, updating it...";
          let updated := overwrite crd fetched in
          do '(_, err) <- request (CallUpdate updated) (Update client updated);
          match err with
          | None => ret (Some updated, (true, None))
          | Some e =>
              do _ <- Debug (WithError e scopedLog)
                            "Unable to update CRD validation";
              ret (Some updated, (false, Some e))
          end
        else ret (clusterCRD, (true, None))
    end.

Definition updateV1CRD (scopedLog : Entry)
    (crd : CustomResourceDefinition)
    (clusterCRD : option CustomResourceDefinition)
    (client : CustomResourceDefinitionsGetter σ)
    (poller : poller σ) : M σ (option error) :=
  do _ <- Debug scopedLog
                "Checking if CRD (CustomResourceDefinition) needs update...";
  do hasSchema <- lift (firstSchemaIsSet crd);
  do stale <- (if hasSchema
               then do cluster <- deref clusterCRD; lift (needsUpdateV1 cluster)
               else ret false);
  if stale then
    do _ <- Info scopedLog "Updating CRD (CustomResourceDefinition)...";
    do '(_, err) <- Poll poller (500 * Millisecond) (60 * Second)
                         (applyPredicate scopedLog crd client) clusterCRD;
    match err with
    | Some e =>
        do _ <- Error_ (WithError e scopedLog) "Unable to update CRD";
        ret (Some e)
    | None => ret None
    end
  else ret None.

(** The [for _, cond := range crd.Status.Conditions] loop of the ready
    predicate: [Some] is what the closure returns from inside the loop,
    [None] is falling out of it. *)
Fixpoint rangeConditions (scopedLog : Entry)
    (conds : list CustomResourceDefinitionCondition)
    : M σ (option (bool * option error)) :=
  match conds with
  | [] => ret None
  | cond :: rest =>
      if bool_decide (Type_ cond = Established) then
        if bool_decide (Status_ cond = ConditionTrue)
        then ret (Some (true, None))
        else rangeConditions scopedLog rest
      else if bool_decide (Type_ cond = NamesAccepted) then
        if bool_decide (Status_ cond = ConditionFalse) then
          let err := New (Reason cond) in
          do _ <- Error_ (WithError err scopedLog) "Name conflict for CRD";
          ret (Some (false, Some err))
        else rangeConditions scopedLog rest
      else rangeConditions scopedLog rest
  end.

(** The closure [waitForV1CRD] polls with; it assigns [crd]. *)
Definition readyPredicate (scopedLog : Entry)
    (client : CustomResourceDefinitionsGetter σ)
    : ConditionFunc σ (option CustomResourceDefinition) :=
  fun crd =>
    do current <- deref crd;
    do seen <- rangeConditions scopedLog (Conditions (Status current));
    match seen with
    | Some result => ret (crd, result)
    | None =>
        do '(crd', err) <- request (CallGet (Name (Meta current)))
                                   (Get client (Name (Meta current)));
        ret (crd', (false, err))
    end.

Definition waitForV1CRD (scopedLog : Entry) (crdName : string)
    (crd : option CustomResourceDefinition)
    (client : CustomResourceDefinitionsGetter σ)
    (poller : poller σ) : M σ (option error) :=
  do _ <- Debug scopedLog
                "Waiting for CRD (CustomResourceDefinition) to be available...";
  do '(crd, err) <- Poll poller (500 * Millisecond) (60 * Second)
                         (readyPredicate scopedLog client) crd;
  match err with
  | Some err =>
      do current <- deref crd;
      do deleteErr <- request (CallDelete (Name (Meta current)))
                              (Delete client (Name (Meta current)));
      match deleteErr with
      | Some deleteErr =>
          do _ <- Error_ (WithField "deleteErr" (Error deleteErr)
                            (WithError err scopedLog))
                         "Failed to delete CRD";
          ret (Some (Errorf "unable to delete CRD: " deleteErr))
      | None => ret (Some (Errorf "error occurred waiting for CRD: " err))
      end
  | None => ret None
  end.

(** *** The v1beta1 mirror *)

Definition overwriteV1beta1 (crd clusterCRD : v1beta1.CustomResourceDefinition)
    : v1beta1.CustomResourceDefinition :=
  v1beta1.mkCRD
    (mkMeta (Name (v1beta1.Meta clusterCRD))
            (ResourceVersion (v1beta1.Meta clusterCRD))
            (Labels (v1beta1.Meta crd)))
    (v1beta1.Spec crd)
    (v1beta1.Status clusterCRD).

Definition applyPredicateV1beta1 (scopedLog : Entry)
    (crd : v1beta1.CustomResourceDefinition)
    (client : V1beta1CustomResourceDefinitionsGetter σ)
    : ConditionFunc σ (option v1beta1.CustomResourceDefinition) :=
  fun _ =>
    do '(clusterCRD, err) <- request (CallGetV1beta1 (Name (v1beta1.Meta crd)))
                                     (GetV1beta1 client (Name (v1beta1.Meta crd)));
    match err with
    | Some e => ret (clusterCRD, (false, Some e))
    | None =>
        do fetched <- deref clusterCRD;
        if needsUpdateV1beta1 fetched then
          do _ <- Debug scopedLog "CRD validation is different, updating it...";
          let updated := overwriteV1beta1 crd fetched in
          do '(_, err) <- request (CallUpdateV1beta1 updated)
                                  (UpdateV1beta1 client updated);
          match err with
          | None => ret (Some updated, (true, None))
          | Some e =>
              do _ <- Debug (WithError e scopedLog)
                            "Unable to update CRD validation";
              ret (Some updated, (false, Some e))
          end
        else ret (clusterCRD, (true, None))
    end.

Definition updateV1beta1CRD (scopedLog : Entry)
    (crd : v1beta1.CustomResourceDefinition)
    (clusterCRD : option v1beta1.CustomResourceDefinition)
    (client : V1beta1CustomResourceDefinitionsGetter σ)
    (poller : poller σ) : M σ (option error) :=
  do _ <- Debug scopedLog
                "Checking if CRD (CustomResourceDefinition) needs update...";
  do stale <- (if bool_decide (v1beta1.Validation (v1beta1.Spec crd) <> None)
               then do cluster <- deref clusterCRD;
                    ret (needsUpdateV1beta1 cluster)
               else ret false);
  if stale then
    do _ <- Info scopedLog "Updating CRD (CustomResourceDefinition)...";
    do '(_, err) <- Poll poller (500 * Millisecond) (60 * Second)
                         (applyPredicateV1beta1 scopedLog crd client) clusterCRD;
    match err with
    | Some e =>
        do _ <- Error_ (WithError e scopedLog) "Unable to update CRD";
        ret (Some e)
    | None => ret None
    end
  else ret None.

Fixpoint rangeConditionsV1beta1 (scopedLog : Entry)
    (conds : list v1beta1.CustomResourceDefinitionCondition)
    : M σ (option (bool * option error)) :=
  match conds with
  | [] => ret None
  | cond :: rest =>
      if bool_decide (v1beta1.Type_ cond = v1beta1.Established) then
        if bool_decide (v1beta1.Status_ cond = v1beta1.ConditionTrue)
        then ret (Some (true, None))
        else rangeConditionsV1beta1 scopedLog rest
      else if bool_decide (v1beta1.Type_ cond = v1beta1.NamesAccepted) then
        if bool_decide (v1beta1.Status_ cond = v1beta1.ConditionFalse) then
          let err := New (v1beta1.Reason cond) in
          do _ <- Error_ (WithError err scopedLog) "Name conflict for CRD";
          ret (Some (false, Some err))
        else rangeConditionsV1beta1 scopedLog rest
      else rangeConditionsV1beta1 scopedLog rest
  end.

Definition readyPredicateV1beta1 (scopedLog : Entry)
    (client : V1beta1CustomResourceDefinitionsGetter σ)
    : ConditionFunc σ (option v1beta1.CustomResourceDefinition) :=
  fun crd =>
    do current <- deref crd;
    do seen <- rangeConditionsV1beta1 scopedLog
                 (v1beta1.Conditions (v1beta1.Status current));
    match seen with
    | Some result => ret (crd, result)
    | None =>
        do '(crd', err) <-
           request (CallGetV1beta1 (Name (v1beta1.Meta current)))
                   (GetV1beta1 client (Name (v1beta1.Meta current)));
        ret (crd', (false, err))
    end.

Definition waitForV1beta1CRD (scopedLog : Entry) (crdName : string)
    (crd : option v1beta1.CustomResourceDefinition)
    (client : V1beta1CustomResourceDefinitionsGetter σ)
    (poller : poller σ) : M σ (option error) :=
  do _ <- Debug scopedLog
                "Waiting for CRD (CustomResourceDefinition) to be available...";
  do '(crd, err) <- Poll poller (500 * Millisecond) (60 * Second)
                         (readyPredicateV1beta1 scopedLog client) crd;
  match err with
  | Some err =>
      do current <- deref crd;
      do deleteErr <-
         request (CallDeleteV1beta1 (Name (v1beta1.Meta current)))
                 (DeleteV1beta1 client (Name (v1beta1.Meta current)));
      match deleteErr with
      | Some deleteErr =>
          do _ <- Error_ (WithField "deleteErr" (Error deleteErr)
                            (WithError err scopedLog))
                         "Failed to delete CRD";
          ret (Some (Errorf "unable to delete CRD: " deleteErr))
      | None => ret (Some (Errorf "error occurred waiting for CRD: " err))
      end
  | None => ret None
  end.

Definition createUpdateV1beta1CRD (scopedLog : Entry)
    (client : V1beta1CustomResourceDefinitionsGetter σ)
    (crdName : string) (crd : CustomResourceDefinition)
    (poller : poller σ) : M σ (option error) :=
  let '(v1beta1CRD, err) := convertToV1Beta1CRD crd in
  match err with
  | Some e => ret (Some e)
  | None =>
      do converted <- deref v1beta1CRD;
      let installed clusterCRD err :=
        match err with
        | Some e => ret (Some e)
        | None =>
            do err <- updateV1beta1CRD scopedLog converted clusterCRD client poller;
            match err with
            | Some e => ret (Some e)
            | None =>
                do err <- waitForV1beta1CRD scopedLog crdName clusterCRD client poller;
                match err with
                | Some e => ret (Some e)
                | None =>
                    do _ <- Info scopedLog
                      "CRD (CustomResourceDefinition) is installed and up-to-date";
                    ret None
                end
            end
        end in
      do '(clusterCRD, err) <-
         request (CallGetV1beta1 (Name (v1beta1.Meta converted)))
                 (GetV1beta1 client (Name (v1beta1.Meta converted)));
      if IsNotFound err then
        do _ <- Info scopedLog "Creating CRD (CustomResourceDefinition)...";
        do '(clusterCRD, err) <- request (CallCreateV1beta1 converted)
                                         (CreateV1beta1 client converted);
        if IsAlreadyExists err then ret None
        else installed clusterCRD err
      else installed clusterCRD err
  end.

(** *** The entry point for one kind *)

Definition createUpdateCRD (capabilities : ServerCapabilities)
    (clientset : Clientset σ) (crdName : string)
    (crd : CustomResourceDefinition) (poller : poller σ)
    : M σ (option error) :=
  let scopedLog := WithField "name" crdName log in
  if negb (APIExtensionsV1CRD capabilities) then
    do _ <- Info log
      "K8s apiserver does not support v1 CRDs, falling back to v1beta1";
    createUpdateV1beta1CRD scopedLog (ApiextensionsV1beta1 clientset)
                           crdName crd poller
  else
    let v1CRDClient := ApiextensionsV1 clientset in
    let installed clusterCRD err :=
      match err with
      | Some e => ret (Some e)
      | None =>
          do err <- updateV1CRD scopedLog crd clusterCRD v1CRDClient poller;
          match err with
          | Some e => ret (Some e)
          | None =>
              do err <- waitForV1CRD scopedLog crdName clusterCRD v1CRDClient poller;
              match err with
              | Some e => ret (Some e)
              | None =>
                  do _ <- Info scopedLog
                    "CRD (CustomResourceDefinition) is installed and up-to-date";
                  ret None
              end
          end
      end in
    do '(clusterCRD, err) <- request (CallGet (Name (Meta crd)))
                                     (Get v1CRDClient (Name (Meta crd)));
    if IsNotFound err then
      do _ <- Info scopedLog "Creating CRD (CustomResourceDefinition)...";
      do '(clusterCRD, err) <- request (CallCreate crd) (Create v1CRDClient crd);
      if IsAlreadyExists err then ret None
      else installed clusterCRD err
    else installed clusterCRD err.

End Register.

(** ** Concrete collaborators

    Instances of the interfaces above, on which the code can be run. *)

(** Modelled from the spec: [pkg/versioncheck] is not among the sources.
    Section 3 asks of a schema version only that it is a comparable token
    with a strict order and that a label may fail to parse.  Here a version
    is one to three dot-separated decimal numbers, missing ones read as 0,
    ordered lexicographically. *)
Module dotted.

Definition digitValue (a : ascii) : option N :=
  let n := N_of_ascii a in
  if ((48 <=? n) && (n <=? 57))%N then Some (n - 48)%N else None.

Fixpoint parseDecimal (s : string) (acc : N) : option N :=
  match s with
  | EmptyString => Some acc
  | String a s' =>
      match digitValue a with
      | Some d => parseDecimal s' (10 * acc + d)%N
      | None => None
      end
  end.

Definition parseNumber (s : string) : option N :=
  match s with
  | EmptyString => None
  | _ => parseDecimal s 0%N
  end.

Fixpoint splitOnDot (s current : string) : list string :=
  match s with
  | EmptyString => [current]
  | String a s' =>
      if bool_decide (a = "."%char) then current :: splitOnDot s' ""
      else splitOnDot s' (current +:+ String a "")
  end.

Definition parse (s : string) : option (N * N * N) :=
  match parseNumber <$> splitOnDot s "" with
  | [Some major] => Some (major, 0%N, 0%N)
  | [Some major; Some minor] => Some (major, minor, 0%N)
  | [Some major; Some minor; Some patch] => Some (major, minor, patch)
  | _ => None
  end.

Definition lt (a b : N * N * N) : bool :=
  let '(a1, a2, a3) := a in
  let '(b1, b2, b3) := b in
  ((a1 <? b1) || ((a1 =? b1) && ((a2 <? b2) || ((a2 =? b2) && (a3 <? b3)))))%N.

End dotted.

#[global] Instance dottedVersions : versioncheck := {|
  semver := N * N * N;
  Version := dotted.parse;
  LT := dotted.lt;
|}.

#[global] Instance ciliumConsts : k8sconstv2 := {|
  CustomResourceDefinitionSchemaVersionKey := "io.cilium.k8s.crd.schema.version";
  CustomResourceDefinitionSchemaVersion := "1.22";
  CustomResourceDefinitionGroup := "cilium.io";
  comparableCRDSchemaVersion := (1, 22, 0)%N;
  MustVersion_parses := eq_refl;
|}.

(** A conversion for the examples: the internal representation is the v1
    object, and the v1beta1 validation is the schema of the first version. *)
Definition toV1beta1 (crd : CustomResourceDefinition)
    : v1beta1.CustomResourceDefinition :=
  v1beta1.mkCRD (Meta crd)
    (v1beta1.mkSpec (Group (Spec crd))
       (v1beta1.mkNames (Plural (Names (Spec crd))) (Singular (Names (Spec crd)))
          (ShortNames (Names (Spec crd))) (Kind (Names (Spec crd)))
          (ListKind (Names (Spec crd))) (Categories (Names (Spec crd))))
       (Scope (Spec crd))
       (match Versions (Spec crd) with
        | v0 :: _ => Schema v0
        | [] => None
        end))
    (v1beta1.mkStatus []).

#[global] Instance plainConversion : conversion := {|
  internalCustomResourceDefinition := CustomResourceDefinition;
  Convert_v1_CustomResourceDefinition_To_apiextensions_CustomResourceDefinition crd :=
    (crd, None);
  Convert_apiextensions_CustomResourceDefinition_To_v1beta1_CustomResourceDefinition crd :=
    (toV1beta1 crd, None);
|}.

(** A client that answers from a table: the state counts the requests
    served so far, and the answer to a request depends on that count only.
    Any finite behaviour of a real apiserver, races with other agents
    included, is a table. *)
Record Answers := mkAnswers {
  onGet : nat -> option CustomResourceDefinition * option error;
  onCreate : nat -> option CustomResourceDefinition * option error;
  onUpdate : nat -> option CustomResourceDefinition * option error;
  onDelete : nat -> option error;
}.

Definition tableClient (a : Answers) : CustomResourceDefinitionsGetter nat :=
  mkClient
    (fun _ n => (onGet a n, S n))
    (fun _ n => (onCreate a n, S n))
    (fun _ n => (onUpdate a n, S n))
    (fun _ n => (onDelete a n, S n)).

Record AnswersV1beta1 := mkAnswersV1beta1 {
  onGetV1beta1 : nat -> option v1beta1.CustomResourceDefinition * option error;
  onCreateV1beta1 : nat -> option v1beta1.CustomResourceDefinition * option error;
  onUpdateV1beta1 : nat -> option v1beta1.CustomResourceDefinition * option error;
  onDeleteV1beta1 : nat -> option error;
}.

Definition tableClientV1beta1 (a : AnswersV1beta1)
    : V1beta1CustomResourceDefinitionsGetter nat :=
  mkV1beta1Client
    (fun _ n => (onGetV1beta1 a n, S n))
    (fun _ n => (onCreateV1beta1 a n, S n))
    (fun _ n => (onUpdateV1beta1 a n, S n))
    (fun _ n => (onDeleteV1beta1 a n, S n)).

Definition notFound (name : string) : error :=
  StatusError StatusReasonNotFound
    ("customresourcedefinitions.apiextensions.k8s.io " +:+ name +:+ " not found").
Definition alreadyExists (name : string) : error :=
  StatusError StatusReasonAlreadyExists
    ("customresourcedefinitions.apiextensions.k8s.io " +:+ name +:+ " already exists").
Definition conflict (name : string) : error :=
  StatusError StatusReasonConflict
    ("Operation cannot be fulfilled on customresourcedefinitions.apiextensions.k8s.io "
     +:+ name +:+ ": the object has been modified").
Definition forbidden : error :=
  StatusError StatusReasonForbidden "customresourcedefinitions is forbidden".

(** Modelled from the spec: the control plane, an external collaborator
    (section 6: Get, Create, Update and Delete on definition objects keyed
    by their qualified name), with no other writer: objects live in a map,
    Create refuses a name that is taken, Update and Delete refuse a name
    that is not there. *)
Definition storeClient : CustomResourceDefinitionsGetter (gmap string CustomResourceDefinition) :=
  mkClient
    (fun name store =>
       match store !! name with
       | Some obj => ((Some obj, None), store)
       | None => ((None, Some (notFound name)), store)
       end)
    (fun obj store =>
       match store !! Name (Meta obj) with
       | Some _ => ((None, Some (alreadyExists (Name (Meta obj)))), store)
       | None => ((Some obj, None), <[Name (Meta obj) := obj]> store)
       end)
    (fun obj store =>
       match store !! Name (Meta obj) with
       | Some _ => ((Some obj, None), <[Name (Meta obj) := obj]> store)
       | None => ((None, Some (notFound (Name (Meta obj)))), store)
       end)
    (fun name store =>
       match store !! name with
       | Some _ => (None, delete name store)
       | None => (Some (notFound name), store)
       end).

Definition noV1beta1 {σ} : V1beta1CustomResourceDefinitionsGetter σ :=
  mkV1beta1Client
    (fun name s => ((None, Some (notFound name)), s))
    (fun obj s => ((None, Some forbidden), s))
    (fun obj s => ((None, Some forbidden), s))
    (fun name s => (Some (notFound name), s)).

Definition noV1 {σ} : CustomResourceDefinitionsGetter σ :=
  mkClient
    (fun name s => ((None, Some (notFound name)), s))
    (fun obj s => ((None, Some forbidden), s))
    (fun obj s => ((None, Some forbidden), s))
    (fun name s => (Some (notFound name), s)).

(** The world at the start of a run. *)
Definition start {σ} (s : σ) : World σ := mkWorld s [] [] 0.

(** Objects for the examples: the CiliumNetworkPolicy definition. *)
Definition CNPName : string := "ciliumnetworkpolicies.cilium.io".
Definition CNPCRDName : string := "ciliumnetworkpolicies.cilium.io/v2".

Definition cnpNames : CustomResourceDefinitionNames :=
  mkNames "ciliumnetworkpolicies" "ciliumnetworkpolicy" ["cnp"; "ciliumnp"]
          "CiliumNetworkPolicy" "" [].

Definition cnpTemplate : CustomResourceDefinition :=
  mkCRD (mkMeta CNPName "" ∅)
        (mkSpec "cilium.io" cnpNames "Namespaced"
                [mkVersion "v2" true true (Some "openAPIV3Schema")])
        zeroStatus.

(** The same template without a schema payload. *)
Definition cnpTemplateNoSchema : CustomResourceDefinition :=
  mkCRD (mkMeta CNPName "" ∅)
        (mkSpec "cilium.io" cnpNames "Namespaced"
                [mkVersion "v2" true true None])
        zeroStatus.

(** What an older agent installed: schema version 1.21, an older payload. *)
Definition cnpInstalledOld (conds : list CustomResourceDefinitionCondition)
    : CustomResourceDefinition :=
  mkCRD (mkMeta CNPName "41" {[ "io.cilium.k8s.crd.schema.version" := "1.21" ]})
        (mkSpec "cilium.io" cnpNames "Namespaced"
                [mkVersion "v2" true true (Some "olderSchema")])
        (mkStatus conds).

(** What this agent installs, as the apiserver reports it back. *)
Definition cnpInstalled (conds : list CustomResourceDefinitionCondition)
    : CustomResourceDefinition :=
  mkCRD (mkMeta CNPName "42" {[ "io.cilium.k8s.crd.schema.version" := "1.22" ]})
        (mkSpec "cilium.io" cnpNames "Namespaced"
                [mkVersion "v2" true true (Some "openAPIV3Schema")])
        (mkStatus conds).

(** The baseline objects [createCNPCRD] would hand to [createUpdateCRD],
    and an apiserver that holds the older object. *)
Definition cnpBaseline : CustomResourceDefinition :=
  constructV1CRD CNPName cnpTemplate.

Definition cnpBaselineNoSchema : CustomResourceDefinition :=
  constructV1CRD CNPName cnpTemplateNoSchema.

Definition cnpStore : gmap string CustomResourceDefinition :=
  {[ CNPName := cnpInstalledOld [] ]}.

(** Conditions an apiserver reports. *)
Definition namesConflict : CustomResourceDefinitionCondition :=
  mkCondition NamesAccepted ConditionFalse "PluralConflict".
Definition installing : CustomResourceDefinitionCondition :=
  mkCondition Established ConditionFalse "Installing".
Definition namesAccepted : CustomResourceDefinitionCondition :=
  mkCondition NamesAccepted ConditionTrue "NoConflicts".

(** Behaviours of the apiserver, as tables. *)

(** Another agent creates the object between this agent's Get and Create. *)
Definition raceLost : Answers :=
  mkAnswers (fun _ => (None, Some (notFound CNPName)))
            (fun _ => (None, Some (alreadyExists CNPName)))
            (fun _ => (None, Some forbidden))
            (fun _ => Some forbidden).

Definition raceLostV1beta1 : AnswersV1beta1 :=
  mkAnswersV1beta1 (fun _ => (None, Some (notFound CNPName)))
                   (fun _ => (None, Some (alreadyExists CNPName)))
                   (fun _ => (None, Some forbidden))
                   (fun _ => Some forbidden).

(** The names of the object collide, and the agent may not delete it. *)
Definition deleteRefused : Answers :=
  mkAnswers (fun _ => (Some (cnpInstalled [namesConflict]), None))
            (fun _ => (None, Some forbidden))
            (fun _ => (None, Some forbidden))
            (fun _ => Some forbidden).

(** An older object is installed, and the agent may not update it. *)
Definition updateRefused : Answers :=
  mkAnswers (fun _ => (Some (cnpInstalledOld []), None))
            (fun _ => (None, Some forbidden))
            (fun _ => (None, Some forbidden))
            (fun _ => None).

(** An older object is installed; the first Update loses against another
    writer, every later one would go through. *)
Definition conflictOnce : Answers :=
  mkAnswers (fun _ => (Some (cnpInstalledOld []), None))
            (fun _ => (None, Some forbidden))
            (fun n => if (n <=? 1)%nat
                      then (None, Some (conflict CNPName))
                      else (Some (cnpInstalled []), None))
            (fun _ => None).

(** The object is being installed; from the second Get on it shows a
    naming conflict. *)
Definition conflictAppears : Answers :=
  mkAnswers (fun n => if (n <? 1)%nat
                      then (Some (cnpInstalled [installing]), None)
                      else (Some (cnpInstalled [installing; namesConflict]), None))
            (fun _ => (None, Some forbidden))
            (fun _ => (None, Some forbidden))
            (fun _ => None).

(** An older object was installed when this agent looked it up; by the
    time the apply loop reads it again, an agent of a later release has
    written schema version 1.23. *)
Definition cnpInstalledNewer : CustomResourceDefinition :=
  mkCRD (mkMeta CNPName "43" {[ "io.cilium.k8s.crd.schema.version" := "1.23" ]})
        (mkSpec "cilium.io" cnpNames "Namespaced"
                [mkVersion "v2" true true (Some "newerSchema")])
        zeroStatus.

Definition updatedByAnother : Answers :=
  mkAnswers (fun _ => (Some cnpInstalledNewer, None))
            (fun _ => (None, Some forbidden))
            (fun _ => (None, Some (conflict CNPName)))
            (fun _ => None).

(** The object never gets established. *)
Definition neverReady : Answers :=
  mkAnswers (fun _ => (Some (cnpInstalled [namesAccepted; installing]), None))
            (fun _ => (None, Some forbidden))
            (fun _ => (None, Some forbidden))
            (fun _ => None).

Definition v1Capable : ServerCapabilities := mkCapabilities true.
Definition v1beta1Only : ServerCapabilities := mkCapabilities false.

(** More conditions and behaviours. *)
Definition established : CustomResourceDefinitionCondition :=
  mkCondition Established ConditionTrue "InitialNamesAccepted".

Definition internalError : error :=
  StatusError StatusReasonInternalError "etcdserver: request timed out".

(** The object is installed, current and established. *)
Definition alreadyInstalled : Answers :=
  mkAnswers (fun _ => (Some (cnpInstalled [namesAccepted; established]), None))
            (fun _ => (None, Some (alreadyExists CNPName)))
            (fun _ => (None, Some forbidden))
            (fun _ => None).

(** The apiserver cannot answer. *)
Definition unreachable : Answers :=
  mkAnswers (fun _ => (None, Some internalError))
            (fun _ => (None, Some internalError))
            (fun _ => (None, Some internalError))
            (fun _ => Some internalError).

(** Nothing is installed, and the agent may not create. *)
Definition createRefused : Answers :=
  mkAnswers (fun _ => (None, Some (notFound CNPName)))
            (fun _ => (None, Some forbidden))
            (fun _ => (None, Some forbidden))
            (fun _ => Some forbidden).

(** An older, established object is installed, and the Update goes
    through. *)
Definition upgrade : Answers :=
  mkAnswers (fun _ => (Some (cnpInstalledOld [namesAccepted; established]), None))
            (fun _ => (None, Some (alreadyExists CNPName)))
            (fun _ => (Some (cnpInstalled [namesAccepted; established]), None))
            (fun _ => None).

(** Nothing is installed; the Create goes through, and the object is
    established at the second Get. *)
Definition freshInstall : Answers :=
  mkAnswers (fun n => if (n <=? 0)%nat
                      then (None, Some (notFound CNPName))
                      else if (n <=? 2)%nat
                      then (Some (cnpInstalled [installing]), None)
                      else (Some (cnpInstalled [namesAccepted; established]), None))
            (fun _ => (Some (cnpInstalled []), None))
            (fun _ => (None, Some forbidden))
            (fun _ => None).

(** What a typed client hands back next to an error: an empty object. *)
Definition emptyObject : CustomResourceDefinition :=
  mkCRD (mkMeta "" "" ∅) (mkSpec "" (mkNames "" "" [] "" "" []) "" []) zeroStatus.

(** The first Get of the wait fails, with an empty object. *)
Definition getBreaks : Answers :=
  mkAnswers (fun _ => (Some emptyObject, Some internalError))
            (fun _ => (None, Some forbidden))
            (fun _ => (None, Some forbidden))
            (fun _ => None).

(** The first Get of the wait fails, with a nil pointer, as the fake
    clientset of the tests answers. *)
Definition getBreaksNil : Answers :=
  mkAnswers (fun _ => (None, Some internalError))
            (fun _ => (None, Some forbidden))
            (fun _ => (None, Some forbidden))
            (fun _ => None).

(** A conversion that fails on the way to the internal representation. *)
Definition brokenConversion : conversion := {|
  internalCustomResourceDefinition := CustomResourceDefinition;
  Convert_v1_CustomResourceDefinition_To_apiextensions_CustomResourceDefinition crd :=
    (crd, Some (New "converting (v1.CustomResourceDefinition) is not supported"));
  Convert_apiextensions_CustomResourceDefinition_To_v1beta1_CustomResourceDefinition crd :=
    (toV1beta1 crd, None);
|}.

(** v1beta1 objects and behaviours. *)
Definition cnpV1beta1 (validation : option string) (labels : gmap string string)
    (conds : list v1beta1.CustomResourceDefinitionCondition)
    : v1beta1.CustomResourceDefinition :=
  v1beta1.mkCRD (mkMeta CNPName "41" labels)
    (v1beta1.mkSpec "cilium.io"
       (v1beta1.mkNames "ciliumnetworkpolicies" "ciliumnetworkpolicy"
          ["cnp"; "ciliumnp"] "CiliumNetworkPolicy" "" [])
       "Namespaced" validation)
    (v1beta1.mkStatus conds).

Definition oldLabel : gmap string string :=
  {[ "io.cilium.k8s.crd.schema.version" := "1.21" ]}.


Definition legacyUpdateRefused : AnswersV1beta1 :=
  mkAnswersV1beta1
    (fun _ => (Some (cnpV1beta1 (Some "olderSchema") oldLabel []), None))
    (fun _ => (None, Some forbidden))
    (fun _ => (None, Some (conflict CNPName)))
    (fun _ => None).


(** The race is lost, and the errors of the apiserver reach the agent
    wrapped by a layer in between. *)
Definition raceLostWrapped : Answers :=
  mkAnswers (fun _ => (None, Some (Errorf "get: " (notFound CNPName))))
            (fun _ => (None, Some (Errorf "create: " (alreadyExists CNPName))))
            (fun _ => (None, Some forbidden))
            (fun _ => Some forbidden).

(** ** Vocabulary of the specification *)

Section Vocabulary.

Context {VC : versioncheck} {Consts : k8sconstv2}.
Context {σ : Type}.

(** Section 4.2, in its own words: an object is stale when it has no
    schema payload recorded, or its version label is absent, unparsable,
    or strictly less than the baseline. *)
Definition staleBySpec (object : CustomResourceDefinition) : Prop :=
  (exists v0 rest, Versions (Spec object) = v0 :: rest /\ Schema v0 = None)
  \/ Labels (Meta object) !! CustomResourceDefinitionSchemaVersionKey = None
  \/ (exists label,
        Labels (Meta object) !! CustomResourceDefinitionSchemaVersionKey = Some label
        /\ Version label = None)
  \/ (exists label clusterVersion,
        Labels (Meta object) !! CustomResourceDefinitionSchemaVersionKey = Some label
        /\ Version label = Some clusterVersion
        /\ LT clusterVersion comparableCRDSchemaVersion = true).

(** A condition that ends the wait: Established=true ends it well,
    NamesAccepted=false ends it badly. *)
Definition isEstablished (c : CustomResourceDefinitionCondition) : Prop :=
  Type_ c = Established /\ Status_ c = ConditionTrue.

Definition isNameConflict (c : CustomResourceDefinitionCondition) : Prop :=
  Type_ c = NamesAccepted /\ Status_ c = ConditionFalse.

(** None of the conditions ends the wait. *)
Definition notYetReady (conds : list CustomResourceDefinitionCondition) : Prop :=
  Forall (fun c => ~ isEstablished c /\ ~ isNameConflict c) conds.

(** The scan of the conditions, in order, meets a NamesAccepted=false
    condition with the given reason before anything else that ends the
    wait. *)
Definition observesNameConflict
    (conds : list CustomResourceDefinitionCondition) (reason : string) : Prop :=
  exists before c after,
    conds = before ++ c :: after
    /\ notYetReady before
    /\ isNameConflict c
    /\ Reason c = reason.

(** [k] evaluations of the ready predicate in a row, one poll interval
    apart, each of which came back "not yet" without an error. *)
Inductive pendingPolls (scopedLog : Entry)
    (client : CustomResourceDefinitionsGetter σ)
    : nat -> World σ -> option CustomResourceDefinition ->
      World σ -> option CustomResourceDefinition -> Prop :=
| pending_done w crd : pendingPolls scopedLog client 0 w crd w crd
| pending_step k w crd w1 crd1 w' crd' :
    readyPredicate scopedLog client crd (snd (sleep (500 * Millisecond) w))
      = (Done (crd1, (false, None)), w1) ->
    pendingPolls scopedLog client k w1 crd1 w' crd' ->
    pendingPolls scopedLog client (S k) w crd w' crd'.

(** The apiserver keeps answering Get for [name] with an object of that
    name none of whose conditions ends the wait, as long as [I] holds of
    its state; and [I] is kept. *)
Definition keepsPending (client : CustomResourceDefinitionsGetter σ)
    (name : string) (I : σ -> Prop) : Prop :=
  forall s, I s ->
    exists c s',
      Get client name s = ((Some c, None), s')
      /\ I s'
      /\ Name (Meta c) = name
      /\ notYetReady (Conditions (Status c)).

(** The world after one log record. *)
Definition logged (l : Level) (e : Entry) (msg : string) (w : World σ) : World σ :=
  mkWorld (apiserver w) (calls w) (logs w ++ [mkLog l msg e]) (clock w).



(** An error reports another one when that one is in its chain, or its
    message is part of the error's message. *)
Definition reports (e original : error) : bool :=
  Is e original || Contains (Error e) (Error original).

End Vocabulary.

(** ** Vocabulary for the rest of register.go *)

(** The API surface a request went to. *)
Definition isV1 (c : Call) : bool :=
  match c with
  | CallGet _ | CallCreate _ | CallUpdate _ | CallDelete _ => true
  | _ => false
  end.

Definition isV1beta1 (c : Call) : bool := negb (isV1 c).

Section RunVocabulary.

Context {VC : versioncheck} {Consts : k8sconstv2}.
Context {σ : Type}.

(** The scan of the conditions, in order, meets Established=true before
    anything else that ends the wait. *)
Definition observesEstablished
    (conds : list CustomResourceDefinitionCondition) : Prop :=
  exists before c after,
    conds = before ++ c :: after
    /\ notYetReady before
    /\ isEstablished c.

(** Every run of [m] relates the world it starts in to the world it
    leaves, however it ends. *)
Definition keeps {A} (R : World σ -> World σ -> Prop) (m : M σ A) : Prop :=
  forall w r w', m w = (r, w') -> R w w'.

(** Requests were added, all of one kind; nothing was taken away. *)
Definition onlyAdded (P : Call -> bool) (w w' : World σ) : Prop :=
  exists added, calls w' = calls w ++ added /\ forallb P added = true.

(** The clock moved forward, by no more than [d]. *)
Definition within (d : Duration) (w w' : World σ) : Prop :=
  clock w <= clock w' <= clock w + d.


(** The v1beta1 staleness check in words: no validation recorded, or the
    version label absent, unparsable, or strictly below the baseline. *)
Definition staleV1beta1 (object : v1beta1.CustomResourceDefinition) : Prop :=
  v1beta1.Validation (v1beta1.Spec object) = None
  \/ Labels (v1beta1.Meta object) !! CustomResourceDefinitionSchemaVersionKey = None
  \/ (exists label,
        Labels (v1beta1.Meta object) !! CustomResourceDefinitionSchemaVersionKey
          = Some label
        /\ Version label = None)
  \/ (exists label clusterVersion,
        Labels (v1beta1.Meta object) !! CustomResourceDefinitionSchemaVersionKey
          = Some label
        /\ Version label = Some clusterVersion
        /\ LT clusterVersion comparableCRDSchemaVersion = true).

End RunVocabulary.

(** * Properties *)

Section Properties.

Context {VC : versioncheck} {Consts : k8sconstv2} {Conv : conversion}.
Context {σ : Type}.

Implicit Types (w : World σ) (crd : CustomResourceDefinition)
               (client : CustomResourceDefinitionsGetter σ)
               (scopedLog : Entry).

(** *** The staleness check *)

Lemma needsUpdateV1_reflects (object : CustomResourceDefinition) :
  Versions (Spec object) <> [] ->
  exists b, needsUpdateV1 object = Done b /\ (b = true <-> staleBySpec object).
Proof.
  intros Hne. unfold needsUpdateV1, staleBySpec.
  destruct (Versions (Spec object)) as [|v0 rest] eqn:Hv; [congruence|].
  destruct (Schema v0) as [schema|] eqn:Hs;
    [|exists true; split; [reflexivity|]; split; [intros _|reflexivity];
      left; exists v0, rest; auto].
  destruct (Labels (Meta object) !! CustomResourceDefinitionSchemaVersionKey)
    as [label|] eqn:Hl;
    [|exists true; split; [reflexivity|]; split; [intros _|reflexivity]; auto].
  destruct (Version label) as [clusterVersion|] eqn:Hp;
    [|exists true; split; [reflexivity|]; split; [intros _|reflexivity];
      right; right; left; exists label; auto].
  destruct (LT clusterVersion comparableCRDSchemaVersion) eqn:Hlt.
  - exists true. split; [reflexivity|]. split; [intros _|reflexivity].
    right. right. right. exists label, clusterVersion. auto.
  - exists false. split; [reflexivity|]. split; [discriminate|].
    intros [(v1 & rest1 & Heq & Hnone)
           | [Hnone | [(l & Hsome & Hnone) | (l & cv & Hsome & Hparse & Hless)]]];
      congruence.
Qed.

(** C4. On an object with at least one version, [needsUpdateV1] returns
    true exactly when the object is stale in the words of section 4.2
    (no schema payload on the first version, or the version label absent,
    unparsable, or strictly below the baseline), and false exactly when it
    is not. *)
Theorem needsUpdateV1_stale_iff (object : CustomResourceDefinition) :
  Versions (Spec object) <> [] ->
  (needsUpdateV1 object = Done true <-> staleBySpec object)
  /\ (needsUpdateV1 object = Done false <-> ~ staleBySpec object).
Proof.
  intros Hne.
  destruct (needsUpdateV1_reflects object Hne) as (b & -> & Hb).
  destruct b.
  - split; split; try discriminate.
    + intros _. apply Hb. reflexivity.
    + reflexivity.
    + intros Hn. exfalso. apply Hn, Hb. reflexivity.
  - split; split; try discriminate.
    + intros Hst. apply Hb in Hst. discriminate.
    + intros _ Hst. apply Hb in Hst. discriminate.
    + reflexivity.
Qed.

(** C10. [needsUpdateV1] reads [Versions[0]] unguarded: it panics with an
    index out of range exactly on an object whose versions list is empty,
    and returns a boolean on every object that has a version. *)
Theorem needsUpdateV1_total_iff_has_version (object : CustomResourceDefinition) :
  (Versions (Spec object) <> [] -> exists b, needsUpdateV1 object = Done b)
  /\ (Versions (Spec object) = [] -> needsUpdateV1 object = Panic indexOutOfRange)
  /\ (forall msg, needsUpdateV1 object = Panic msg -> Versions (Spec object) = []).
Proof.
  unfold needsUpdateV1.
  destruct (Versions (Spec object)) as [|v0 rest].
  - split; [congruence | split; [reflexivity | reflexivity]].
  - split; [| split].
    + intros _. repeat case_match; eauto.
    + discriminate.
    + intros msg. repeat case_match; discriminate.
Qed.

(** *** Running the monad *)

Lemma bind_done {A B} (m : M σ A) (k : A -> M σ B) w a w' :
  m w = (Done a, w') -> bind m k w = k a w'.
Proof. intros H. unfold bind. rewrite H. reflexivity. Qed.

Lemma write_logged (l : Level) (e : Entry) (msg : string) w :
  write l e msg w = (Done tt, logged l e msg w).
Proof. reflexivity. Qed.

Lemma request_run {R} (c : Call) (op : σ -> R * σ) w r s :
  op (apiserver w) = (r, s) ->
  request c op w = (Done r, mkWorld s (calls w ++ [c]) (logs w) (clock w)).
Proof. intros H. unfold request. rewrite H. reflexivity. Qed.

(** *** The update phase when the baseline has no schema *)

(** C9. When the first version of the baseline object carries no schema,
    [updateV1CRD] returns success after its first log line, for every
    cluster object, every client and every poller: no request is issued
    (no Get, no Update), so the apiserver's state, and with it the
    labels and spec of the cluster object, are what they were. *)
Theorem updateV1CRD_baseline_without_schema
    scopedLog crd (clusterCRD : option CustomResourceDefinition)
    client (p : poller σ) w v0 rest :
  Versions (Spec crd) = v0 :: rest ->
  Schema v0 = None ->
  let w' := logged DebugLevel scopedLog
              "Checking if CRD (CustomResourceDefinition) needs update..." w in
  updateV1CRD scopedLog crd clusterCRD client p w = (Done None, w')
  /\ calls w' = calls w
  /\ apiserver w' = apiserver w
  /\ clock w' = clock w.
Proof.
  intros Hv Hs w'. split; [|auto].
  unfold updateV1CRD, firstSchemaIsSet. rewrite Hv, Hs.
  reflexivity.
Qed.

(** *** Losing the creation race *)

(** C5. On either API surface: when the lookup answers "not found" and
    the Create that follows answers "already exists", [createUpdateCRD]
    returns nil at once.  The only requests issued are that Get and that
    Create: no Update, and, the poller being arbitrary and never called,
    no wait for readiness. *)
Theorem createUpdateCRD_already_exists
    (capabilities : ServerCapabilities) (clientset : Clientset σ)
    (crdName : string) crd (p : poller σ) w :
  (APIExtensionsV1CRD capabilities = true ->
   forall found e s1 created e' s2,
     Get (ApiextensionsV1 clientset) (Name (Meta crd)) (apiserver w)
       = ((found, Some e), s1) ->
     IsNotFound (Some e) = true ->
     Create (ApiextensionsV1 clientset) crd s1 = ((created, Some e'), s2) ->
     IsAlreadyExists (Some e') = true ->
     createUpdateCRD capabilities clientset crdName crd p w =
       (Done None,
        mkWorld s2
          (calls w ++ [CallGet (Name (Meta crd)); CallCreate crd])
          (logs w ++ [mkLog InfoLevel "Creating CRD (CustomResourceDefinition)..."
                        (WithField "name" crdName log)])
          (clock w)))
  /\ (APIExtensionsV1CRD capabilities = false ->
      forall converted found e s1 created e' s2,
        convertToV1Beta1CRD crd = (Some converted, None) ->
        GetV1beta1 (ApiextensionsV1beta1 clientset)
                   (Name (v1beta1.Meta converted)) (apiserver w)
          = ((found, Some e), s1) ->
        IsNotFound (Some e) = true ->
        CreateV1beta1 (ApiextensionsV1beta1 clientset) converted s1
          = ((created, Some e'), s2) ->
        IsAlreadyExists (Some e') = true ->
        createUpdateCRD capabilities clientset crdName crd p w =
          (Done None,
           mkWorld s2
             (calls w ++ [CallGetV1beta1 (Name (v1beta1.Meta converted));
                          CallCreateV1beta1 converted])
             (logs w ++
                [mkLog InfoLevel
                   "K8s apiserver does not support v1 CRDs, falling back to v1beta1"
                   log;
                 mkLog InfoLevel "Creating CRD (CustomResourceDefinition)..."
                   (WithField "name" crdName log)])
             (clock w))).
Proof.
  split.
  - intros Hcap found e s1 created e' s2 Hget Hnf Hcreate Hae.
    unfold createUpdateCRD. rewrite Hcap. cbn [negb].
    unfold bind at 1. rewrite (request_run _ _ _ _ _ Hget). cbn beta iota.
    rewrite Hnf.
    unfold bind, write, request. cbn. rewrite Hcreate. cbn.
    rewrite Hae. unfold ret. rewrite <- app_assoc. reflexivity.
  - intros Hcap converted found e s1 created e' s2 Hconv Hget Hnf Hcreate Hae.
    unfold createUpdateCRD. rewrite Hcap. cbn [negb].
    unfold createUpdateV1beta1CRD. rewrite Hconv.
    unfold bind, write, request, deref, ret. cbn. rewrite Hget. cbn.
    rewrite Hnf. cbn. rewrite Hcreate. cbn. rewrite Hae.
    rewrite <- !app_assoc. reflexivity.
Qed.

(** *** The poll loop *)

Lemma default_attempts : Z.to_nat (60 * Second / (500 * Millisecond)) = 120%nat.
Proof. reflexivity. Qed.

Lemma pollAttempts_error {L} attempts interval (conditionFn : ConditionFunc σ L)
    l w l' ok e w' :
  conditionFn l (snd (sleep interval w)) = (Done (l', (ok, Some e)), w') ->
  pollAttempts (S attempts) interval conditionFn l w = (Done (l', Some e), w').
Proof. intros H. cbn. unfold bind. cbn in *. rewrite H. reflexivity. Qed.

Lemma pollAttempts_success {L} attempts interval (conditionFn : ConditionFunc σ L)
    l w l' w' :
  conditionFn l (snd (sleep interval w)) = (Done (l', (true, None)), w') ->
  pollAttempts (S attempts) interval conditionFn l w = (Done (l', None), w').
Proof. intros H. cbn. unfold bind. cbn in *. rewrite H. reflexivity. Qed.

Lemma pollAttempts_pending {L} attempts interval (conditionFn : ConditionFunc σ L)
    l w l' w' :
  conditionFn l (snd (sleep interval w)) = (Done (l', (false, None)), w') ->
  pollAttempts (S attempts) interval conditionFn l w
    = pollAttempts attempts interval conditionFn l' w'.
Proof. intros H. cbn. unfold bind. cbn in *. rewrite H. reflexivity. Qed.

(** Whatever relation between worlds every evaluation of the predicate
    and every wait keep, the whole loop keeps. *)
Lemma pollAttempts_keeps {L} (R : World σ -> World σ -> Prop)
    interval (conditionFn : ConditionFunc σ L) :
  (forall w, R w w) ->
  (forall w1 w2 w3, R w1 w2 -> R w2 w3 -> R w1 w3) ->
  (forall w, R w (snd (sleep interval w))) ->
  (forall l w r w', conditionFn l w = (r, w') -> R w w') ->
  forall attempts l w r w',
    pollAttempts attempts interval conditionFn l w = (r, w') -> R w w'.
Proof.
  intros Hrefl Htrans Hsleep Hcond.
  induction attempts as [|n IH]; intros l w r w' Hrun.
  - cbn in Hrun. inversion Hrun. apply Hrefl.
  - cbn in Hrun. unfold bind in Hrun. cbn in Hrun.
    destruct (conditionFn l (snd (sleep interval w))) as [o w1] eqn:Hc.
    cbn in Hc. rewrite Hc in Hrun.
    pose proof (Hcond _ _ _ _ Hc) as Hstep.
    assert (Hto : R w w1) by (eapply Htrans; [apply Hsleep | exact Hstep]).
    destruct o as [[l1 [ok [e|]]]|msg].
    + inversion Hrun; subst. exact Hto.
    + destruct ok.
      * inversion Hrun; subst. exact Hto.
      * eapply Htrans; [exact Hto | eapply IH; exact Hrun].
    + inversion Hrun; subst. exact Hto.
Qed.

(** *** What the two predicates ask of the apiserver *)


Lemma rangeConditions_calls scopedLog conds w r w' :
  rangeConditions scopedLog conds w = (r, w') ->
  calls w' = calls w /\ apiserver w' = apiserver w /\ clock w' = clock w.
Proof.
  induction conds as [|c rest IH]; cbn; intros H.
  - inversion H; subst. auto.
  - repeat case_bool_decide; try (apply IH; exact H).
    + inversion H; subst. auto.
    + unfold bind, Error_, write, ret in H. cbn in H. inversion H; subst. auto.
Qed.







(** What [waitForV1CRD] does once the poll has returned. *)
Lemma waitForV1CRD_after_poll scopedLog (crdName : string)
    (ptr : option CustomResourceDefinition) client (p : poller σ) w o w2 :
  Poll p (500 * Millisecond) (60 * Second) (readyPredicate scopedLog client) ptr
       (logged DebugLevel scopedLog
          "Waiting for CRD (CustomResourceDefinition) to be available..." w)
    = (o, w2) ->
  waitForV1CRD scopedLog crdName ptr client p w =
    match o with
    | Done (_, None) => (Done None, w2)
    | Done (None, Some _) => (Panic nilDereference, w2)
    | Done (Some current, Some err) =>
        match Delete client (Name (Meta current)) (apiserver w2) with
        | (Some deleteErr, s) =>
            (Done (Some (Errorf "unable to delete CRD: " deleteErr)),
             mkWorld s (calls w2 ++ [CallDelete (Name (Meta current))])
               (logs w2 ++ [mkLog ErrorLevel "Failed to delete CRD"
                              (WithField "deleteErr" (Error deleteErr)
                                 (WithError err scopedLog))])
               (clock w2))
        | (None, s) =>
            (Done (Some (Errorf "error occurred waiting for CRD: " err)),
             mkWorld s (calls w2 ++ [CallDelete (Name (Meta current))])
               (logs w2) (clock w2))
        end
    | Panic msg => (Panic msg, w2)
    end.
Proof.
  intros Hpoll. unfold waitForV1CRD, Debug, Error_.
  rewrite (bind_done _ _ _ _ _ (write_logged _ _ _ _)).
  unfold bind at 1. rewrite Hpoll.
  destruct o as [[[current|] [err|]]|msg]; try reflexivity.
  cbn. unfold bind, request, ret, Error_, write. cbn.
  destruct (Delete client (Name (Meta current)) (apiserver w2)) as [[deleteErr|] s];
    reflexivity.
Qed.


(** *** The error of a wait whose compensation fails too *)

(** C1, as the code has it.  When the poll of the wait phase fails with
    [err] and the Delete that follows fails with [deleteErr], the error
    returned is [fmt.Errorf("unable to delete CRD: %w", deleteErr)]: its
    message is that prefix followed by the message of the deletion
    failure, and it wraps the deletion failure alone.  The wait failure
    is not part of the returned error; it goes to the log, in the
    "Failed to delete CRD" record, next to the deletion failure. *)
Theorem waitForV1CRD_delete_failure_only scopedLog (crdName : string)
    (ptr : option CustomResourceDefinition) client (p : poller σ)
    w current err w2 deleteErr s :
  Poll p (500 * Millisecond) (60 * Second) (readyPredicate scopedLog client) ptr
       (logged DebugLevel scopedLog
          "Waiting for CRD (CustomResourceDefinition) to be available..." w)
    = (Done (Some current, Some err), w2) ->
  Delete client (Name (Meta current)) (apiserver w2) = (Some deleteErr, s) ->
  let returned := Errorf "unable to delete CRD: " deleteErr in
  waitForV1CRD scopedLog crdName ptr client p w =
    (Done (Some returned),
     mkWorld s (calls w2 ++ [CallDelete (Name (Meta current))])
       (logs w2 ++ [mkLog ErrorLevel "Failed to delete CRD"
                      (scopedLog ++ [("error", Error err);
                                     ("deleteErr", Error deleteErr)])])
       (clock w2))
  /\ Error returned = "unable to delete CRD: " +:+ Error deleteErr
  /\ Unwrap returned = Some deleteErr.
Proof.
  intros Hpoll Hdel returned. split; [|split; reflexivity].
  rewrite (waitForV1CRD_after_poll _ _ _ _ _ _ _ _ Hpoll), Hdel.
  unfold WithField, WithError, WithField. rewrite <- app_assoc. reflexivity.
Qed.

(** *** A failed write in the apply loop *)

(** C3, as the code has it.  When the apply predicate has fetched a stale
    object and the Update fails with an error [e], whatever its reason (an
    optimistic-concurrency conflict included), the predicate returns
    [(false, e)]; the default poll loop ends at that attempt with [e],
    one interval after it started, having issued that one Get and that
    one Update. *)
Theorem applyPredicate_write_error_ends_loop scopedLog crd client
    (current : option CustomResourceDefinition) w fetched s1 returned e s2 :
  Get client (Name (Meta crd)) (apiserver w) = ((Some fetched, None), s1) ->
  needsUpdateV1 fetched = Done true ->
  Update client (overwrite crd fetched) s1 = ((returned, Some e), s2) ->
  let after (t : Duration) :=
    mkWorld s2
      (calls w ++ [CallGet (Name (Meta crd)); CallUpdate (overwrite crd fetched)])
      (logs w ++ [mkLog DebugLevel "CRD validation is different, updating it..."
                    scopedLog;
                  mkLog DebugLevel "Unable to update CRD validation"
                    (WithError e scopedLog)])
      t in
  applyPredicate scopedLog crd client current w
    = (Done (Some (overwrite crd fetched), (false, Some e)), after (clock w))
  /\ Poll (defaultPoll σ) (500 * Millisecond) (60 * Second)
          (applyPredicate scopedLog crd client) current w
     = (Done (Some (overwrite crd fetched), Some e),
        after (clock w + 500 * Millisecond)).
Proof.
  intros Hget Hstale Hupd after.
  assert (Hpred : forall w0, apiserver w0 = apiserver w ->
            applyPredicate scopedLog crd client current w0
            = (Done (Some (overwrite crd fetched), (false, Some e)),
               mkWorld s2
                 (calls w0 ++ [CallGet (Name (Meta crd));
                               CallUpdate (overwrite crd fetched)])
                 (logs w0 ++ [mkLog DebugLevel
                                "CRD validation is different, updating it..."
                                scopedLog;
                              mkLog DebugLevel "Unable to update CRD validation"
                                (WithError e scopedLog)])
                 (clock w0))).
  { intros w0 Hs. unfold applyPredicate.
    unfold bind at 1. rewrite <- Hs in Hget. rewrite (request_run _ _ _ _ _ Hget).
    cbn. unfold bind, lift, Debug, write, request, ret. rewrite Hstale. cbn.
    rewrite Hupd. cbn. rewrite <- !app_assoc. reflexivity. }
  split.
  - apply Hpred. reflexivity.
  - cbn [Poll defaultPoll]. unfold waitPoll. rewrite default_attempts.
    erewrite pollAttempts_error; [reflexivity|].
    rewrite Hpred by reflexivity. reflexivity.
Qed.

(** *** The ready predicate *)

Lemma rangeConditions_notYetReady scopedLog conds w :
  notYetReady conds -> rangeConditions scopedLog conds w = (Done None, w).
Proof.
  induction 1 as [|c rest [Hne Hnc] _ IH]; [reflexivity|].
  unfold isEstablished, isNameConflict in *. cbn.
  repeat case_bool_decide; try exact IH; tauto.
Qed.

Lemma rangeConditions_nameConflict scopedLog conds reason w :
  observesNameConflict conds reason ->
  rangeConditions scopedLog conds w
    = (Done (Some (false, Some (New reason))),
       logged ErrorLevel (WithError (New reason) scopedLog)
              "Name conflict for CRD" w).
Proof.
  intros (before & c & after & -> & Hbefore & [Hty Hst] & <-).
  induction Hbefore as [|b rest [Hne Hnc] _ IH].
  - cbn. rewrite Hty, Hst.
    rewrite (bool_decide_eq_false_2 (NamesAccepted = Established)) by discriminate.
    rewrite !bool_decide_eq_true_2 by reflexivity. reflexivity.
  - unfold isEstablished, isNameConflict in *. cbn.
    repeat case_bool_decide; try exact IH; tauto.
Qed.

Lemma rangeConditions_result scopedLog conds w r w' :
  rangeConditions scopedLog conds w = (Done (Some r), w') ->
  r = (true, None) \/ exists e, r = (false, Some e).
Proof.
  induction conds as [|c rest IH]; cbn; intros H; [discriminate|].
  repeat case_bool_decide; try (apply IH; exact H).
  - inversion H. auto.
  - unfold bind, Error_, write, ret in H. cbn in H. inversion H. eauto.
Qed.

Lemma readyPredicate_nameConflict scopedLog client current reason w :
  observesNameConflict (Conditions (Status current)) reason ->
  readyPredicate scopedLog client (Some current) w
    = (Done (Some current, (false, Some (New reason))),
       logged ErrorLevel (WithError (New reason) scopedLog)
              "Name conflict for CRD" w).
Proof.
  intros Hobs. unfold readyPredicate. cbn.
  rewrite (bind_done _ _ _ _ _ (rangeConditions_nameConflict _ _ _ _ Hobs)).
  reflexivity.
Qed.

Lemma readyPredicate_notYetReady scopedLog client current w fetched err s :
  notYetReady (Conditions (Status current)) ->
  Get client (Name (Meta current)) (apiserver w) = ((fetched, err), s) ->
  readyPredicate scopedLog client (Some current) w
    = (Done (fetched, (false, err)),
       mkWorld s (calls w ++ [CallGet (Name (Meta current))]) (logs w) (clock w)).
Proof.
  intros Hnot Hget. unfold readyPredicate. cbn.
  rewrite (bind_done _ _ _ _ _ (rangeConditions_notYetReady _ _ _ Hnot)).
  unfold bind. rewrite (request_run _ _ _ _ _ Hget). reflexivity.
Qed.

(** A poll that came back "not yet" issued one Get, for the object it
    held, and took no time. *)
Lemma readyPredicate_pending scopedLog client l w l' w' :
  readyPredicate scopedLog client l w = (Done (l', (false, None)), w') ->
  exists current,
    l = Some current
    /\ calls w' = calls w ++ [CallGet (Name (Meta current))]
    /\ clock w' = clock w.
Proof.
  unfold readyPredicate. intros H.
  destruct l as [current|]; cbn in H; [|discriminate].
  exists current. split; [reflexivity|].
  unfold bind in H.
  destruct (rangeConditions scopedLog (Conditions (Status current)) w)
    as [o w1] eqn:Hscan.
  destruct o as [[r|]|msg]; [| |discriminate].
  - apply rangeConditions_result in Hscan as [-> | (e & ->)];
      unfold ret in H; inversion H.
  - apply rangeConditions_calls in Hscan as (Hc & Hs & Ht).
    unfold request, ret in H.
    destruct (Get client (Name (Meta current)) (apiserver w1)) as [[p e] s].
    inversion H; subst. cbn. rewrite Hc, Ht. auto.
Qed.

Lemma pendingPolls_run scopedLog client k w l w' l' :
  pendingPolls scopedLog client k w l w' l' ->
  (forall attempts,
     pollAttempts (k + attempts) (500 * Millisecond)
                  (readyPredicate scopedLog client) l w
     = pollAttempts attempts (500 * Millisecond)
                    (readyPredicate scopedLog client) l' w')
  /\ clock w' = clock w + Z.of_nat k * (500 * Millisecond)
  /\ exists gets,
       calls w' = calls w ++ gets
       /\ forallb isGet gets = true
       /\ length gets = k.
Proof.
  induction 1 as [w l | k w l w1 l1 w' l' Hstep _ IH].
  - split; [reflexivity|]. split; [lia|].
    exists []. rewrite app_nil_r. auto.
  - destruct IH as (Hrun & Hclock & gets & Hcalls & Hgets & Hlen).
    pose proof (readyPredicate_pending _ _ _ _ _ _ Hstep) as (cur & -> & Hc & Ht).
    cbn in Hc, Ht. split; [|split].
    + intros attempts. cbn [Nat.add].
      rewrite (pollAttempts_pending _ _ _ _ _ _ _ Hstep). apply Hrun.
    + rewrite Hclock, Ht. lia.
    + exists (CallGet (Name (Meta cur)) :: gets). split; [|split].
      * rewrite Hcalls, Hc, <- app_assoc. reflexivity.
      * cbn. exact Hgets.
      * cbn. rewrite Hlen. reflexivity.
Qed.

(** *** Failing fast on a naming conflict *)

(** C6. Let the wait loop have polled [k] times, fewer than its 120
    attempts, each time "not yet", and let the object it now holds show
    NamesAccepted=false with [reason] before any condition that ends the
    wait.  Then the next evaluation of the predicate ends the loop with
    the error [errors.New(reason)], whose message is the reason; the
    clock stands at (k+1) intervals, inside the 60 s budget, and no
    further poll is made; [waitForV1CRD] then issues exactly one Delete,
    for the object in which the conflict was seen, and returns an error:
    the wait failure wrapped, when the Delete succeeded. *)
Theorem name_conflict_fails_fast scopedLog (crdName : string)
    (ptr : option CustomResourceDefinition) client w k w1 current reason :
  let w0 := logged DebugLevel scopedLog
              "Waiting for CRD (CustomResourceDefinition) to be available..." w in
  pendingPolls scopedLog client k w0 ptr w1 (Some current) ->
  (k < 120)%nat ->
  observesNameConflict (Conditions (Status current)) reason ->
  let w2 := mkWorld (apiserver w1) (calls w1)
              (logs w1 ++ [mkLog ErrorLevel "Name conflict for CRD"
                             (WithError (New reason) scopedLog)])
              (clock w1 + 500 * Millisecond) in
  Poll (defaultPoll σ) (500 * Millisecond) (60 * Second)
       (readyPredicate scopedLog client) ptr w0
    = (Done (Some current, Some (New reason)), w2)
  /\ Error (New reason) = reason
  /\ clock w2 = clock w + (Z.of_nat k + 1) * (500 * Millisecond)
  /\ clock w2 - clock w <= 60 * Second
  /\ exists e w' gets,
       waitForV1CRD scopedLog crdName ptr client (defaultPoll σ) w
         = (Done (Some e), w')
       /\ calls w' = calls w ++ gets ++ [CallDelete (Name (Meta current))]
       /\ forallb isGet gets = true
       /\ length gets = k
       /\ clock w' = clock w2
       /\ match Delete client (Name (Meta current)) (apiserver w1) with
          | (None, _) =>
              e = Errorf "error occurred waiting for CRD: " (New reason)
              /\ Error e = "error occurred waiting for CRD: " +:+ reason
          | (Some deleteErr, _) => e = Errorf "unable to delete CRD: " deleteErr
          end.
Proof.
  intros w0 Hpending Hk Hobs w2.
  destruct (pendingPolls_run _ _ _ _ _ _ _ Hpending)
    as (Hrun & Hclock & gets & Hcalls & Hgets & Hlen).
  assert (Hpoll : Poll (defaultPoll σ) (500 * Millisecond) (60 * Second)
                    (readyPredicate scopedLog client) ptr w0
                  = (Done (Some current, Some (New reason)), w2)).
  { cbn [Poll defaultPoll]. unfold waitPoll. rewrite default_attempts.
    replace 120%nat with (k + S (119 - k))%nat by lia.
    rewrite Hrun.
    erewrite pollAttempts_error; [reflexivity|].
    rewrite (readyPredicate_nameConflict _ _ _ _ _ Hobs). reflexivity. }
  assert (Ht : clock w2 = clock w + (Z.of_nat k + 1) * (500 * Millisecond)).
  { subst w2. cbn [clock]. rewrite Hclock. subst w0. cbn [clock logged]. lia. }
  split; [exact Hpoll|]. split; [reflexivity|]. split; [exact Ht|].
  split; [rewrite Ht; unfold Second, Millisecond; lia|].
  rewrite (waitForV1CRD_after_poll _ _ _ _ _ _ _ _ Hpoll).
  subst w2. cbn [apiserver calls logs clock].
  destruct (Delete client (Name (Meta current)) (apiserver w1)) as [[d|] s];
    eexists _, _, gets; (split; [reflexivity|]); cbn [calls clock];
    rewrite Hcalls; subst w0; cbn [calls logged]; rewrite <- app_assoc;
    repeat split; auto.
Qed.

End Properties.

(** *** Convergence of the update phase *)

Section Convergence.

Context {VC : versioncheck} {Consts : k8sconstv2}.


Lemma needsUpdateV1_older_label (object : CustomResourceDefinition)
    label clusterVersion :
  Versions (Spec object) <> [] ->
  Labels (Meta object) !! CustomResourceDefinitionSchemaVersionKey = Some label ->
  Version label = Some clusterVersion ->
  LT clusterVersion comparableCRDSchemaVersion = true ->
  needsUpdateV1 object = Done true.
Proof.
  intros Hne Hl Hv Hlt.
  destruct (needsUpdateV1_reflects object Hne) as (b & -> & Hb).
  f_equal. apply Hb.
  right. right. right. exists label, clusterVersion. auto.
Qed.

(** The run of the update phase against the store, when the cluster object
    has a version. *)
Lemma updateV1CRD_store_run scopedLog (name : string)
    (template cluster : CustomResourceDefinition)
    (w : World (gmap string CustomResourceDefinition))
    v0 rest schema label clusterVersion :
  let crd := constructV1CRD name template in
  Versions (Spec template) = v0 :: rest ->
  Schema v0 = Some schema ->
  apiserver w !! name = Some cluster ->
  Name (Meta cluster) = name ->
  Versions (Spec cluster) <> [] ->
  Labels (Meta cluster) !! CustomResourceDefinitionSchemaVersionKey = Some label ->
  Version label = Some clusterVersion ->
  LT clusterVersion comparableCRDSchemaVersion = true ->
  updateV1CRD scopedLog crd (Some cluster) storeClient (defaultPoll _) w
  = (Done None,
     mkWorld (<[name := overwrite crd cluster]> (apiserver w))
       (calls w ++ [CallGet name; CallUpdate (overwrite crd cluster)])
       (logs w ++
          [mkLog DebugLevel
             "Checking if CRD (CustomResourceDefinition) needs update..."
             scopedLog;
           mkLog InfoLevel "Updating CRD (CustomResourceDefinition)..."
             scopedLog;
           mkLog DebugLevel "CRD validation is different, updating it..."
             scopedLog])
       (clock w + 500 * Millisecond)).
Proof.
  intros crd Hv Hs Hstore Hname Hne Hl Hp Hlt.
  pose proof (needsUpdateV1_older_label cluster _ _ Hne Hl Hp Hlt) as Hstale.
  unfold updateV1CRD, firstSchemaIsSet. subst crd. cbn [constructV1CRD Spec Versions].
  rewrite Hv, Hs.
  rewrite bool_decide_eq_true_2 by discriminate.
  unfold bind at 1. unfold Debug at 1. rewrite write_logged.
  unfold bind at 1. unfold lift at 1.
  unfold bind at 1. unfold bind at 1. cbn [deref]. unfold ret at 1.
  unfold lift at 1. rewrite Hstale.
  unfold bind at 1. unfold Info at 1. rewrite write_logged.
  unfold bind at 1. cbn [Poll defaultPoll]. unfold waitPoll.
  rewrite default_attempts.
  erewrite pollAttempts_success; [reflexivity|].
  unfold applyPredicate. cbn [Name Meta constructV1CRD].
  unfold bind at 1. unfold request at 1. cbn [apiserver sleep snd logged storeClient Get].
  rewrite Hstore. cbn [deref]. unfold bind at 1. unfold ret at 1.
  unfold bind at 1. unfold lift at 1. rewrite Hstale.
  unfold bind at 1. unfold Debug at 1. rewrite write_logged.
  unfold bind at 1. unfold request at 1.
  cbn [apiserver logged storeClient Update overwrite Name Meta].
  rewrite Hname, Hstore. cbn.
  unfold ret. rewrite <- !app_assoc. reflexivity.
Qed.

(** C7, as the code has it.  Against an apiserver with no other writer,
    let the baseline built by [constructV1CRD] carry a schema on its first
    version, and let the cluster object carry a version label that parses
    to something strictly below the baseline.  Then the update phase
    succeeds whenever the cluster object has a version at all, and every
    successful run has issued one Get and one Update and leaves, under the
    object's name, an object with the labels of the baseline, so that its
    version label is the baseline version, and with the spec of the
    baseline; name, resource version and status are those it had. *)
Theorem updateV1CRD_converges scopedLog (name : string)
    (template cluster : CustomResourceDefinition)
    (w : World (gmap string CustomResourceDefinition))
    v0 rest schema label clusterVersion :
  let crd := constructV1CRD name template in
  let run := updateV1CRD scopedLog crd (Some cluster) storeClient
                         (defaultPoll _) w in
  Versions (Spec template) = v0 :: rest ->
  Schema v0 = Some schema ->
  apiserver w !! name = Some cluster ->
  Name (Meta cluster) = name ->
  Labels (Meta cluster) !! CustomResourceDefinitionSchemaVersionKey = Some label ->
  Version label = Some clusterVersion ->
  LT clusterVersion comparableCRDSchemaVersion = true ->
  (Versions (Spec cluster) <> [] -> exists w', run = (Done None, w'))
  /\ (forall w' : World (gmap string CustomResourceDefinition),
        run = (Done None, w') ->
        exists stored,
          calls w' = calls w ++ [CallGet name; CallUpdate stored]
          /\ apiserver w' = <[name := stored]> (apiserver w)
          /\ apiserver w' !! name = Some stored
          /\ Labels (Meta stored) = Labels (Meta crd)
          /\ Labels (Meta stored) !! CustomResourceDefinitionSchemaVersionKey
             = Some CustomResourceDefinitionSchemaVersion
          /\ Version CustomResourceDefinitionSchemaVersion
             = Some comparableCRDSchemaVersion
          /\ Spec stored = Spec crd
          /\ Name (Meta stored) = Name (Meta cluster)
          /\ ResourceVersion (Meta stored) = ResourceVersion (Meta cluster)
          /\ Status stored = Status cluster).
Proof.
  intros crd run Hv Hs Hstore Hname Hl Hp Hlt.
  destruct (Versions (Spec cluster)) as [|c0 crest] eqn:Hversions.
  - split; [congruence|]. intros w' Hrun. exfalso. revert Hrun.
    subst run crd. unfold updateV1CRD, firstSchemaIsSet.
    cbn [constructV1CRD Spec Versions]. rewrite Hv, Hs.
    rewrite bool_decide_eq_true_2 by discriminate.
    unfold bind, Debug, write, lift, deref, ret, needsUpdateV1.
    rewrite Hversions. discriminate.
  - assert (Hne : Versions (Spec cluster) <> []) by congruence.
    pose proof (updateV1CRD_store_run scopedLog name template cluster w
                  _ _ _ _ _ Hv Hs Hstore Hname Hne Hl Hp Hlt) as Hrun.
    cbv zeta in Hrun. fold crd in Hrun. fold run in Hrun.
    split; [intros _; eexists; exact Hrun|].
    intros w' Hrun'. rewrite Hrun in Hrun'. inversion Hrun'; subst w'.
    exists (overwrite crd cluster). cbn.
    rewrite lookup_insert_eq, lookup_singleton_eq.
    repeat split; auto. apply MustVersion_parses.
Qed.

End Convergence.

(** * The code on concrete inputs *)

(** The staleness check on the object an older agent installed. *)
Lemma needsUpdateV1_stale_iff_witness :
  Versions (Spec (cnpInstalledOld [])) <> []
  /\ (needsUpdateV1 (cnpInstalledOld []) = Done true
      <-> staleBySpec (cnpInstalledOld []))
  /\ (needsUpdateV1 (cnpInstalledOld []) = Done false
      <-> ~ staleBySpec (cnpInstalledOld [])).
Proof.
  split; [discriminate|].
  apply (needsUpdateV1_stale_iff (cnpInstalledOld [])). discriminate.
Defined.

(** The staleness check on an installed object, and on one without versions. *)
Lemma needsUpdateV1_total_iff_has_version_witness :
  (exists b, needsUpdateV1 (cnpInstalled []) = Done b)
  /\ needsUpdateV1 (mkCRD (mkMeta CNPName "" ∅)
                          (mkSpec "cilium.io" cnpNames "Namespaced" [])
                          zeroStatus)
     = Panic indexOutOfRange.
Proof.
  split.
  - apply (proj1 (needsUpdateV1_total_iff_has_version (cnpInstalled []))).
    discriminate.
  - apply (proj1 (proj2 (needsUpdateV1_total_iff_has_version _))).
    reflexivity.
Defined.

(** The update phase with a baseline that has no schema, against a store
    that holds the older object. *)
Lemma updateV1CRD_baseline_without_schema_witness :
  let w := start cnpStore in
  let w' := logged DebugLevel []
              "Checking if CRD (CustomResourceDefinition) needs update..." w in
  updateV1CRD [] cnpBaselineNoSchema (Some (cnpInstalledOld [])) storeClient
              (defaultPoll _) w = (Done None, w')
  /\ calls w' = calls w
  /\ apiserver w' = apiserver w
  /\ clock w' = clock w.
Proof.
  exact (updateV1CRD_baseline_without_schema [] cnpBaselineNoSchema
           (Some (cnpInstalledOld [])) storeClient (defaultPoll _) (start cnpStore)
           _ _ eq_refl eq_refl).
Defined.

(** Losing the creation race, on the v1 and on the v1beta1 surface. *)
Lemma createUpdateCRD_already_exists_witness :
  let v1 := createUpdateCRD v1Capable
              (mkClientset (tableClient raceLost) noV1beta1)
              CNPCRDName cnpBaseline (defaultPoll nat) (start 0%nat) in
  let legacy := createUpdateCRD v1beta1Only
                  (mkClientset noV1 (tableClientV1beta1 raceLostV1beta1))
                  CNPCRDName cnpBaseline (defaultPoll nat) (start 0%nat) in
  (fst v1 = Done None
   /\ calls (snd v1) = [CallGet CNPName; CallCreate cnpBaseline]
   /\ existsb isUpdate (calls (snd v1)) = false
   /\ clock (snd v1) = 0)
  /\ (fst legacy = Done None
      /\ calls (snd legacy) = [CallGetV1beta1 CNPName;
                               CallCreateV1beta1 (toV1beta1 cnpBaseline)]
      /\ existsb isUpdate (calls (snd legacy)) = false
      /\ clock (snd legacy) = 0).
Proof.
  cbv zeta. split.
  - erewrite (proj1 (createUpdateCRD_already_exists v1Capable
                       (mkClientset (tableClient raceLost) noV1beta1)
                       CNPCRDName cnpBaseline (defaultPoll nat) (start 0%nat))
                eq_refl); [ | reflexivity ..];
      repeat split; reflexivity.
  - erewrite (proj2 (createUpdateCRD_already_exists v1beta1Only
                       (mkClientset noV1 (tableClientV1beta1 raceLostV1beta1))
                       CNPCRDName cnpBaseline (defaultPoll nat) (start 0%nat))
                eq_refl); [ | reflexivity ..];
      repeat split; reflexivity.
Defined.

(** C1, as the specification states it, fails: the names collide, the
    wait fails with the reason "PluralConflict", the Delete is refused, and
    the error that comes back reports the refusal only. *)
Lemma delete_failure_hides_wait_failure :
  let returned := Errorf "unable to delete CRD: " forbidden in
  (exists w',
     waitForV1CRD [] CNPCRDName (Some (cnpInstalled [namesConflict]))
                  (tableClient deleteRefused) (defaultPoll nat) (start 0%nat)
     = (Done (Some returned), w')
     /\ calls w' = [CallDelete CNPName]
     /\ logs w' =
        [mkLog DebugLevel
           "Waiting for CRD (CustomResourceDefinition) to be available..." [];
         mkLog ErrorLevel "Name conflict for CRD" [("error", "PluralConflict")];
         mkLog ErrorLevel "Failed to delete CRD"
           [("error", "PluralConflict");
            ("deleteErr", "customresourcedefinitions is forbidden")]])
  /\ Error returned = "unable to delete CRD: customresourcedefinitions is forbidden"
  /\ reports returned forbidden = true
  /\ reports returned (New "PluralConflict") = false.
Proof.
  cbv zeta. split; [|repeat split; reflexivity].
  eexists. split; [reflexivity|]. split; reflexivity.
Qed.

(** The same run, through the theorem. *)
Lemma waitForV1CRD_delete_failure_only_witness :
  exists w',
    waitForV1CRD [] CNPCRDName (Some (cnpInstalled [namesConflict]))
                 (tableClient deleteRefused) (defaultPoll nat) (start 0%nat)
    = (Done (Some (Errorf "unable to delete CRD: " forbidden)), w').
Proof.
  eexists.
  refine (proj1 (waitForV1CRD_delete_failure_only [] CNPCRDName
                   (Some (cnpInstalled [namesConflict]))
                   (tableClient deleteRefused) (defaultPoll nat) (start 0%nat)
                   (cnpInstalled [namesConflict]) (New "PluralConflict")
                   _ forbidden _ _ _)); reflexivity.
Defined.


(** C3, as the specification states it, fails: the Update meets a conflict,
    the predicate returns that conflict as its error, and the apply loop
    ends with it after its first attempt, although a second attempt would
    have gone through. *)
Lemma write_conflict_ends_apply_loop :
  IsConflict (Some (conflict CNPName)) = true
  /\ (exists l w',
        applyPredicate [] cnpBaseline (tableClient conflictOnce)
                       (Some (cnpInstalledOld [])) (start 0%nat)
        = (Done (l, (false, Some (conflict CNPName))), w'))
  /\ (exists w',
        updateV1CRD [] cnpBaseline (Some (cnpInstalledOld []))
                    (tableClient conflictOnce) (defaultPoll nat) (start 0%nat)
        = (Done (Some (conflict CNPName)), w')
        /\ calls w' = [CallGet CNPName;
                       CallUpdate (overwrite cnpBaseline (cnpInstalledOld []))]
        /\ clock w' = 500 * Millisecond)
  /\ snd (onUpdate conflictOnce 3) = None.
Proof.
  split; [reflexivity|]. split; [|split; [|reflexivity]].
  - eexists _, _. vm_compute. reflexivity.
  - eexists. split; [vm_compute; reflexivity|]. split; reflexivity.
Qed.

(** The same conflict, through the theorem. *)
Lemma applyPredicate_write_error_ends_loop_witness :
  exists l w',
    Poll (defaultPoll nat) (500 * Millisecond) (60 * Second)
         (applyPredicate [] cnpBaseline (tableClient conflictOnce))
         (Some (cnpInstalledOld [])) (start 0%nat)
    = (Done (l, Some (conflict CNPName)), w').
Proof.
  eexists _, _.
  refine (proj2 (applyPredicate_write_error_ends_loop [] cnpBaseline
                   (tableClient conflictOnce) (Some (cnpInstalledOld []))
                   (start 0%nat) (cnpInstalledOld []) 1%nat None
                   (conflict CNPName) 2%nat _ _ _)); reflexivity.
Defined.

(** An object that is being installed does not end the wait. *)
Lemma installing_notYetReady : notYetReady [installing].
Proof.
  constructor; [|constructor].
  split; intros [Hty Hst]; discriminate.
Defined.

(** Two polls come back "not yet", the third sees the naming conflict. *)
Lemma name_conflict_fails_fast_witness :
  exists e w' gets,
    waitForV1CRD [] CNPCRDName (Some (cnpInstalled [installing]))
                 (tableClient conflictAppears) (defaultPoll nat) (start 0%nat)
    = (Done (Some e), w')
    /\ e = Errorf "error occurred waiting for CRD: " (New "PluralConflict")
    /\ calls w' = gets ++ [CallDelete CNPName]
    /\ forallb isGet gets = true
    /\ length gets = 2%nat
    /\ clock w' = 1500 * Millisecond.
Proof.
  assert (Hpending :
    pendingPolls [] (tableClient conflictAppears) 2
      (logged DebugLevel []
         "Waiting for CRD (CustomResourceDefinition) to be available..."
         (start 0%nat))
      (Some (cnpInstalled [installing]))
      (mkWorld 2%nat [CallGet CNPName; CallGet CNPName]
         [mkLog DebugLevel
            "Waiting for CRD (CustomResourceDefinition) to be available..." []]
         (1000 * Millisecond))
      (Some (cnpInstalled [installing; namesConflict]))).
  { eapply pending_step; [vm_compute; reflexivity|].
    eapply pending_step; [vm_compute; reflexivity|].
    apply pending_done. }
  assert (Hobs : observesNameConflict
                   (Conditions (Status (cnpInstalled [installing; namesConflict])))
                   "PluralConflict").
  { exists [installing], namesConflict, [].
    split; [reflexivity|]. split; [exact installing_notYetReady|].
    split; [split; reflexivity | reflexivity]. }
  destruct (name_conflict_fails_fast [] CNPCRDName _ (tableClient conflictAppears)
              (start 0%nat) 2 _ _ "PluralConflict" Hpending ltac:(lia) Hobs)
    as (_ & _ & _ & _ & e & w' & gets & Hrun & Hcalls & Hgets & Hlen & Hclock & He).
  cbn in He. destruct He as [He _].
  exists e, w', gets.
  split; [exact Hrun|]. split; [exact He|]. split; [exact Hcalls|].
  split; [exact Hgets|]. split; [exact Hlen | exact Hclock].
Defined.

(** An apiserver that never establishes the object keeps the wait pending. *)
Lemma neverReady_keepsPending :
  keepsPending (tableClient neverReady) CNPName (fun _ => True).
Proof.
  intros s _. exists (cnpInstalled [namesAccepted; installing]), (S s).
  split; [reflexivity|]. split; [exact I|]. split; [reflexivity|].
  constructor; [split; intros [Hty Hst]; discriminate|].
  exact installing_notYetReady.
Defined.

(** C7, as the specification states it, fails, in two ways.  The cluster
    object carries version 1.21, older than the baseline 1.22.  When the
    baseline has no schema payload, a successful run of the update phase
    leaves the object as it was.  And when another agent has written
    version 1.23 before the apply loop reads the object again, a successful
    run writes nothing and the label it leaves is not the baseline's. *)
Lemma no_convergence_without_baseline_schema :
  (Version "1.21" = Some (1, 21, 0)%N
   /\ LT (1, 21, 0)%N comparableCRDSchemaVersion = true
   /\ Labels (Meta (cnpInstalledOld [])) !! CustomResourceDefinitionSchemaVersionKey
      = Some "1.21")
  /\ (exists w',
        updateV1CRD [] cnpBaselineNoSchema (Some (cnpInstalledOld [])) storeClient
                    (defaultPoll _) (start cnpStore)
        = (Done None, w')
        /\ apiserver w' !! CNPName = Some (cnpInstalledOld [])
        /\ calls w' = []
        /\ Labels (Meta (cnpInstalledOld [])) !! CustomResourceDefinitionSchemaVersionKey
           <> Labels (Meta cnpBaselineNoSchema) !! CustomResourceDefinitionSchemaVersionKey
        /\ Spec (cnpInstalledOld []) <> Spec cnpBaselineNoSchema)
  /\ (exists w',
        updateV1CRD [] cnpBaseline (Some (cnpInstalledOld []))
                    (tableClient updatedByAnother) (defaultPoll nat) (start 0%nat)
        = (Done None, w')
        /\ calls w' = [CallGet CNPName]
        /\ onGet updatedByAnother 1 = (Some cnpInstalledNewer, None)
        /\ Labels (Meta cnpInstalledNewer) !! CustomResourceDefinitionSchemaVersionKey
           = Some "1.23"
        /\ Labels (Meta cnpBaseline) !! CustomResourceDefinitionSchemaVersionKey
           = Some "1.22"
        /\ Spec cnpInstalledNewer <> Spec cnpBaseline).
Proof.
  split; [repeat split; reflexivity|]. split.
  - eexists. split; [vm_compute; reflexivity|].
    split; [reflexivity|]. split; [reflexivity|].
    split; [vm_compute; discriminate | discriminate].
  - eexists. split; [vm_compute; reflexivity|].
    split; [reflexivity|]. split; [reflexivity|].
    split; [reflexivity|]. split; [reflexivity | discriminate].
Qed.

(** The update phase brings the older object of the store to the baseline. *)
Lemma updateV1CRD_converges_witness :
  exists w' stored,
    updateV1CRD [] cnpBaseline (Some (cnpInstalledOld [])) storeClient
                (defaultPoll _) (start cnpStore)
    = (Done None, w')
    /\ apiserver w' !! CNPName = Some stored
    /\ Labels (Meta stored) !! "io.cilium.k8s.crd.schema.version" = Some "1.22"
    /\ Spec stored = Spec cnpBaseline.
Proof.
  destruct (@updateV1CRD_converges dottedVersions ciliumConsts
              [] CNPName cnpTemplate (cnpInstalledOld [])
              (start cnpStore) _ _ "openAPIV3Schema" "1.21" (1, 21, 0)%N
              eq_refl eq_refl eq_refl eq_refl eq_refl eq_refl eq_refl)
    as (Hsucceeds & Hconverged).
  destruct (Hsucceeds ltac:(discriminate)) as (w' & Hrun).
  destruct (Hconverged w' Hrun)
    as (stored & _ & _ & Hstored & _ & Hlabel & _ & Hspec & _).
  exists w', stored. split; [exact Hrun|]. split; [exact Hstored|].
  split; [exact Hlabel | exact Hspec].
Defined.

(** * The rest of register.go *)

Section Staleness.

Context {VC : versioncheck} {Consts : k8sconstv2}.

(** X1. [needsUpdateV1beta1] needs no precondition: on every v1beta1
    object it answers, and it answers true exactly when the object has no
    validation recorded, or its version label is absent, unparsable, or
    strictly below the baseline. *)
Theorem needsUpdateV1beta1_stale_iff (object : v1beta1.CustomResourceDefinition) :
  needsUpdateV1beta1 object = true <-> staleV1beta1 object.
Proof.
  unfold needsUpdateV1beta1, staleV1beta1.
  destruct (v1beta1.Validation (v1beta1.Spec object)) as [validation|] eqn:Hval;
    [|split; [intros _; left; reflexivity | reflexivity]].
  destruct (Labels (v1beta1.Meta object) !! CustomResourceDefinitionSchemaVersionKey)
    as [label|] eqn:Hl;
    [|split; [intros _; right; left; reflexivity | reflexivity]].
  destruct (Version label) as [clusterVersion|] eqn:Hp;
    [|split; [intros _; right; right; left; exists label; auto | reflexivity]].
  destruct (LT clusterVersion comparableCRDSchemaVersion) eqn:Hlt.
  - split; [intros _|reflexivity].
    right. right. right. exists label, clusterVersion. auto.
  - split; [discriminate|].
    intros [Hnone | [Hnone | [(l & Hsome & Hnone)
                             | (l & cv & Hsome & Hparse & Hless)]]];
      congruence.
Qed.

(** X2. What the agent builds with [constructV1CRD], and what its apply
    predicate writes over any cluster object, are judged alike by the
    agent's own staleness check: a template without versions makes the
    check panic; a template whose first version has no schema gives an
    object that is stale; otherwise the object is stale only if the
    baseline version is below itself, so with an irreflexive order what was
    written is up to date and a later run finds nothing to write. *)
Theorem constructV1CRD_staleness (name : string)
    (template cluster : CustomResourceDefinition) :
  needsUpdateV1 (overwrite (constructV1CRD name template) cluster)
  = needsUpdateV1 (constructV1CRD name template)
  /\ needsUpdateV1 (constructV1CRD name template)
     = match Versions (Spec template) with
       | [] => Panic indexOutOfRange
       | v0 :: _ =>
           match Schema v0 with
           | None => Done true
           | Some _ =>
               Done (LT comparableCRDSchemaVersion comparableCRDSchemaVersion)
           end
       end.
Proof.
  split; [reflexivity|].
  unfold needsUpdateV1. cbn [constructV1CRD Spec Versions Meta Labels].
  destruct (Versions (Spec template)) as [|v0 rest]; [reflexivity|].
  destruct (Schema v0); [|reflexivity].
  rewrite lookup_singleton_eq, MustVersion_parses.
  destruct (LT comparableCRDSchemaVersion comparableCRDSchemaVersion); reflexivity.
Qed.

End Staleness.

Section UpdatePhase.

Context {VC : versioncheck} {Consts : k8sconstv2} {Conv : conversion}.
Context {σ : Type}.

Implicit Types (w : World σ) (crd : CustomResourceDefinition)
               (client : CustomResourceDefinitionsGetter σ)
               (scopedLog : Entry).

(** What [updateV1CRD] does once it has decided to update and the poll has
    returned. *)
Lemma updateV1CRD_after_poll scopedLog crd (cluster : CustomResourceDefinition)
    client (p : poller σ) w o w2 :
  firstSchemaIsSet crd = Done true ->
  needsUpdateV1 cluster = Done true ->
  Poll p (500 * Millisecond) (60 * Second) (applyPredicate scopedLog crd client)
       (Some cluster)
       (logged InfoLevel scopedLog "Updating CRD (CustomResourceDefinition)..."
          (logged DebugLevel scopedLog
             "Checking if CRD (CustomResourceDefinition) needs update..." w))
    = (o, w2) ->
  updateV1CRD scopedLog crd (Some cluster) client p w =
    match o with
    | Done (_, Some e) =>
        (Done (Some e),
         logged ErrorLevel (WithError e scopedLog) "Unable to update CRD" w2)
    | Done (_, None) => (Done None, w2)
    | Panic msg => (Panic msg, w2)
    end.
Proof.
  intros Hschema Hstale Hpoll.
  unfold updateV1CRD, Debug, Info, Error_.
  rewrite (bind_done _ _ _ _ _ (write_logged _ _ _ _)).
  unfold bind at 1. unfold lift at 1. rewrite Hschema.
  unfold bind at 1. unfold bind at 1. cbn [deref]. unfold ret at 1.
  unfold lift at 1. rewrite Hstale.
  rewrite (bind_done _ _ _ _ _ (write_logged _ _ _ _)).
  unfold bind at 1. rewrite Hpoll.
  destruct o as [[l [e|]]|msg]; reflexivity.
Qed.

Lemma updateV1CRD_not_entered scopedLog crd
    (clusterCRD : option CustomResourceDefinition) client (p : poller σ) w :
  firstSchemaIsSet crd = Done false
  \/ (firstSchemaIsSet crd = Done true
      /\ exists cluster, clusterCRD = Some cluster
                         /\ needsUpdateV1 cluster = Done false) ->
  updateV1CRD scopedLog crd clusterCRD client p w =
    (Done None,
     logged DebugLevel scopedLog
       "Checking if CRD (CustomResourceDefinition) needs update..." w).
Proof.
  intros [Hschema | (Hschema & cluster & -> & Hfresh)];
    unfold updateV1CRD, Debug;
    rewrite (bind_done _ _ _ _ _ (write_logged _ _ _ _));
    unfold bind at 1; unfold lift at 1; rewrite Hschema.
  - reflexivity.
  - unfold bind at 1. unfold bind at 1. cbn [deref]. unfold ret at 1.
    unfold lift at 1. rewrite Hfresh. reflexivity.
Qed.

(** The three ways an evaluation of the apply predicate ends without a
    panic. *)
Lemma applyPredicate_get_error scopedLog crd client
    (l : option CustomResourceDefinition) w ptr e s :
  Get client (Name (Meta crd)) (apiserver w) = ((ptr, Some e), s) ->
  applyPredicate scopedLog crd client l w =
    (Done (ptr, (false, Some e)),
     mkWorld s (calls w ++ [CallGet (Name (Meta crd))]) (logs w) (clock w)).
Proof.
  intros Hget. unfold applyPredicate.
  unfold bind. rewrite (request_run _ _ _ _ _ Hget). reflexivity.
Qed.

Lemma applyPredicate_fresh scopedLog crd client
    (l : option CustomResourceDefinition) w fetched s :
  Get client (Name (Meta crd)) (apiserver w) = ((Some fetched, None), s) ->
  needsUpdateV1 fetched = Done false ->
  applyPredicate scopedLog crd client l w =
    (Done (Some fetched, (true, None)),
     mkWorld s (calls w ++ [CallGet (Name (Meta crd))]) (logs w) (clock w)).
Proof.
  intros Hget Hfresh. unfold applyPredicate.
  unfold bind at 1. rewrite (request_run _ _ _ _ _ Hget).
  cbn. unfold bind, lift, ret. rewrite Hfresh. reflexivity.
Qed.

Lemma applyPredicate_written scopedLog crd client
    (l : option CustomResourceDefinition) w fetched s1 returned s2 :
  Get client (Name (Meta crd)) (apiserver w) = ((Some fetched, None), s1) ->
  needsUpdateV1 fetched = Done true ->
  Update client (overwrite crd fetched) s1 = ((returned, None), s2) ->
  applyPredicate scopedLog crd client l w =
    (Done (Some (overwrite crd fetched), (true, None)),
     mkWorld s2
       (calls w ++ [CallGet (Name (Meta crd)); CallUpdate (overwrite crd fetched)])
       (logs w ++ [mkLog DebugLevel "CRD validation is different, updating it..."
                     scopedLog])
       (clock w)).
Proof.
  intros Hget Hstale Hupd. unfold applyPredicate.
  unfold bind at 1. rewrite (request_run _ _ _ _ _ Hget).
  cbn. unfold bind, lift, Debug, write, request, ret. rewrite Hstale. cbn.
  rewrite Hupd. cbn. rewrite <- !app_assoc. reflexivity.
Qed.

(** Whatever the apiserver answers, an evaluation of the apply predicate
    takes no time, never comes back "not yet", and issues one Get, followed
    by at most one Update. *)
Lemma applyPredicate_summary scopedLog crd client
    (l : option CustomResourceDefinition) w r w' :
  applyPredicate scopedLog crd client l w = (r, w') ->
  clock w' = clock w
  /\ (forall l', r <> Done (l', (false, None)))
  /\ (calls w' = calls w ++ [CallGet (Name (Meta crd))]
      \/ exists obj,
           calls w' = calls w ++ [CallGet (Name (Meta crd)); CallUpdate obj]).
Proof.
  unfold applyPredicate, bind, request, deref, lift, ret, Debug, write.
  intros H. cbn in H.
  repeat (case_match; simplify_eq; cbn in * );
    (split; [reflexivity|]); (split; [intros l'; discriminate|]);
    rewrite <- ?app_assoc; cbn; eauto.
Qed.

Lemma updateV1CRD_one_attempt scopedLog crd
    (clusterCRD : option CustomResourceDefinition) client w r w' :
  updateV1CRD scopedLog crd clusterCRD client (defaultPoll σ) w = (r, w') ->
  (calls w' = calls w /\ clock w' = clock w)
  \/ (clock w' = clock w + 500 * Millisecond
      /\ (calls w' = calls w ++ [CallGet (Name (Meta crd))]
          \/ exists obj,
               calls w' = calls w ++ [CallGet (Name (Meta crd)); CallUpdate obj])).
Proof.
  unfold updateV1CRD, Debug, Info, Error_. intros H.
  rewrite (bind_done _ _ _ _ _ (write_logged _ _ _ _)) in H.
  unfold bind at 1 in H. unfold lift at 1 in H.
  destruct (firstSchemaIsSet crd) as [hasSchema|msg];
    [|inversion H; subst; left; auto].
  unfold bind at 1 in H.
  assert (Hstale : exists o, (if hasSchema
            then do cluster <- deref clusterCRD; lift (needsUpdateV1 cluster)
            else ret false)
            (logged DebugLevel scopedLog
               "Checking if CRD (CustomResourceDefinition) needs update..." w)
          = (o, logged DebugLevel scopedLog
               "Checking if CRD (CustomResourceDefinition) needs update..." w)).
  { destruct hasSchema; [|eexists; reflexivity].
    destruct clusterCRD as [c|]; cbn; unfold bind, ret, lift; cbn;
      eexists; reflexivity. }
  destruct Hstale as (o & Hstale). rewrite Hstale in H.
  destruct o as [[|]|msg]; [| inversion H; subst; left; auto
                             | inversion H; subst; left; auto].
  rewrite (bind_done _ _ _ _ _ (write_logged _ _ _ _)) in H.
  unfold bind at 1 in H. cbn [Poll defaultPoll] in H. unfold waitPoll in H.
  rewrite default_attempts in H. cbn [pollAttempts] in H.
  unfold bind at 1 in H. cbn [sleep] in H. unfold bind at 1 in H.
  match type of H with
  | context [applyPredicate ?a ?b ?c ?d ?e] =>
      destruct (applyPredicate a b c d e) as [res w1] eqn:Hpred
  end.
  apply applyPredicate_summary in Hpred as (Hclock & Hresolved & Hcalls).
  cbn [clock calls logged] in Hclock, Hcalls.
  right.
  destruct res as [[l' [ok [e|]]]|msg].
  - cbn in H. unfold bind, write, ret in H. cbn in H. inversion H; subst.
    cbn. split; [exact Hclock | exact Hcalls].
  - destruct ok; [|exfalso; exact (Hresolved l' eq_refl)].
    cbn in H. inversion H; subst. split; [exact Hclock | exact Hcalls].
  - cbn in H. inversion H; subst. split; [exact Hclock | exact Hcalls].
Qed.

(** X3. The apply loop never takes a second attempt: under the default
    poller, for every apiserver and however the phase ends, [updateV1CRD]
    either issues nothing and takes no time, or takes exactly one poll
    interval and issues one Get for the baseline's name, followed by at
    most one Update.  The 60 s budget of this loop is never drawn on. *)
Theorem updateV1CRD_single_attempt scopedLog crd
    (clusterCRD : option CustomResourceDefinition) client w r w' :
  updateV1CRD scopedLog crd clusterCRD client (defaultPoll σ) w = (r, w') ->
  (calls w' = calls w /\ clock w' = clock w)
  \/ (clock w' = clock w + 500 * Millisecond
      /\ (calls w' = calls w ++ [CallGet (Name (Meta crd))]
          \/ exists obj,
               calls w' = calls w ++ [CallGet (Name (Meta crd)); CallUpdate obj])).
Proof. apply updateV1CRD_one_attempt. Qed.

Lemma firstSchemaIsSet_true crd v0 rest schema :
  Versions (Spec crd) = v0 :: rest ->
  Schema v0 = Some schema ->
  firstSchemaIsSet crd = Done true.
Proof.
  intros Hv Hs. unfold firstSchemaIsSet. rewrite Hv, Hs.
  rewrite bool_decide_eq_true_2 by discriminate. reflexivity.
Qed.

(** The world at the first evaluation of the apply predicate. *)
Lemma defaultPoll_first_attempt {L} (conditionFn : ConditionFunc σ L) l w o w1 :
  conditionFn l (snd (sleep (500 * Millisecond) w)) = (o, w1) ->
  (forall l', o <> Done (l', (false, None))) ->
  Poll (defaultPoll σ) (500 * Millisecond) (60 * Second) conditionFn l w =
    (match o with
     | Done (l', (_, Some e)) => Done (l', Some e)
     | Done (l', (_, None)) => Done (l', None)
     | Panic msg => Panic msg
     end, w1).
Proof.
  intros Hc Hresolved. cbn [Poll defaultPoll]. unfold waitPoll.
  rewrite default_attempts. cbn [pollAttempts].
  unfold bind at 1. cbn [sleep]. cbn [sleep snd] in Hc. unfold bind at 1.
  rewrite Hc.
  destruct o as [[l' [ok [e|]]]|msg]; try reflexivity.
  destruct ok; [reflexivity|]. exfalso. exact (Hresolved l' eq_refl).
Qed.

(** X4. Another agent was faster: the object handed to the update phase is
    stale, but the object the apply predicate reads is up to date.  Then
    [updateV1CRD] returns nil after one interval, having issued that one
    Get and no Update. *)
Theorem updateV1CRD_updated_by_another scopedLog crd
    (cluster fetched : CustomResourceDefinition) client w v0 rest schema s :
  Versions (Spec crd) = v0 :: rest ->
  Schema v0 = Some schema ->
  needsUpdateV1 cluster = Done true ->
  Get client (Name (Meta crd)) (apiserver w) = ((Some fetched, None), s) ->
  needsUpdateV1 fetched = Done false ->
  updateV1CRD scopedLog crd (Some cluster) client (defaultPoll σ) w =
    (Done None,
     mkWorld s (calls w ++ [CallGet (Name (Meta crd))])
       (logs w ++
          [mkLog DebugLevel
             "Checking if CRD (CustomResourceDefinition) needs update..."
             scopedLog;
           mkLog InfoLevel "Updating CRD (CustomResourceDefinition)..."
             scopedLog])
       (clock w + 500 * Millisecond)).
Proof.
  intros Hv Hs Hstale Hget Hfresh.
  erewrite updateV1CRD_after_poll;
    [| exact (firstSchemaIsSet_true _ _ _ _ Hv Hs) | exact Hstale
     | apply defaultPoll_first_attempt;
       [eapply applyPredicate_fresh; [exact Hget | exact Hfresh]
       | intros l'; discriminate]].
  cbn. rewrite <- !app_assoc. reflexivity.
Qed.

Lemma updateV1CRD_written_run scopedLog crd
    (cluster fetched : CustomResourceDefinition) client w v0 rest schema
    s1 returned s2 :
  Versions (Spec crd) = v0 :: rest ->
  Schema v0 = Some schema ->
  needsUpdateV1 cluster = Done true ->
  Get client (Name (Meta crd)) (apiserver w) = ((Some fetched, None), s1) ->
  needsUpdateV1 fetched = Done true ->
  Update client (overwrite crd fetched) s1 = ((returned, None), s2) ->
  updateV1CRD scopedLog crd (Some cluster) client (defaultPoll σ) w =
    (Done None,
     mkWorld s2 (calls w ++ [CallGet (Name (Meta crd));
                             CallUpdate (overwrite crd fetched)])
       (logs w ++
          [mkLog DebugLevel
             "Checking if CRD (CustomResourceDefinition) needs update..."
             scopedLog;
           mkLog InfoLevel "Updating CRD (CustomResourceDefinition)..."
             scopedLog;
           mkLog DebugLevel "CRD validation is different, updating it..."
             scopedLog])
       (clock w + 500 * Millisecond)).
Proof.
  intros Hv Hs Hstale Hget Hstale' Hupd.
  erewrite updateV1CRD_after_poll;
    [| exact (firstSchemaIsSet_true _ _ _ _ Hv Hs) | exact Hstale
     | apply defaultPoll_first_attempt;
       [eapply applyPredicate_written; [exact Hget | exact Hstale' | exact Hupd]
       | intros l'; discriminate]].
  cbn. rewrite <- !app_assoc. reflexivity.
Qed.

(** X5. The write of the apply predicate, against any apiserver: when the
    object read is stale and the Update goes through, [updateV1CRD] returns
    nil after one interval with one Get and one Update.  The object sent
    has the labels and the spec of the baseline; its name, its resource
    version (the token of the read the write is based on) and its status
    are those of the object read. *)
Theorem updateV1CRD_writes_over_fetched scopedLog crd
    (cluster fetched : CustomResourceDefinition) client w v0 rest schema
    s1 returned s2 :
  Versions (Spec crd) = v0 :: rest ->
  Schema v0 = Some schema ->
  needsUpdateV1 cluster = Done true ->
  Get client (Name (Meta crd)) (apiserver w) = ((Some fetched, None), s1) ->
  needsUpdateV1 fetched = Done true ->
  Update client (overwrite crd fetched) s1 = ((returned, None), s2) ->
  exists sent w',
    updateV1CRD scopedLog crd (Some cluster) client (defaultPoll σ) w
      = (Done None, w')
    /\ calls w' = calls w ++ [CallGet (Name (Meta crd)); CallUpdate sent]
    /\ apiserver w' = s2
    /\ clock w' = clock w + 500 * Millisecond
    /\ Labels (Meta sent) = Labels (Meta crd)
    /\ Spec sent = Spec crd
    /\ Name (Meta sent) = Name (Meta fetched)
    /\ ResourceVersion (Meta sent) = ResourceVersion (Meta fetched)
    /\ Status sent = Status fetched.
Proof.
  intros Hv Hs Hstale Hget Hstale' Hupd.
  eexists (overwrite crd fetched), _.
  split; [exact (updateV1CRD_written_run scopedLog crd cluster fetched client w
                   v0 rest schema s1 returned s2 Hv Hs Hstale Hget Hstale' Hupd)|].
  repeat split; reflexivity.
Qed.

(** X6. A failed read in the apply loop: when the Get of the apply
    predicate fails, [updateV1CRD] returns that very error, unwrapped,
    after one interval; it has issued the one Get and no Update, and has
    logged "Unable to update CRD" at error level with the error. *)
Theorem updateV1CRD_read_error scopedLog crd
    (cluster : CustomResourceDefinition) client w v0 rest schema ptr e s :
  Versions (Spec crd) = v0 :: rest ->
  Schema v0 = Some schema ->
  needsUpdateV1 cluster = Done true ->
  Get client (Name (Meta crd)) (apiserver w) = ((ptr, Some e), s) ->
  updateV1CRD scopedLog crd (Some cluster) client (defaultPoll σ) w =
    (Done (Some e),
     mkWorld s (calls w ++ [CallGet (Name (Meta crd))])
       (logs w ++
          [mkLog DebugLevel
             "Checking if CRD (CustomResourceDefinition) needs update..."
             scopedLog;
           mkLog InfoLevel "Updating CRD (CustomResourceDefinition)..."
             scopedLog;
           mkLog ErrorLevel "Unable to update CRD" (WithError e scopedLog)])
       (clock w + 500 * Millisecond)).
Proof.
  intros Hv Hs Hstale Hget.
  erewrite updateV1CRD_after_poll;
    [| exact (firstSchemaIsSet_true _ _ _ _ Hv Hs) | exact Hstale
     | apply defaultPoll_first_attempt;
       [eapply applyPredicate_get_error; exact Hget
       | intros l'; discriminate]].
  cbn. unfold logged. cbn. rewrite <- !app_assoc. reflexivity.
Qed.

(** X7. Where the update phase panics, before any request and for every
    client and poller: on a baseline without versions (index out of
    range); with a baseline that has a schema, on a nil cluster object
    (nil dereference) and on a cluster object without versions (index out
    of range). *)
Theorem updateV1CRD_panics scopedLog crd client (p : poller σ) w :
  let w' := logged DebugLevel scopedLog
              "Checking if CRD (CustomResourceDefinition) needs update..." w in
  (Versions (Spec crd) = [] ->
   forall clusterCRD,
     updateV1CRD scopedLog crd clusterCRD client p w = (Panic indexOutOfRange, w'))
  /\ (firstSchemaIsSet crd = Done true ->
      updateV1CRD scopedLog crd None client p w = (Panic nilDereference, w'))
  /\ (firstSchemaIsSet crd = Done true ->
      forall cluster,
        Versions (Spec cluster) = [] ->
        updateV1CRD scopedLog crd (Some cluster) client p w
        = (Panic indexOutOfRange, w')).
Proof.
  intros w'. split; [|split].
  - intros Hv clusterCRD. unfold updateV1CRD, Debug.
    rewrite (bind_done _ _ _ _ _ (write_logged _ _ _ _)).
    unfold bind, lift, firstSchemaIsSet. rewrite Hv. reflexivity.
  - intros Hschema. unfold updateV1CRD, Debug.
    rewrite (bind_done _ _ _ _ _ (write_logged _ _ _ _)).
    unfold bind at 1. unfold lift at 1. rewrite Hschema. reflexivity.
  - intros Hschema cluster Hv. unfold updateV1CRD, Debug.
    rewrite (bind_done _ _ _ _ _ (write_logged _ _ _ _)).
    unfold bind at 1. unfold lift at 1. rewrite Hschema.
    unfold bind, deref, ret, lift, needsUpdateV1. rewrite Hv. reflexivity.
Qed.

End UpdatePhase.

Section WaitPhase.

Context {σ : Type}.

Implicit Types (w : World σ) (client : CustomResourceDefinitionsGetter σ)
               (scopedLog : Entry).

Lemma rangeConditions_established scopedLog conds w :
  observesEstablished conds ->
  rangeConditions scopedLog conds w = (Done (Some (true, None)), w).
Proof.
  intros (before & c & after & -> & Hbefore & [Hty Hst]).
  induction Hbefore as [|b rest [Hne Hnc] _ IH].
  - cbn. rewrite Hty, Hst. rewrite !bool_decide_eq_true_2 by reflexivity.
    reflexivity.
  - unfold isEstablished, isNameConflict in *. cbn.
    repeat case_bool_decide; try exact IH; tauto.
Qed.

Lemma readyPredicate_established scopedLog client current w :
  observesEstablished (Conditions (Status current)) ->
  readyPredicate scopedLog client (Some current) w
    = (Done (Some current, (true, None)), w).
Proof.
  intros Hobs. unfold readyPredicate. cbn.
  rewrite (bind_done _ _ _ _ _ (rangeConditions_established _ _ _ Hobs)).
  reflexivity.
Qed.

(** The poll of the wait phase after [k] polls that came back "not yet",
    when the next evaluation of the predicate resolves. *)
Lemma waitPoll_after_pending scopedLog client k w
    (ptr l : option CustomResourceDefinition) w1 l' ok err w2 :
  pendingPolls scopedLog client k w ptr w1 l ->
  (k < 120)%nat ->
  readyPredicate scopedLog client l (snd (sleep (500 * Millisecond) w1))
    = (Done (l', (ok, err)), w2) ->
  (ok = true \/ err <> None) ->
  Poll (defaultPoll σ) (500 * Millisecond) (60 * Second)
       (readyPredicate scopedLog client) ptr w
    = (Done (l', err), w2).
Proof.
  intros Hpending Hk Hpred Hresolved.
  destruct (pendingPolls_run _ _ _ _ _ _ _ Hpending) as (Hrun & _).
  cbn [Poll defaultPoll]. unfold waitPoll. rewrite default_attempts.
  replace 120%nat with (k + S (119 - k))%nat by lia.
  rewrite Hrun.
  destruct err as [e|].
  - erewrite pollAttempts_error; [reflexivity | exact Hpred].
  - destruct ok; [|destruct Hresolved; congruence].
    erewrite pollAttempts_success; [reflexivity | exact Hpred].
Qed.

Lemma waitForV1CRD_sees_established scopedLog (crdName : string)
    (ptr : option CustomResourceDefinition) client w k w1 current :
  let w0 := logged DebugLevel scopedLog
              "Waiting for CRD (CustomResourceDefinition) to be available..." w in
  pendingPolls scopedLog client k w0 ptr w1 (Some current) ->
  (k < 120)%nat ->
  observesEstablished (Conditions (Status current)) ->
  waitForV1CRD scopedLog crdName ptr client (defaultPoll σ) w
    = (Done None,
       mkWorld (apiserver w1) (calls w1) (logs w1) (clock w1 + 500 * Millisecond))
  /\ clock w1 + 500 * Millisecond
     = clock w + (Z.of_nat k + 1) * (500 * Millisecond)
  /\ exists gets,
       calls w1 = calls w ++ gets
       /\ forallb isGet gets = true
       /\ length gets = k.
Proof.
  intros w0 Hpending Hk Hobs.
  destruct (pendingPolls_run _ _ _ _ _ _ _ Hpending)
    as (_ & Hclock & gets & Hcalls & Hgets & Hlen).
  split; [|split].
  - erewrite waitForV1CRD_after_poll;
      [| eapply waitPoll_after_pending;
         [exact Hpending | exact Hk
         | apply readyPredicate_established; exact Hobs | left; reflexivity]].
    reflexivity.
  - rewrite Hclock. subst w0. cbn [clock logged]. lia.
  - exists gets. subst w0. cbn [calls logged] in Hcalls. auto.
Qed.

(** X8. Success of the wait: after [k] polls that came back "not yet",
    fewer than 120, the object held shows Established=true before any
    condition that ends the wait (a NamesAccepted=false further down the
    list does not count).  Then [waitForV1CRD] returns nil at (k+1)
    intervals; it has issued [k] Gets and nothing else, in particular no
    Delete. *)
Theorem waitForV1CRD_established scopedLog (crdName : string)
    (ptr : option CustomResourceDefinition) client w k w1 current :
  let w0 := logged DebugLevel scopedLog
              "Waiting for CRD (CustomResourceDefinition) to be available..." w in
  pendingPolls scopedLog client k w0 ptr w1 (Some current) ->
  (k < 120)%nat ->
  observesEstablished (Conditions (Status current)) ->
  exists w' gets,
    waitForV1CRD scopedLog crdName ptr client (defaultPoll σ) w = (Done None, w')
    /\ calls w' = calls w ++ gets
    /\ forallb isGet gets = true
    /\ length gets = k
    /\ existsb isDelete (calls w') = existsb isDelete (calls w)
    /\ clock w' = clock w + (Z.of_nat k + 1) * (500 * Millisecond).
Proof.
  intros w0 Hpending Hk Hobs.
  destruct (waitForV1CRD_sees_established scopedLog crdName ptr client w k w1
              current Hpending Hk Hobs)
    as (Hwait & Hclock & gets & Hcalls & Hgets & Hlen).
  eexists _, gets. split; [exact Hwait|]. cbn [calls clock].
  split; [exact Hcalls|]. split; [exact Hgets|]. split; [exact Hlen|].
  split; [|exact Hclock].
  rewrite Hcalls, existsb_app.
  assert (Hnone : existsb isDelete gets = false).
  { clear -Hgets. induction gets as [|c gets IH]; [reflexivity|].
    cbn in Hgets. apply andb_true_iff in Hgets as [Hc Hrest].
    cbn. rewrite (IH Hrest). destruct c; cbn in *; congruence. }
  rewrite Hnone. apply orb_false_r.
Qed.

Lemma Is_refl (e : error) : Is e e = true.
Proof.
  destruct e; cbn; rewrite bool_decide_eq_true_2 by reflexivity; reflexivity.
Qed.

(** X9. When the poll of the wait phase fails with [err] and the Delete
    that follows goes through, the error returned is
    [fmt.Errorf("error occurred waiting for CRD: %w", err)]: it wraps the
    wait failure, so [errors.Is] finds it (a caller can tell a timeout by
    [wait.ErrWaitTimeout]), its message ends in the message of the wait
    failure, and nothing more is logged. *)
Theorem waitForV1CRD_wraps_wait_failure scopedLog (crdName : string)
    (ptr : option CustomResourceDefinition) client (p : poller σ)
    w current err w2 s :
  Poll p (500 * Millisecond) (60 * Second) (readyPredicate scopedLog client) ptr
       (logged DebugLevel scopedLog
          "Waiting for CRD (CustomResourceDefinition) to be available..." w)
    = (Done (Some current, Some err), w2) ->
  Delete client (Name (Meta current)) (apiserver w2) = (None, s) ->
  let returned := Errorf "error occurred waiting for CRD: " err in
  waitForV1CRD scopedLog crdName ptr client p w =
    (Done (Some returned),
     mkWorld s (calls w2 ++ [CallDelete (Name (Meta current))])
       (logs w2) (clock w2))
  /\ Unwrap returned = Some err
  /\ Is returned err = true
  /\ Error returned = "error occurred waiting for CRD: " +:+ Error err.
Proof.
  intros Hpoll Hdel returned.
  split; [|split; [reflexivity | split; [|reflexivity]]].
  - rewrite (waitForV1CRD_after_poll _ _ _ _ _ _ _ _ Hpoll), Hdel. reflexivity.
  - subst returned. cbn [Is]. rewrite Is_refl. apply orb_true_r.
Qed.

(** X10. A failed read in the wait loop moves the target of the
    compensation.  After [k] polls that came back "not yet", the object
    held ends no wait and the Get for it fails.  The predicate has then
    assigned [crd] from that failed Get: when a nil pointer came back with
    the error, [waitForV1CRD] panics on a nil dereference and no Delete is
    issued; when an object came back, the Delete is issued for the name of
    that object, whatever it is, not for the name that was waited on. *)
Theorem waitForV1CRD_failed_read scopedLog (crdName : string)
    (ptr : option CustomResourceDefinition) client w k w1 current
    (back : option CustomResourceDefinition) e s :
  let w0 := logged DebugLevel scopedLog
              "Waiting for CRD (CustomResourceDefinition) to be available..." w in
  pendingPolls scopedLog client k w0 ptr w1 (Some current) ->
  (k < 120)%nat ->
  notYetReady (Conditions (Status current)) ->
  Get client (Name (Meta current)) (apiserver w1) = ((back, Some e), s) ->
  let w2 := mkWorld s (calls w1 ++ [CallGet (Name (Meta current))])
              (logs w1) (clock w1 + 500 * Millisecond) in
  match back with
  | None =>
      waitForV1CRD scopedLog crdName ptr client (defaultPoll σ) w
      = (Panic nilDereference, w2)
  | Some other =>
      exists r w',
        waitForV1CRD scopedLog crdName ptr client (defaultPoll σ) w
        = (Done (Some r), w')
        /\ calls w' = calls w1 ++ [CallGet (Name (Meta current));
                                   CallDelete (Name (Meta other))]
        /\ match Delete client (Name (Meta other)) s with
           | (None, _) => r = Errorf "error occurred waiting for CRD: " e
           | (Some deleteErr, _) => r = Errorf "unable to delete CRD: " deleteErr
           end
  end.
Proof.
  intros w0 Hpending Hk Hnot Hget w2.
  assert (Hpoll : Poll (defaultPoll σ) (500 * Millisecond) (60 * Second)
                    (readyPredicate scopedLog client) ptr w0
                  = (Done (back, Some e), w2)).
  { eapply waitPoll_after_pending;
      [exact Hpending | exact Hk | | right; discriminate].
    exact (readyPredicate_notYetReady scopedLog client current
             (snd (sleep (500 * Millisecond) w1)) _ _ _ Hnot Hget). }
  rewrite (waitForV1CRD_after_poll _ _ _ _ _ _ _ _ Hpoll).
  destruct back as [other|]; [|reflexivity].
  subst w2. cbn [apiserver calls logs clock].
  destruct (Delete client (Name (Meta other)) s) as [[d|] s'];
    eexists _, _; (split; [reflexivity|]); cbn [calls];
    rewrite <- app_assoc; split; reflexivity.
Qed.

End WaitPhase.

Section Reconcile.

Context {VC : versioncheck} {Consts : k8sconstv2} {Conv : conversion}.
Context {σ : Type}.

Implicit Types (w : World σ) (crd : CustomResourceDefinition)
               (clientset : Clientset σ).

(** [createUpdateCRD] on the v1 surface, once the object is at hand: found
    by the lookup, or returned by the Create. *)
Lemma createUpdateCRD_found clientset (crdName : string) crd (p : poller σ) w
    (ptr : option CustomResourceDefinition) s :
  Get (ApiextensionsV1 clientset) (Name (Meta crd)) (apiserver w)
    = ((ptr, None), s) ->
  createUpdateCRD v1Capable clientset crdName crd p w =
    (do err <- updateV1CRD (WithField "name" crdName log) crd ptr
                           (ApiextensionsV1 clientset) p;
     match err with
     | Some e => ret (Some e)
     | None =>
         do err <- waitForV1CRD (WithField "name" crdName log) crdName ptr
                                (ApiextensionsV1 clientset) p;
         match err with
         | Some e => ret (Some e)
         | None =>
             do _ <- Info (WithField "name" crdName log)
                     "CRD (CustomResourceDefinition) is installed and up-to-date";
             ret None
         end
     end)
      (mkWorld s (calls w ++ [CallGet (Name (Meta crd))]) (logs w) (clock w)).
Proof.
  intros Hget. unfold createUpdateCRD. cbn [negb APIExtensionsV1CRD v1Capable].
  unfold bind at 1. rewrite (request_run _ _ _ _ _ Hget).
  change (IsNotFound None) with false. reflexivity.
Qed.

Lemma createUpdateCRD_created clientset (crdName : string) crd (p : poller σ) w
    (found ptr : option CustomResourceDefinition) e s1 s2 :
  Get (ApiextensionsV1 clientset) (Name (Meta crd)) (apiserver w)
    = ((found, Some e), s1) ->
  IsNotFound (Some e) = true ->
  Create (ApiextensionsV1 clientset) crd s1 = ((ptr, None), s2) ->
  createUpdateCRD v1Capable clientset crdName crd p w =
    (do err <- updateV1CRD (WithField "name" crdName log) crd ptr
                           (ApiextensionsV1 clientset) p;
     match err with
     | Some e => ret (Some e)
     | None =>
         do err <- waitForV1CRD (WithField "name" crdName log) crdName ptr
                                (ApiextensionsV1 clientset) p;
         match err with
         | Some e => ret (Some e)
         | None =>
             do _ <- Info (WithField "name" crdName log)
                     "CRD (CustomResourceDefinition) is installed and up-to-date";
             ret None
         end
     end)
      (mkWorld s2 (calls w ++ [CallGet (Name (Meta crd)); CallCreate crd])
         (logs w ++ [mkLog InfoLevel "Creating CRD (CustomResourceDefinition)..."
                       (WithField "name" crdName log)])
         (clock w)).
Proof.
  intros Hget Hnf Hcreate. unfold createUpdateCRD.
  cbn [negb APIExtensionsV1CRD v1Capable].
  unfold bind at 1. rewrite (request_run _ _ _ _ _ Hget). cbn beta iota.
  rewrite Hnf.
  unfold bind at 1. unfold Info at 1. rewrite write_logged.
  unfold bind at 1. unfold request at 1. cbn [apiserver logged].
  rewrite Hcreate. cbn [calls logs clock logged].
  change (IsAlreadyExists None) with false. cbn iota.
  rewrite <- app_assoc. reflexivity.
Qed.

(** X11. A lookup that fails with anything but "not found" ends the
    reconciliation of the kind, on either API surface, for every poller:
    the error of the Get is returned as it is, and the Get is the only
    request issued (no Create, no Update, no Delete, no poll). *)
Theorem createUpdateCRD_lookup_error
    (capabilities : ServerCapabilities) clientset (crdName : string) crd
    (p : poller σ) w :
  (APIExtensionsV1CRD capabilities = true ->
   forall found e s,
     Get (ApiextensionsV1 clientset) (Name (Meta crd)) (apiserver w)
       = ((found, Some e), s) ->
     IsNotFound (Some e) = false ->
     createUpdateCRD capabilities clientset crdName crd p w =
       (Done (Some e),
        mkWorld s (calls w ++ [CallGet (Name (Meta crd))]) (logs w) (clock w)))
  /\ (APIExtensionsV1CRD capabilities = false ->
      forall converted found e s,
        convertToV1Beta1CRD crd = (Some converted, None) ->
        GetV1beta1 (ApiextensionsV1beta1 clientset)
                   (Name (v1beta1.Meta converted)) (apiserver w)
          = ((found, Some e), s) ->
        IsNotFound (Some e) = false ->
        createUpdateCRD capabilities clientset crdName crd p w =
          (Done (Some e),
           mkWorld s
             (calls w ++ [CallGetV1beta1 (Name (v1beta1.Meta converted))])
             (logs w ++
                [mkLog InfoLevel
                   "K8s apiserver does not support v1 CRDs, falling back to v1beta1"
                   log])
             (clock w))).
Proof.
  split.
  - intros Hcap found e s Hget Hnf.
    unfold createUpdateCRD. rewrite Hcap. cbn [negb].
    unfold bind at 1. rewrite (request_run _ _ _ _ _ Hget). cbn beta iota.
    rewrite Hnf. reflexivity.
  - intros Hcap converted found e s Hconv Hget Hnf.
    unfold createUpdateCRD. rewrite Hcap. cbn [negb].
    unfold createUpdateV1beta1CRD. rewrite Hconv.
    unfold bind, Info, write, request, deref, ret. cbn. rewrite Hget. cbn.
    rewrite Hnf. reflexivity.
Qed.

(** X12. A Create that fails with anything but "already exists" ends the
    reconciliation of the kind, on either API surface, for every poller:
    the error of the Create is returned as it is, after the Get and the
    Create and no other request. *)
Theorem createUpdateCRD_create_error
    (capabilities : ServerCapabilities) clientset (crdName : string) crd
    (p : poller σ) w :
  (APIExtensionsV1CRD capabilities = true ->
   forall found e s1 created e' s2,
     Get (ApiextensionsV1 clientset) (Name (Meta crd)) (apiserver w)
       = ((found, Some e), s1) ->
     IsNotFound (Some e) = true ->
     Create (ApiextensionsV1 clientset) crd s1 = ((created, Some e'), s2) ->
     IsAlreadyExists (Some e') = false ->
     createUpdateCRD capabilities clientset crdName crd p w =
       (Done (Some e'),
        mkWorld s2
          (calls w ++ [CallGet (Name (Meta crd)); CallCreate crd])
          (logs w ++ [mkLog InfoLevel "Creating CRD (CustomResourceDefinition)..."
                        (WithField "name" crdName log)])
          (clock w)))
  /\ (APIExtensionsV1CRD capabilities = false ->
      forall converted found e s1 created e' s2,
        convertToV1Beta1CRD crd = (Some converted, None) ->
        GetV1beta1 (ApiextensionsV1beta1 clientset)
                   (Name (v1beta1.Meta converted)) (apiserver w)
          = ((found, Some e), s1) ->
        IsNotFound (Some e) = true ->
        CreateV1beta1 (ApiextensionsV1beta1 clientset) converted s1
          = ((created, Some e'), s2) ->
        IsAlreadyExists (Some e') = false ->
        createUpdateCRD capabilities clientset crdName crd p w =
          (Done (Some e'),
           mkWorld s2
             (calls w ++ [CallGetV1beta1 (Name (v1beta1.Meta converted));
                          CallCreateV1beta1 converted])
             (logs w ++
                [mkLog InfoLevel
                   "K8s apiserver does not support v1 CRDs, falling back to v1beta1"
                   log;
                 mkLog InfoLevel "Creating CRD (CustomResourceDefinition)..."
                   (WithField "name" crdName log)])
             (clock w))).
Proof.
  split.
  - intros Hcap found e s1 created e' s2 Hget Hnf Hcreate Hae.
    unfold createUpdateCRD. rewrite Hcap. cbn [negb].
    unfold bind at 1. rewrite (request_run _ _ _ _ _ Hget). cbn beta iota.
    rewrite Hnf.
    unfold bind, write, request. cbn. rewrite Hcreate. cbn.
    rewrite Hae. unfold ret. rewrite <- app_assoc. reflexivity.
  - intros Hcap converted found e s1 created e' s2 Hconv Hget Hnf Hcreate Hae.
    unfold createUpdateCRD. rewrite Hcap. cbn [negb].
    unfold createUpdateV1beta1CRD. rewrite Hconv.
    unfold bind, write, request, deref, ret. cbn. rewrite Hget. cbn.
    rewrite Hnf. cbn. rewrite Hcreate. cbn. rewrite Hae.
    rewrite <- !app_assoc. reflexivity.
Qed.

(** The tail of a successful reconciliation: nothing to update, and the
    wait sees Established=true after [k] polls. *)
Lemma reconcile_reads_until_established (crdName : string) crd
    (client : CustomResourceDefinitionsGetter σ) w
    (cluster : CustomResourceDefinition) k w1 current :
  let scopedLog := WithField "name" crdName log in
  firstSchemaIsSet crd = Done false
  \/ (firstSchemaIsSet crd = Done true /\ needsUpdateV1 cluster = Done false) ->
  pendingPolls scopedLog client k
    (logged DebugLevel scopedLog
       "Waiting for CRD (CustomResourceDefinition) to be available..."
       (logged DebugLevel scopedLog
          "Checking if CRD (CustomResourceDefinition) needs update..." w))
    (Some cluster) w1 (Some current) ->
  (k < 120)%nat ->
  observesEstablished (Conditions (Status current)) ->
  exists w' gets,
    (do err <- updateV1CRD scopedLog crd (Some cluster) client (defaultPoll σ);
     match err with
     | Some e => ret (Some e)
     | None =>
         do err <- waitForV1CRD scopedLog crdName (Some cluster) client
                                (defaultPoll σ);
         match err with
         | Some e => ret (Some e)
         | None =>
             do _ <- Info scopedLog
                     "CRD (CustomResourceDefinition) is installed and up-to-date";
             ret None
         end
     end) w = (Done None, w')
    /\ calls w' = calls w ++ gets
    /\ forallb isGet gets = true
    /\ length gets = k
    /\ clock w' = clock w + (Z.of_nat k + 1) * (500 * Millisecond)
    /\ apiserver w' = apiserver w1.
Proof.
  intros scopedLog Hskip Hpending Hk Hobs.
  destruct (waitForV1CRD_sees_established scopedLog crdName (Some cluster) client
              _ k w1 current Hpending Hk Hobs)
    as (Hwait & Hclock & gets & Hcalls & Hgets & Hlen).
  eexists _, gets. split; [|split; [|split; [|split; [|split]]]].
  - unfold bind at 1. rewrite updateV1CRD_not_entered.
    + unfold bind at 1. fold scopedLog. rewrite Hwait.
      unfold bind, Info, write, ret. reflexivity.
    + destruct Hskip as [H | [H1 H2]]; [left; exact H|].
      right. split; [exact H1|]. exists cluster. auto.
  - cbn [calls]. rewrite Hcalls. reflexivity.
  - exact Hgets.
  - exact Hlen.
  - cbn [clock]. rewrite Hclock. reflexivity.
  - reflexivity.
Qed.

(** X13. Reconciling what is already installed only reads.  When the
    lookup finds an object that needs no update (it is up to date, or the
    baseline has no schema), and the wait sees Established=true after [k]
    polls that came back "not yet", [createUpdateCRD] returns nil and the
    requests it issued are the lookup and [k] further Gets: no Create, no
    Update, no Delete.  With the object established from the start, that
    is the one Get of the lookup. *)
Theorem createUpdateCRD_only_reads clientset (crdName : string) crd w
    (cluster : CustomResourceDefinition) s k w1 current :
  let client := ApiextensionsV1 clientset in
  let scopedLog := WithField "name" crdName log in
  Get client (Name (Meta crd)) (apiserver w) = ((Some cluster, None), s) ->
  firstSchemaIsSet crd = Done false
  \/ (firstSchemaIsSet crd = Done true /\ needsUpdateV1 cluster = Done false) ->
  pendingPolls scopedLog client k
    (logged DebugLevel scopedLog
       "Waiting for CRD (CustomResourceDefinition) to be available..."
       (logged DebugLevel scopedLog
          "Checking if CRD (CustomResourceDefinition) needs update..."
          (mkWorld s (calls w ++ [CallGet (Name (Meta crd))]) (logs w) (clock w))))
    (Some cluster) w1 (Some current) ->
  (k < 120)%nat ->
  observesEstablished (Conditions (Status current)) ->
  exists w' gets,
    createUpdateCRD v1Capable clientset crdName crd (defaultPoll σ) w
      = (Done None, w')
    /\ calls w' = calls w ++ CallGet (Name (Meta crd)) :: gets
    /\ forallb isGet gets = true
    /\ length gets = k
    /\ clock w' = clock w + (Z.of_nat k + 1) * (500 * Millisecond)
    /\ apiserver w' = apiserver w1.
Proof.
  intros client scopedLog Hget Hskip Hpending Hk Hobs.
  destruct (reconcile_reads_until_established crdName crd client _ cluster
              k w1 current Hskip Hpending Hk Hobs)
    as (w' & gets & Hrun & Hcalls & Hgets & Hlen & Hclock & Hs).
  exists w', gets.
  rewrite (createUpdateCRD_found _ _ _ _ _ _ _ Hget).
  split; [exact Hrun|]. cbn [calls clock] in Hcalls, Hclock.
  rewrite Hcalls, <- app_assoc. auto.
Qed.

(** X14. A first installation.  When the lookup answers "not found", the
    Create returns an object that needs no update, and the wait sees
    Established=true after [k] polls that came back "not yet",
    [createUpdateCRD] returns nil; the requests it issued are the lookup,
    the Create of the baseline object, and [k] Gets. *)
Theorem createUpdateCRD_first_install clientset (crdName : string) crd w
    (found : option CustomResourceDefinition) e s1
    (created : CustomResourceDefinition) s2 k w1 current :
  let client := ApiextensionsV1 clientset in
  let scopedLog := WithField "name" crdName log in
  Get client (Name (Meta crd)) (apiserver w) = ((found, Some e), s1) ->
  IsNotFound (Some e) = true ->
  Create client crd s1 = ((Some created, None), s2) ->
  firstSchemaIsSet crd = Done false
  \/ (firstSchemaIsSet crd = Done true /\ needsUpdateV1 created = Done false) ->
  pendingPolls scopedLog client k
    (logged DebugLevel scopedLog
       "Waiting for CRD (CustomResourceDefinition) to be available..."
       (logged DebugLevel scopedLog
          "Checking if CRD (CustomResourceDefinition) needs update..."
          (mkWorld s2 (calls w ++ [CallGet (Name (Meta crd)); CallCreate crd])
             (logs w ++ [mkLog InfoLevel
                           "Creating CRD (CustomResourceDefinition)..." scopedLog])
             (clock w))))
    (Some created) w1 (Some current) ->
  (k < 120)%nat ->
  observesEstablished (Conditions (Status current)) ->
  exists w' gets,
    createUpdateCRD v1Capable clientset crdName crd (defaultPoll σ) w
      = (Done None, w')
    /\ calls w' = calls w ++ CallGet (Name (Meta crd)) :: CallCreate crd :: gets
    /\ forallb isGet gets = true
    /\ length gets = k
    /\ clock w' = clock w + (Z.of_nat k + 1) * (500 * Millisecond)
    /\ apiserver w' = apiserver w1.
Proof.
  intros client scopedLog Hget Hnf Hcreate Hskip Hpending Hk Hobs.
  destruct (reconcile_reads_until_established crdName crd client _ created
              k w1 current Hskip Hpending Hk Hobs)
    as (w' & gets & Hrun & Hcalls & Hgets & Hlen & Hclock & Hs).
  exists w', gets.
  rewrite (createUpdateCRD_created _ _ _ _ _ _ _ _ _ _ Hget Hnf Hcreate).
  split; [exact Hrun|]. cbn [calls clock] in Hcalls, Hclock.
  rewrite Hcalls, <- app_assoc. auto.
Qed.

(** X15. After an update the readiness of what was written is not looked
    at.  The wait phase is handed the object of the lookup, not the object
    the update phase read or wrote: when that first object is stale but
    shows Established=true, and the read and the write of the update phase
    go through, [createUpdateCRD] returns nil two intervals later, and the
    Update is the last request it issued: no Get follows it. *)
Theorem createUpdateCRD_update_not_awaited clientset (crdName : string) crd w
    (cluster fetched : CustomResourceDefinition) v0 rest schema s0 s1 returned s2 :
  let client := ApiextensionsV1 clientset in
  Versions (Spec crd) = v0 :: rest ->
  Schema v0 = Some schema ->
  Get client (Name (Meta crd)) (apiserver w) = ((Some cluster, None), s0) ->
  needsUpdateV1 cluster = Done true ->
  observesEstablished (Conditions (Status cluster)) ->
  Get client (Name (Meta crd)) s0 = ((Some fetched, None), s1) ->
  needsUpdateV1 fetched = Done true ->
  Update client (overwrite crd fetched) s1 = ((returned, None), s2) ->
  exists w',
    createUpdateCRD v1Capable clientset crdName crd (defaultPoll σ) w
      = (Done None, w')
    /\ calls w' = calls w ++ [CallGet (Name (Meta crd)); CallGet (Name (Meta crd));
                              CallUpdate (overwrite crd fetched)]
    /\ apiserver w' = s2
    /\ clock w' = clock w + 2 * (500 * Millisecond).
Proof.
  intros client Hv Hs Hget Hstale Hobs Hget' Hstale' Hupd.
  rewrite (createUpdateCRD_found _ _ _ _ _ _ _ Hget).
  unfold bind at 1.
  pose proof (updateV1CRD_written_run (WithField "name" crdName log) crd
                cluster fetched client
                (mkWorld s0 (calls w ++ [CallGet (Name (Meta crd))]) (logs w) (clock w))
                v0 rest schema s1 returned s2 Hv Hs Hstale Hget' Hstale' Hupd)
    as Hupdate.
  fold client. rewrite Hupdate.
  unfold bind at 1.
  match goal with
  | |- context [waitForV1CRD ?l ?n ?ptr ?c ?p ?w0] =>
      destruct (waitForV1CRD_sees_established l n ptr c w0 0 _ cluster
                  (pending_done _ _ _ _) ltac:(lia) Hobs) as (Hwait & _)
  end.
  rewrite Hwait.
  eexists. split; [reflexivity|]. cbn [calls apiserver clock logged].
  rewrite <- !app_assoc. split; [reflexivity|]. split; [reflexivity | lia].
Qed.

End Reconcile.

Section Surfaces.

Context {VC : versioncheck} {Consts : k8sconstv2} {Conv : conversion}.
Context {σ : Type}.

Variable P : Call -> bool.

Lemma onlyAdded_refl' (w : World σ) : onlyAdded P w w.
Proof. exists []. rewrite app_nil_r. auto. Qed.

Lemma onlyAdded_trans' (w1 w2 w3 : World σ) :
  onlyAdded P w1 w2 -> onlyAdded P w2 w3 -> onlyAdded P w1 w3.
Proof.
  intros (a1 & H1 & F1) (a2 & H2 & F2). exists (a1 ++ a2). split.
  - rewrite H2, H1, app_assoc. reflexivity.
  - rewrite forallb_app, F1, F2. reflexivity.
Qed.

Lemma added_ret {A} (a : A) : keeps (onlyAdded P) (@ret σ A a).
Proof. intros w r w' H. inversion H; subst. apply onlyAdded_refl'. Qed.

Lemma added_lift {A} (o : outcome A) : keeps (onlyAdded P) (@lift σ A o).
Proof. intros w r w' H. inversion H; subst. apply onlyAdded_refl'. Qed.

Lemma added_deref {A} (p : option A) : keeps (onlyAdded P) (@deref σ A p).
Proof. destruct p; [apply added_ret | apply added_lift]. Qed.

Lemma added_write (l : Level) (e : Entry) (msg : string) :
  keeps (onlyAdded P) (@write σ l e msg).
Proof.
  intros w r w' H. inversion H; subst. exists []. cbn.
  rewrite app_nil_r. auto.
Qed.

Lemma added_request {R} (c : Call) (op : σ -> R * σ) :
  P c = true -> keeps (onlyAdded P) (request c op).
Proof.
  intros Hc w r w' H. unfold request in H.
  destruct (op (apiserver w)) as [a s]. inversion H; subst.
  exists [c]. cbn. rewrite Hc. auto.
Qed.

Lemma added_bind {A B} (m : M σ A) (k : A -> M σ B) :
  keeps (onlyAdded P) m ->
  (forall a, keeps (onlyAdded P) (k a)) ->
  keeps (onlyAdded P) (bind m k).
Proof.
  intros Hm Hk w r w' H. unfold bind in H.
  destruct (m w) as [[a|msg] w1] eqn:Hrun.
  - eapply onlyAdded_trans'; [exact (Hm _ _ _ Hrun) | exact (Hk _ _ _ _ H)].
  - inversion H; subst. exact (Hm _ _ _ Hrun).
Qed.

Lemma added_poll {L} (interval timeout : Duration)
    (conditionFn : ConditionFunc σ L) l :
  (forall l0, keeps (onlyAdded P) (conditionFn l0)) ->
  keeps (onlyAdded P) (Poll (defaultPoll σ) interval timeout conditionFn l).
Proof.
  intros Hcond w r w' H. cbn [Poll defaultPoll] in H. unfold waitPoll in H.
  eapply (pollAttempts_keeps (onlyAdded P));
    [apply onlyAdded_refl' | apply onlyAdded_trans' | | | exact H].
  - intros w0. exists []. cbn. rewrite app_nil_r. auto.
  - intros l0 wa ra wb. apply Hcond.
Qed.

End Surfaces.

Ltac added_step :=
  lazymatch goal with
  | |- keeps _ (ret _) => apply added_ret
  | |- keeps _ (lift _) => apply added_lift
  | |- keeps _ (deref _) => apply added_deref
  | |- keeps _ (write _ _ _) => apply added_write
  | |- keeps _ (request _ _) => apply added_request; reflexivity
  | |- keeps _ (bind _ _) => apply added_bind; [ | intros ? ]
  | |- keeps _ (match ?x with _ => _ end) => destruct x
  end.

Section OneSurface.

Context {VC : versioncheck} {Consts : k8sconstv2} {Conv : conversion}.
Context {σ : Type}.

Lemma rangeConditions_added (P : Call -> bool) scopedLog conds :
  keeps (onlyAdded P) (@rangeConditions σ scopedLog conds).
Proof.
  induction conds as [|c rest IH]; cbn [rangeConditions]; unfold Error_;
    repeat added_step; try exact IH.
Qed.

Lemma rangeConditionsV1beta1_added (P : Call -> bool) scopedLog conds :
  keeps (onlyAdded P) (@rangeConditionsV1beta1 σ scopedLog conds).
Proof.
  induction conds as [|c rest IH]; cbn [rangeConditionsV1beta1]; unfold Error_;
    repeat added_step; try exact IH.
Qed.

Lemma updateV1CRD_added scopedLog (crd : CustomResourceDefinition)
    (ptr : option CustomResourceDefinition)
    (client : CustomResourceDefinitionsGetter σ) :
  keeps (onlyAdded isV1) (updateV1CRD scopedLog crd ptr client (defaultPoll σ)).
Proof.
  unfold updateV1CRD, Debug, Info, Error_. repeat added_step.
  all: apply added_poll; intros l0.
  all: unfold applyPredicate, Debug; repeat added_step.
Qed.

Lemma waitForV1CRD_added scopedLog (crdName : string)
    (ptr : option CustomResourceDefinition)
    (client : CustomResourceDefinitionsGetter σ) :
  keeps (onlyAdded isV1)
        (waitForV1CRD scopedLog crdName ptr client (defaultPoll σ)).
Proof.
  unfold waitForV1CRD, Debug, Error_. repeat added_step.
  all: apply added_poll; intros l0.
  all: unfold readyPredicate; repeat added_step.
  all: apply rangeConditions_added.
Qed.

Lemma updateV1beta1CRD_added scopedLog
    (crd : v1beta1.CustomResourceDefinition)
    (ptr : option v1beta1.CustomResourceDefinition)
    (client : V1beta1CustomResourceDefinitionsGetter σ) :
  keeps (onlyAdded isV1beta1)
        (updateV1beta1CRD scopedLog crd ptr client (defaultPoll σ)).
Proof.
  unfold updateV1beta1CRD, Debug, Info, Error_. repeat added_step.
  all: apply added_poll; intros l0.
  all: unfold applyPredicateV1beta1, Debug; repeat added_step.
Qed.

Lemma waitForV1beta1CRD_added scopedLog (crdName : string)
    (ptr : option v1beta1.CustomResourceDefinition)
    (client : V1beta1CustomResourceDefinitionsGetter σ) :
  keeps (onlyAdded isV1beta1)
        (waitForV1beta1CRD scopedLog crdName ptr client (defaultPoll σ)).
Proof.
  unfold waitForV1beta1CRD, Debug, Error_. repeat added_step.
  all: apply added_poll; intros l0.
  all: unfold readyPredicateV1beta1; repeat added_step.
  all: apply rangeConditionsV1beta1_added.
Qed.

(** X16. One run, one API surface.  Under the default poller, whatever
    the apiserver answers and however the run ends (nil, an error, a
    panic), every request [createUpdateCRD] issues goes to the v1 surface
    when the capabilities report v1 support, and to the v1beta1 surface
    when they do not. *)
Theorem createUpdateCRD_one_surface (capabilities : ServerCapabilities)
    (clientset : Clientset σ) (crdName : string)
    (crd : CustomResourceDefinition) (w : World σ) r w' :
  createUpdateCRD capabilities clientset crdName crd (defaultPoll σ) w = (r, w') ->
  exists added,
    calls w' = calls w ++ added
    /\ forallb (if APIExtensionsV1CRD capabilities then isV1 else isV1beta1) added
       = true.
Proof.
  revert w r w'.
  change (keeps (onlyAdded (if APIExtensionsV1CRD capabilities
                            then isV1 else isV1beta1))
                (createUpdateCRD capabilities clientset crdName crd
                                 (defaultPoll σ))).
  unfold createUpdateCRD. destruct (APIExtensionsV1CRD capabilities); cbn [negb].
  - unfold Info. repeat (cbv beta zeta; added_step);
      first [apply updateV1CRD_added | apply waitForV1CRD_added].
  - unfold createUpdateV1beta1CRD, Info.
    apply added_bind; [apply added_write | intros _].
    destruct (convertToV1Beta1CRD crd) as [v1beta1CRD [e|]];
      [apply added_ret|].
    repeat (cbv beta zeta; added_step);
      first [apply updateV1beta1CRD_added | apply waitForV1beta1CRD_added].
Qed.

End OneSurface.

Section Elapsed.

Context {σ : Type}.

Lemma within_mono {A} (d d' : Duration) (m : M σ A) :
  d <= d' -> keeps (within d) m -> keeps (within d') m.
Proof. intros Hle Hm w r w' H. specialize (Hm _ _ _ H). unfold within in *. lia. Qed.

Lemma within_ret {A} (d : Duration) (a : A) :
  0 <= d -> keeps (within d) (@ret σ A a).
Proof. intros Hd w r w' H. inversion H; subst. unfold within. lia. Qed.

Lemma within_lift {A} (d : Duration) (o : outcome A) :
  0 <= d -> keeps (within d) (@lift σ A o).
Proof. intros Hd w r w' H. inversion H; subst. unfold within. lia. Qed.

Lemma within_deref {A} (d : Duration) (p : option A) :
  0 <= d -> keeps (within d) (@deref σ A p).
Proof. destruct p; [apply within_ret | apply within_lift]. Qed.

Lemma within_write (d : Duration) (l : Level) (e : Entry) (msg : string) :
  0 <= d -> keeps (within d) (@write σ l e msg).
Proof. intros Hd w r w' H. inversion H; subst. unfold within. cbn. lia. Qed.

Lemma within_request {R} (d : Duration) (c : Call) (op : σ -> R * σ) :
  0 <= d -> keeps (within d) (request c op).
Proof.
  intros Hd w r w' H. unfold request in H.
  destruct (op (apiserver w)) as [a s]. inversion H; subst.
  unfold within. cbn. lia.
Qed.

Lemma within_bind {A B} (d1 d2 : Duration) (m : M σ A) (k : A -> M σ B) :
  0 <= d2 ->
  keeps (within d1) m ->
  (forall a, keeps (within d2) (k a)) ->
  keeps (within (d1 + d2)) (bind m k).
Proof.
  intros Hd2 Hm Hk w r w' H. unfold bind in H.
  destruct (m w) as [[a|msg] w1] eqn:Hrun.
  - specialize (Hm _ _ _ Hrun). specialize (Hk _ _ _ _ H).
    unfold within in *. lia.
  - inversion H; subst. specialize (Hm _ _ _ Hrun).
    unfold within in *. lia.
Qed.

(** A step that takes no time, then the rest. *)
Lemma within_then {A B} (d : Duration) (m : M σ A) (k : A -> M σ B) :
  0 <= d ->
  keeps (within 0) m ->
  (forall a, keeps (within d) (k a)) ->
  keeps (within d) (bind m k).
Proof.
  intros Hd Hm Hk. replace d with (0 + d) by lia.
  apply within_bind; assumption.
Qed.

Lemma within_pollAttempts {L} (interval : Duration)
    (conditionFn : ConditionFunc σ L) :
  0 <= interval ->
  (forall l, keeps (within 0) (conditionFn l)) ->
  forall attempts l,
    keeps (within (Z.of_nat attempts * interval))
          (pollAttempts attempts interval conditionFn l).
Proof.
  intros Hi Hcond. induction attempts as [|n IH]; intros l w r w' H.
  - cbn in H. inversion H; subst. unfold within. lia.
  - cbn [pollAttempts] in H. unfold bind at 1 in H. cbn [sleep] in H.
    unfold bind at 1 in H.
    destruct (conditionFn l _) as [o w1] eqn:Hc.
    pose proof (Hcond _ _ _ _ Hc) as Hstep. unfold within in Hstep. cbn in Hstep.
    destruct o as [[l1 [ok [e|]]]|msg].
    + inversion H; subst. unfold within. lia.
    + destruct ok.
      * inversion H; subst. unfold within. lia.
      * specialize (IH _ _ _ _ H). unfold within in *. lia.
    + inversion H; subst. unfold within. lia.
Qed.

End Elapsed.

Ltac budget := unfold Second, Millisecond; lia.

Ltac within_step :=
  lazymatch goal with
  | |- keeps (within _) (ret _) => apply within_ret; budget
  | |- keeps (within _) (lift _) => apply within_lift; budget
  | |- keeps (within _) (deref _) => apply within_deref; budget
  | |- keeps (within _) (write _ _ _) => apply within_write; budget
  | |- keeps (within _) (request _ _) => apply within_request; budget
  | |- keeps (within _) (bind (write _ _ _) _) =>
      apply within_then; [budget | apply within_write; budget | intros ?]
  | |- keeps (within _) (bind (request _ _) _) =>
      apply within_then; [budget | apply within_request; budget | intros ?]
  | |- keeps (within _) (bind (deref _) _) =>
      apply within_then; [budget | apply within_deref; budget | intros ?]
  | |- keeps (within _) (bind (lift _) _) =>
      apply within_then; [budget | apply within_lift; budget | intros ?]
  | |- keeps _ (match ?x with _ => _ end) => destruct x
  end.

Section TimeBound.

Context {VC : versioncheck} {Consts : k8sconstv2} {Conv : conversion}.
Context {σ : Type}.

Lemma readyPredicate_within scopedLog
    (client : CustomResourceDefinitionsGetter σ) l :
  keeps (within 0) (readyPredicate scopedLog client l).
Proof.
  intros w r w' H. unfold readyPredicate in H.
  destruct l as [current|]; cbn in H; [|inversion H; subst; unfold within; lia].
  unfold bind in H.
  destruct (rangeConditions scopedLog (Conditions (Status current)) w)
    as [o w1] eqn:Hscan.
  apply rangeConditions_calls in Hscan as (_ & _ & Ht).
  destruct o as [[result|]|msg].
  - inversion H; subst. unfold within. lia.
  - unfold request, ret in H.
    destruct (Get client (Name (Meta current)) (apiserver w1)) as [[p e] s].
    inversion H; subst. unfold within. cbn. lia.
  - inversion H; subst. unfold within. lia.
Qed.

Lemma waitForV1CRD_within scopedLog (crdName : string)
    (ptr : option CustomResourceDefinition)
    (client : CustomResourceDefinitionsGetter σ) :
  keeps (within (60 * Second))
        (waitForV1CRD scopedLog crdName ptr client (defaultPoll σ)).
Proof.
  unfold waitForV1CRD, Debug, Error_. within_step.
  apply (within_mono (Z.of_nat 120 * (500 * Millisecond) + 0)); [budget|].
  apply within_bind; [lia | |].
  - intros w r w' H. cbn [Poll defaultPoll] in H. unfold waitPoll in H.
    rewrite default_attempts in H.
    assert (Hi : 0 <= 500 * Millisecond) by budget.
    exact (within_pollAttempts (500 * Millisecond) _ Hi
             (readyPredicate_within scopedLog client) _ _ _ _ _ H).
  - intros x. repeat within_step.
Qed.

Lemma updateV1CRD_within scopedLog (crd : CustomResourceDefinition)
    (ptr : option CustomResourceDefinition)
    (client : CustomResourceDefinitionsGetter σ) :
  keeps (within (500 * Millisecond))
        (updateV1CRD scopedLog crd ptr client (defaultPoll σ)).
Proof.
  intros w r w' H.
  destruct (updateV1CRD_one_attempt _ _ _ _ _ _ _ H) as [[_ Ht] | [Ht _]];
    unfold within; rewrite Ht; budget.
Qed.

(** X17. The logical time one kind can take on the v1 surface.  Under
    the default poller, whatever the apiserver answers and however the run
    ends, [createUpdateCRD] leaves the clock between where it found it and
    60.5 s later: one interval for the apply loop, which never takes a
    second attempt, and the 60 s budget of the wait loop. *)
Theorem createUpdateCRD_time_bound (clientset : Clientset σ) (crdName : string)
    (crd : CustomResourceDefinition) (w : World σ) r w' :
  createUpdateCRD v1Capable clientset crdName crd (defaultPoll σ) w = (r, w') ->
  clock w <= clock w' <= clock w + (500 * Millisecond + 60 * Second).
Proof.
  revert w r w'.
  change (keeps (within (500 * Millisecond + 60 * Second))
                (createUpdateCRD v1Capable clientset crdName crd (defaultPoll σ))).
  assert (Htail : forall ptr err,
    keeps (within (500 * Millisecond + 60 * Second))
      (match err with
       | Some e => ret (Some e)
       | None =>
           do err <- updateV1CRD (WithField "name" crdName log) crd ptr
                                 (ApiextensionsV1 clientset) (defaultPoll σ);
           match err with
           | Some e => ret (Some e)
           | None =>
               do err <- waitForV1CRD (WithField "name" crdName log) crdName ptr
                                      (ApiextensionsV1 clientset) (defaultPoll σ);
               match err with
               | Some e => ret (Some e)
               | None =>
                   do _ <- Info (WithField "name" crdName log)
                     "CRD (CustomResourceDefinition) is installed and up-to-date";
                   ret None
               end
           end
       end)).
  { intros ptr [e|]; [within_step|].
    apply within_bind; [budget | apply updateV1CRD_within |].
    intros [e|]; [within_step|].
    apply (within_mono (60 * Second + 0)); [lia|].
    apply within_bind; [lia | apply waitForV1CRD_within |].
    intros [e|]; unfold Info; repeat within_step. }
  unfold createUpdateCRD. cbn [negb APIExtensionsV1CRD v1Capable]. cbv zeta.
  unfold Info.
  within_step. within_step. within_step; [|apply Htail].
  within_step. within_step. within_step. within_step; [within_step | apply Htail].
Qed.

End TimeBound.

Section Legacy.

Context {VC : versioncheck} {Consts : k8sconstv2} {Conv : conversion}.
Context {σ : Type}.

Implicit Types (w : World σ) (client : V1beta1CustomResourceDefinitionsGetter σ)
               (scopedLog : Entry).

(** X18. What the agent builds with [constructV1beta1CRD] is stale by
    [needsUpdateV1beta1] when the template has no validation, and otherwise
    only if the baseline version is below itself. *)
Theorem constructV1beta1CRD_staleness (name : string)
    (template : v1beta1.CustomResourceDefinition) :
  needsUpdateV1beta1 (constructV1beta1CRD name template)
  = match v1beta1.Validation (v1beta1.Spec template) with
    | None => true
    | Some _ => LT comparableCRDSchemaVersion comparableCRDSchemaVersion
    end.
Proof.
  unfold needsUpdateV1beta1.
  cbn [constructV1beta1CRD v1beta1.Spec v1beta1.Validation v1beta1.Meta Labels].
  destruct (v1beta1.Validation (v1beta1.Spec template)); [|reflexivity].
  rewrite lookup_singleton_eq, MustVersion_parses.
  destruct (LT comparableCRDSchemaVersion comparableCRDSchemaVersion); reflexivity.
Qed.

(** X19. A conversion that fails ends the fallback before any request.
    When the capabilities report no v1 support and either of the two
    conversions fails with [err], [createUpdateCRD] returns an error whose
    message names the step and ends in the message of [err]; the error is
    made with the verb for values, so it wraps nothing ([errors.Unwrap]
    gives nil).  No request is issued, for every clientset and poller. *)
Theorem createUpdateCRD_conversion_error (capabilities : ServerCapabilities)
    (clientset : Clientset σ) (crdName : string)
    (crd : CustomResourceDefinition) (p : poller σ) w :
  APIExtensionsV1CRD capabilities = false ->
  let w' := logged InfoLevel log
              "K8s apiserver does not support v1 CRDs, falling back to v1beta1" w in
  (forall internal err,
     Convert_v1_CustomResourceDefinition_To_apiextensions_CustomResourceDefinition crd
       = (internal, Some err) ->
     let returned :=
       New ("unable to convert v1 CRD to internal representation: " +:+ Error err) in
     createUpdateCRD capabilities clientset crdName crd p w
       = (Done (Some returned), w')
     /\ Unwrap returned = None)
  /\ (forall internal converted err,
        Convert_v1_CustomResourceDefinition_To_apiextensions_CustomResourceDefinition crd
          = (internal, None) ->
        Convert_apiextensions_CustomResourceDefinition_To_v1beta1_CustomResourceDefinition
          internal = (converted, Some err) ->
        let returned :=
          New ("unable to convert internally represented CRD to v1beta1: "
               +:+ Error err) in
        createUpdateCRD capabilities clientset crdName crd p w
          = (Done (Some returned), w')
        /\ Unwrap returned = None).
Proof.
  intros Hcap w'. split.
  - intros internal err Hconv returned. split; [|reflexivity].
    unfold createUpdateCRD. rewrite Hcap. cbn [negb].
    unfold Info. rewrite (bind_done _ _ _ _ _ (write_logged _ _ _ _)).
    unfold createUpdateV1beta1CRD, convertToV1Beta1CRD. rewrite Hconv.
    reflexivity.
  - intros internal converted err Hconv1 Hconv2 returned. split; [|reflexivity].
    unfold createUpdateCRD. rewrite Hcap. cbn [negb].
    unfold Info. rewrite (bind_done _ _ _ _ _ (write_logged _ _ _ _)).
    unfold createUpdateV1beta1CRD, convertToV1Beta1CRD. rewrite Hconv1, Hconv2.
    reflexivity.
Qed.

(** X20. The v1beta1 update phase with a baseline that has no validation
    returns nil after its first log line, for every cluster object
    (a nil pointer included), client and poller; no request is issued. *)
Theorem updateV1beta1CRD_baseline_without_validation scopedLog
    (crd : v1beta1.CustomResourceDefinition)
    (clusterCRD : option v1beta1.CustomResourceDefinition)
    client (p : poller σ) w :
  v1beta1.Validation (v1beta1.Spec crd) = None ->
  updateV1beta1CRD scopedLog crd clusterCRD client p w =
    (Done None,
     logged DebugLevel scopedLog
       "Checking if CRD (CustomResourceDefinition) needs update..." w).
Proof.
  intros Hval. unfold updateV1beta1CRD, Debug.
  rewrite (bind_done _ _ _ _ _ (write_logged _ _ _ _)).
  rewrite Hval. reflexivity.
Qed.

Lemma applyPredicateV1beta1_summary scopedLog
    (crd : v1beta1.CustomResourceDefinition) client
    (l : option v1beta1.CustomResourceDefinition) w r w' :
  applyPredicateV1beta1 scopedLog crd client l w = (r, w') ->
  clock w' = clock w
  /\ (forall l', r <> Done (l', (false, None)))
  /\ (calls w' = calls w ++ [CallGetV1beta1 (Name (v1beta1.Meta crd))]
      \/ exists obj,
           calls w' = calls w ++ [CallGetV1beta1 (Name (v1beta1.Meta crd));
                                  CallUpdateV1beta1 obj]).
Proof.
  unfold applyPredicateV1beta1, bind, request, deref, lift, ret, Debug, write.
  intros H. cbn in H.
  repeat (case_match; simplify_eq; cbn in * );
    (split; [reflexivity|]); (split; [intros l'; discriminate|]);
    rewrite <- ?app_assoc; cbn; eauto.
Qed.

(** X21. The v1beta1 apply loop never takes a second attempt either:
    under the default poller [updateV1beta1CRD] issues nothing and takes no
    time, or takes one interval and issues one Get on the v1beta1 surface,
    followed by at most one Update there; an Update that fails, with a
    conflict or otherwise, is an error of the phase. *)
Theorem updateV1beta1CRD_single_attempt scopedLog
    (crd : v1beta1.CustomResourceDefinition)
    (clusterCRD : option v1beta1.CustomResourceDefinition) client w r w' :
  updateV1beta1CRD scopedLog crd clusterCRD client (defaultPoll σ) w = (r, w') ->
  (calls w' = calls w /\ clock w' = clock w)
  \/ (clock w' = clock w + 500 * Millisecond
      /\ (calls w' = calls w ++ [CallGetV1beta1 (Name (v1beta1.Meta crd))]
          \/ exists obj,
               calls w' = calls w ++ [CallGetV1beta1 (Name (v1beta1.Meta crd));
                                      CallUpdateV1beta1 obj])).
Proof.
  unfold updateV1beta1CRD, Debug, Info, Error_. intros H.
  rewrite (bind_done _ _ _ _ _ (write_logged _ _ _ _)) in H.
  unfold bind at 1 in H.
  assert (Hstale : exists o,
            (if bool_decide (v1beta1.Validation (v1beta1.Spec crd) <> None)
             then do cluster <- deref clusterCRD; ret (needsUpdateV1beta1 cluster)
             else ret false)
              (logged DebugLevel scopedLog
                 "Checking if CRD (CustomResourceDefinition) needs update..." w)
            = (o, logged DebugLevel scopedLog
                 "Checking if CRD (CustomResourceDefinition) needs update..." w)).
  { case_bool_decide; [|eexists; reflexivity].
    destruct clusterCRD as [c|]; cbn; unfold bind, ret, lift; cbn;
      eexists; reflexivity. }
  destruct Hstale as (o & Hstale). rewrite Hstale in H.
  destruct o as [[|]|msg]; [| inversion H; subst; left; auto
                             | inversion H; subst; left; auto].
  rewrite (bind_done _ _ _ _ _ (write_logged _ _ _ _)) in H.
  unfold bind at 1 in H. cbn [Poll defaultPoll] in H. unfold waitPoll in H.
  rewrite default_attempts in H. cbn [pollAttempts] in H.
  unfold bind at 1 in H. cbn [sleep] in H. unfold bind at 1 in H.
  match type of H with
  | context [applyPredicateV1beta1 ?a ?b ?c ?d ?e] =>
      destruct (applyPredicateV1beta1 a b c d e) as [res w1] eqn:Hpred
  end.
  apply applyPredicateV1beta1_summary in Hpred as (Hclock & Hresolved & Hcalls).
  cbn [clock calls logged] in Hclock, Hcalls.
  right.
  destruct res as [[l' [ok [e|]]]|msg].
  - cbn in H. unfold bind, write, ret in H. cbn in H. inversion H; subst.
    cbn. split; [exact Hclock | exact Hcalls].
  - destruct ok; [|exfalso; exact (Hresolved l' eq_refl)].
    cbn in H. inversion H; subst. split; [exact Hclock | exact Hcalls].
  - cbn in H. inversion H; subst. split; [exact Hclock | exact Hcalls].
Qed.



End Legacy.

(** * Which phase deletes, and which object *)

Section Compensation.

Context {VC : versioncheck} {Consts : k8sconstv2} {Conv : conversion}.
Context {σ : Type}.

Implicit Types (w : World σ) (client : CustomResourceDefinitionsGetter σ)
               (scopedLog : Entry).





End Compensation.

(** * The cadence of the two loops *)

Section Cadence.

Context {VC : versioncheck} {Consts : k8sconstv2}.
Context {σ : Type}.

Implicit Types (w : World σ) (client : CustomResourceDefinitionsGetter σ)
               (scopedLog : Entry).

Lemma pollTicks_error {L} ticks interval rest (conditionFn : ConditionFunc σ L)
    l w l' ok e w' :
  conditionFn l (snd (sleep interval w)) = (Done (l', (ok, Some e)), w') ->
  pollTicks (S ticks) interval rest conditionFn l w = (Done (l', Some e), w').
Proof. intros H. cbn. unfold bind. cbn in *. rewrite H. reflexivity. Qed.

Lemma pollTicks_success {L} ticks interval rest (conditionFn : ConditionFunc σ L)
    l w l' w' :
  conditionFn l (snd (sleep interval w)) = (Done (l', (true, None)), w') ->
  pollTicks (S ticks) interval rest conditionFn l w = (Done (l', None), w').
Proof. intros H. cbn. unfold bind. cbn in *. rewrite H. reflexivity. Qed.

Lemma pollTicks_pending {L} ticks interval rest (conditionFn : ConditionFunc σ L)
    l w l' w' :
  conditionFn l (snd (sleep interval w)) = (Done (l', (false, None)), w') ->
  pollTicks (S ticks) interval rest conditionFn l w
    = pollTicks ticks interval rest conditionFn l' w'.
Proof. intros H. cbn. unfold bind. cbn in *. rewrite H. reflexivity. Qed.

Lemma pollTicks_panic {L} ticks interval rest (conditionFn : ConditionFunc σ L)
    l w msg w' :
  conditionFn l (snd (sleep interval w)) = (Panic msg, w') ->
  pollTicks (S ticks) interval rest conditionFn l w = (Panic msg, w').
Proof. intros H. cbn. unfold bind. cbn in *. rewrite H. reflexivity. Qed.

Lemma pollAttempts_panic {L} attempts interval (conditionFn : ConditionFunc σ L)
    l w msg w' :
  conditionFn l (snd (sleep interval w)) = (Panic msg, w') ->
  pollAttempts (S attempts) interval conditionFn l w = (Panic msg, w').
Proof. intros H. cbn. unfold bind. cbn in *. rewrite H. reflexivity. Qed.

(** The loop of [defaultPoll] is the loop by ticks with one tick less than
    its attempts, the last evaluation coming one interval after the last
    tick. *)
Lemma pollAttempts_ticks {L} attempts interval (conditionFn : ConditionFunc σ L) :
  forall l w,
    pollAttempts (S attempts) interval conditionFn l w
    = pollTicks attempts interval interval conditionFn l w.
Proof.
  induction attempts as [|n IH]; intros l w.
  - cbn. unfold bind. cbn.
    destruct (conditionFn l _) as [[[l' [[|] [e|]]]|msg] w1]; reflexivity.
  - destruct (conditionFn l (snd (sleep interval w)))
      as [[[l' [ok [e|]]]|msg] w1] eqn:Hc.
    + rewrite (pollAttempts_error _ _ _ _ _ _ _ _ _ Hc).
      rewrite (pollTicks_error _ _ _ _ _ _ _ _ _ _ Hc). reflexivity.
    + destruct ok.
      * rewrite (pollAttempts_success _ _ _ _ _ _ _ Hc).
        rewrite (pollTicks_success _ _ _ _ _ _ _ _ Hc). reflexivity.
      * rewrite (pollAttempts_pending _ _ _ _ _ _ _ Hc).
        rewrite (pollTicks_pending _ _ _ _ _ _ _ _ Hc). apply IH.
    + rewrite (pollAttempts_panic _ _ _ _ _ _ _ Hc).
      rewrite (pollTicks_panic _ _ _ _ _ _ _ _ Hc). reflexivity.
Qed.

Lemma defaultPoll_ticks {L} (conditionFn : ConditionFunc σ L) l w :
  Poll (defaultPoll σ) (500 * Millisecond) (60 * Second) conditionFn l w
  = Poll (tickingPoll σ 119) (500 * Millisecond) (60 * Second) conditionFn l w.
Proof.
  cbn [Poll defaultPoll tickingPoll]. unfold waitPoll.
  rewrite default_attempts, pollAttempts_ticks. reflexivity.
Qed.

(** With an apiserver that keeps the object pending, the loop by ticks
    evaluates the predicate on every tick and once more at the timeout,
    and only then gives the timeout error. *)
Lemma keepsPending_ticks_out scopedLog client name (I : σ -> Prop) rest :
  keepsPending client name I ->
  forall ticks current w,
    I (apiserver w) ->
    Name (Meta current) = name ->
    notYetReady (Conditions (Status current)) ->
    exists last w',
      pollTicks ticks (500 * Millisecond) rest
                (readyPredicate scopedLog client) (Some current) w
        = (Done (Some last, Some ErrWaitTimeout), w')
      /\ clock w' = clock w + Z.of_nat ticks * (500 * Millisecond) + rest
      /\ calls w' = calls w ++ repeat (CallGet name) (S ticks)
      /\ Name (Meta last) = name.
Proof.
  intros Hkeeps. induction ticks as [|n IH]; intros current w HI Hname Hnot.
  - destruct (Hkeeps _ HI) as (c & s' & Hget & _ & Hname' & _).
    rewrite <- Hname in Hget.
    pose proof (readyPredicate_notYetReady scopedLog client current
                  (snd (sleep rest w)) _ _ _ Hnot Hget) as Hstep.
    exists c. eexists. cbn [pollTicks]. unfold bind at 1. cbn [sleep].
    cbn [sleep snd] in Hstep. unfold bind at 1. rewrite Hstep.
    split; [reflexivity|]. cbn [clock calls repeat]. rewrite Hname.
    repeat split; auto. lia.
  - destruct (Hkeeps _ HI) as (c & s' & Hget & HI' & Hname' & Hnot').
    rewrite <- Hname in Hget.
    pose proof (readyPredicate_notYetReady scopedLog client current
                  (snd (sleep (500 * Millisecond) w)) _ _ _ Hnot Hget) as Hstep.
    rewrite (pollTicks_pending _ _ _ _ _ _ _ _ Hstep).
    match type of Hstep with
    | _ = (_, ?w1) =>
        destruct (IH c w1 HI' Hname' Hnot')
          as (last & w' & Hrun & Hclock & Hcalls & Hlast)
    end.
    exists last, w'. rewrite Hrun. split; [reflexivity|].
    cbn in Hclock, Hcalls. rewrite Hclock, Hcalls, Hname.
    repeat split; auto; [lia|]. rewrite <- app_assoc. reflexivity.
Qed.

(** C8. (a), (b): whatever the poller, [updateV1CRD], once it has decided
    to update, and [waitForV1CRD] run as the one call of [Poll] with an
    interval of 500 ms, a timeout of 60 s and their predicate, followed by
    what they make of its result.  (c): with the default poller the one
    attempt of the apply loop comes 500 ms after the start.  (d): the
    timeout error is no [errors.New] of a reason.  (e): however many of
    the 120 ticks are delivered, when the apiserver keeps answering with
    an object none of whose conditions ends the wait, [waitForV1CRD] polls
    on every tick and once more at the timeout, and returns an error,
    never nil, when the clock has advanced by 60 s, no earlier: the
    timeout wrapped, or the failure of the Delete it then issues.
    (f): the default poller is the one with 119 ticks, 120 evaluations in
    all. *)
Theorem poll_cadence_and_timeout scopedLog (crdName : string) crd
    (clusterCRD : option CustomResourceDefinition) client :
  (forall (p : poller σ) (cluster : CustomResourceDefinition) w,
     firstSchemaIsSet crd = Done true ->
     needsUpdateV1 cluster = Done true ->
     updateV1CRD scopedLog crd (Some cluster) client p w
     = let '(o, w2) :=
         Poll p (500 * Millisecond) (60 * Second)
              (applyPredicate scopedLog crd client) (Some cluster)
              (logged InfoLevel scopedLog
                 "Updating CRD (CustomResourceDefinition)..."
                 (logged DebugLevel scopedLog
                    "Checking if CRD (CustomResourceDefinition) needs update..."
                    w)) in
       match o with
       | Done (_, Some e) =>
           (Done (Some e),
            logged ErrorLevel (WithError e scopedLog) "Unable to update CRD" w2)
       | Done (_, None) => (Done None, w2)
       | Panic msg => (Panic msg, w2)
       end)
  /\ (forall (p : poller σ) w,
        waitForV1CRD scopedLog crdName clusterCRD client p w
        = let '(o, w2) :=
            Poll p (500 * Millisecond) (60 * Second)
                 (readyPredicate scopedLog client) clusterCRD
                 (logged DebugLevel scopedLog
                    "Waiting for CRD (CustomResourceDefinition) to be available..."
                    w) in
          match o with
          | Done (_, None) => (Done None, w2)
          | Done (None, Some _) => (Panic nilDereference, w2)
          | Done (Some current, Some err) =>
              match Delete client (Name (Meta current)) (apiserver w2) with
              | (Some deleteErr, s) =>
                  (Done (Some (Errorf "unable to delete CRD: " deleteErr)),
                   mkWorld s (calls w2 ++ [CallDelete (Name (Meta current))])
                     (logs w2 ++ [mkLog ErrorLevel "Failed to delete CRD"
                                    (WithField "deleteErr" (Error deleteErr)
                                       (WithError err scopedLog))])
                     (clock w2))
              | (None, s) =>
                  (Done (Some (Errorf "error occurred waiting for CRD: " err)),
                   mkWorld s (calls w2 ++ [CallDelete (Name (Meta current))])
                     (logs w2) (clock w2))
              end
          | Panic msg => (Panic msg, w2)
          end)
  /\ (forall (cluster : CustomResourceDefinition) w r w',
        firstSchemaIsSet crd = Done true ->
        needsUpdateV1 cluster = Done true ->
        updateV1CRD scopedLog crd (Some cluster) client (defaultPoll σ) w
          = (r, w') ->
        clock w' = clock w + 500 * Millisecond)
  /\ 500 * Millisecond = 500000000
  /\ 60 * Second = 60000000000
  /\ (forall reason, ErrWaitTimeout <> New reason)
  /\ (forall (ticks : nat) (I : σ -> Prop) current w,
        (ticks <= 120)%nat ->
        keepsPending client (Name (Meta current)) I ->
        I (apiserver w) ->
        notYetReady (Conditions (Status current)) ->
        exists last w2 e w',
          Poll (tickingPoll σ ticks) (500 * Millisecond) (60 * Second)
               (readyPredicate scopedLog client) (Some current)
               (logged DebugLevel scopedLog
                  "Waiting for CRD (CustomResourceDefinition) to be available..." w)
            = (Done (Some last, Some ErrWaitTimeout), w2)
          /\ clock w2 = clock w + 60 * Second
          /\ waitForV1CRD scopedLog crdName (Some current) client
                          (tickingPoll σ ticks) w
             = (Done (Some e), w')
          /\ clock w' = clock w + 60 * Second
          /\ calls w' = calls w ++ repeat (CallGet (Name (Meta current))) (S ticks)
                         ++ [CallDelete (Name (Meta current))]
          /\ (e = Errorf "error occurred waiting for CRD: " ErrWaitTimeout
              \/ exists deleteErr, e = Errorf "unable to delete CRD: " deleteErr))
  /\ (forall L (conditionFn : ConditionFunc σ L) l w,
        Poll (defaultPoll σ) (500 * Millisecond) (60 * Second) conditionFn l w
        = Poll (tickingPoll σ 119) (500 * Millisecond) (60 * Second)
               conditionFn l w).
Proof.
  split; [|split; [|split; [|split; [|split; [|split; [|split]]]]]].
  - intros p cluster w Hschema Hstale.
    destruct (Poll p (500 * Millisecond) (60 * Second)
                (applyPredicate scopedLog crd client) (Some cluster) _)
      as [o w2] eqn:Hpoll.
    exact (updateV1CRD_after_poll _ _ _ _ _ _ _ _ Hschema Hstale Hpoll).
  - intros p w.
    destruct (Poll p (500 * Millisecond) (60 * Second)
                (readyPredicate scopedLog client) clusterCRD _)
      as [o w2] eqn:Hpoll.
    exact (waitForV1CRD_after_poll _ _ _ _ _ _ _ _ Hpoll).
  - intros cluster w r w' Hschema Hstale Hrun.
    set (w0 := logged InfoLevel scopedLog
                 "Updating CRD (CustomResourceDefinition)..."
                 (logged DebugLevel scopedLog
                    "Checking if CRD (CustomResourceDefinition) needs update..."
                    w)).
    destruct (applyPredicate scopedLog crd client (Some cluster)
                (snd (sleep (500 * Millisecond) w0))) as [o w1] eqn:Hpred.
    destruct (applyPredicate_summary _ _ _ _ _ _ _ Hpred)
      as (Hclock & Hresolved & _).
    pose proof (defaultPoll_first_attempt _ _ _ _ _ Hpred Hresolved) as Hpoll.
    rewrite (updateV1CRD_after_poll _ _ _ _ _ _ _ _ Hschema Hstale Hpoll) in Hrun.
    cbn [clock sleep snd logged] in Hclock. subst w0. cbn [clock logged] in Hclock.
    destruct o as [[l' [ok [e|]]]|msg]; inversion Hrun; subst; exact Hclock.
  - reflexivity.
  - reflexivity.
  - discriminate.
  - intros ticks I current w Hticks Hkeeps HI Hnot.
    set (w0 := logged DebugLevel scopedLog
                 "Waiting for CRD (CustomResourceDefinition) to be available..." w).
    destruct (keepsPending_ticks_out scopedLog client _ I
                (60 * Second - Z.of_nat ticks * (500 * Millisecond))
                Hkeeps ticks current w0 HI eq_refl Hnot)
      as (last & w2 & Hrun & Hclock & Hcalls & Hlast).
    assert (Hpoll : Poll (tickingPoll σ ticks) (500 * Millisecond) (60 * Second)
                      (readyPredicate scopedLog client) (Some current) w0
                    = (Done (Some last, Some ErrWaitTimeout), w2)) by exact Hrun.
    pose proof (waitForV1CRD_after_poll scopedLog crdName _ _ _ _ _ _ Hpoll) as Hwait.
    cbn iota beta in Hwait.
    assert (Ht : clock w2 = clock w + 60 * Second).
    { rewrite Hclock. subst w0. cbn [clock logged]. lia. }
    destruct (Delete client (Name (Meta last)) (apiserver w2)) as [[d|] s] eqn:Hdel;
      exists last, w2; eexists _, _; (split; [exact Hpoll|]);
      (split; [exact Ht|]); (split; [exact Hwait|]); cbn [clock calls];
      rewrite Hcalls, Hlast, <- app_assoc; subst w0; cbn [calls logged];
      repeat split; eauto.
  - intros L conditionFn l w. apply defaultPoll_ticks.
Qed.

End Cadence.

(** * Errors that wrap a status *)

(** The classification of an error looks through what wraps it with [%w],
    and an error made of a message alone has no reason. *)
Lemma ReasonForError_wrapped (prefix : string) (e : error) :
  ReasonForError (Some (Errorf prefix e)) = ReasonForError (Some e)
  /\ IsNotFound (Some (Errorf prefix e)) = IsNotFound (Some e)
  /\ IsAlreadyExists (Some (Errorf prefix e)) = IsAlreadyExists (Some e)
  /\ IsConflict (Some (Errorf prefix e)) = IsConflict (Some e).
Proof. repeat split. Qed.

Lemma ReasonForError_plain (msg : string) :
  ReasonForError (Some (New msg)) = StatusReasonUnknown
  /\ ReasonForError (Some ErrWaitTimeout) = StatusReasonUnknown
  /\ ReasonForError None = StatusReasonUnknown.
Proof. repeat split. Qed.

(** * The rest of the code on concrete inputs *)

(** The apply loop against an apiserver that refuses the Update. *)
Lemma updateV1CRD_single_attempt_witness :
  let run := updateV1CRD [] cnpBaseline (Some (cnpInstalledOld []))
               (tableClient updateRefused) (defaultPoll nat) (start 0%nat) in
  (calls (snd run) = calls (start 0%nat)
   /\ clock (snd run) = clock (start 0%nat))
  \/ (clock (snd run) = clock (start 0%nat) + 500 * Millisecond
      /\ (calls (snd run) = calls (start 0%nat) ++ [CallGet (Name (Meta cnpBaseline))]
          \/ exists obj,
               calls (snd run)
               = calls (start 0%nat) ++ [CallGet (Name (Meta cnpBaseline));
                                         CallUpdate obj])).
Proof.
  exact (updateV1CRD_single_attempt [] cnpBaseline (Some (cnpInstalledOld []))
           (tableClient updateRefused) (start 0%nat) _ _
           (surjective_pairing _)).
Defined.

(** Another agent has written 1.23 by the time the apply predicate reads. *)
Lemma updateV1CRD_updated_by_another_witness :
  let run := updateV1CRD [] cnpBaseline (Some (cnpInstalledOld []))
               (tableClient updatedByAnother) (defaultPoll nat) (start 0%nat) in
  fst run = Done None
  /\ calls (snd run) = [CallGet CNPName]
  /\ clock (snd run) = 500 * Millisecond.
Proof.
  cbv zeta.
  pose proof (updateV1CRD_updated_by_another [] cnpBaseline (cnpInstalledOld [])
                cnpInstalledNewer (tableClient updatedByAnother) (start 0%nat)
                (mkVersion "v2" true true (Some "openAPIV3Schema")) []
                "openAPIV3Schema" 1%nat) as H.
  rewrite H; [repeat split; reflexivity | reflexivity ..].
Defined.

(** The older object is read and written over. *)
Lemma updateV1CRD_writes_over_fetched_witness :
  exists sent w',
    updateV1CRD [] cnpBaseline (Some (cnpInstalledOld []))
                (tableClient upgrade) (defaultPoll nat) (start 0%nat)
    = (Done None, w')
    /\ calls w' = [CallGet CNPName; CallUpdate sent]
    /\ ResourceVersion (Meta sent) = "41"
    /\ Labels (Meta sent) !! "io.cilium.k8s.crd.schema.version" = Some "1.22"
    /\ Spec sent = Spec cnpBaseline.
Proof.
  pose proof (updateV1CRD_writes_over_fetched [] cnpBaseline (cnpInstalledOld [])
                (cnpInstalledOld [namesAccepted; established])
                (tableClient upgrade) (start 0%nat)
                (mkVersion "v2" true true (Some "openAPIV3Schema")) []
                "openAPIV3Schema" 1%nat
                (Some (cnpInstalled [namesAccepted; established])) 2%nat) as H.
  destruct H
    as (sent & w' & Hrun & Hcalls & _ & _ & Hlabels & Hspec & _ & Hrv & _);
    [reflexivity .. |].
  exists sent, w'. split; [exact Hrun|]. split; [exact Hcalls|].
  split; [exact Hrv|]. split; [rewrite Hlabels; reflexivity | exact Hspec].
Defined.

(** The apiserver cannot answer the read of the apply predicate. *)
Lemma updateV1CRD_read_error_witness :
  let run := updateV1CRD [] cnpBaseline (Some (cnpInstalledOld []))
               (tableClient unreachable) (defaultPoll nat) (start 0%nat) in
  fst run = Done (Some internalError)
  /\ calls (snd run) = [CallGet CNPName].
Proof.
  cbv zeta.
  pose proof (updateV1CRD_read_error [] cnpBaseline (cnpInstalledOld [])
                (tableClient unreachable) (start 0%nat)
                (mkVersion "v2" true true (Some "openAPIV3Schema")) []
                "openAPIV3Schema" None internalError 1%nat) as H.
  rewrite H; [split; reflexivity | reflexivity ..].
Defined.

Lemma established_first :
  observesEstablished [installing; established; namesConflict].
Proof.
  exists [installing], established, [namesConflict].
  split; [reflexivity|]. split; [exact installing_notYetReady|].
  split; reflexivity.
Defined.

(** Established=true ahead of a NamesAccepted=false: the wait succeeds. *)
Lemma waitForV1CRD_established_witness :
  exists w',
    waitForV1CRD [] CNPCRDName
      (Some (cnpInstalled [installing; established; namesConflict]))
      (tableClient deleteRefused) (defaultPoll nat) (start 0%nat)
    = (Done None, w')
    /\ calls w' = []
    /\ clock w' = 500 * Millisecond.
Proof.
  destruct (waitForV1CRD_established [] CNPCRDName
              (Some (cnpInstalled [installing; established; namesConflict]))
              (tableClient deleteRefused) (start 0%nat) 0 _ _
              (pending_done _ _ _ _) ltac:(lia) established_first)
    as (w' & gets & Hrun & Hcalls & _ & Hlen & _ & Hclock).
  exists w'. split; [exact Hrun|].
  destruct gets; [|discriminate].
  split; [exact Hcalls | exact Hclock].
Defined.

(** A wait that times out, and a Delete that goes through: the timeout can
    be told from the returned error. *)
Lemma waitForV1CRD_wraps_wait_failure_witness :
  exists w',
    waitForV1CRD [] CNPCRDName (Some (cnpInstalled [installing]))
                 (tableClient neverReady) (defaultPoll nat) (start 0%nat)
    = (Done (Some (Errorf "error occurred waiting for CRD: " ErrWaitTimeout)), w')
    /\ Is (Errorf "error occurred waiting for CRD: " ErrWaitTimeout) ErrWaitTimeout
       = true.
Proof.
  eexists.
  refine (let H := waitForV1CRD_wraps_wait_failure [] CNPCRDName
                     (Some (cnpInstalled [installing]))
                     (tableClient neverReady) (defaultPoll nat) (start 0%nat)
                     (cnpInstalled [namesAccepted; installing]) ErrWaitTimeout
                     _ _ _ _ in
          conj (proj1 H) (proj1 (proj2 (proj2 H)))).
  - vm_compute. reflexivity.
  - reflexivity.
Defined.

(** A failed Get in the wait: with an empty object next to the error the
    Delete goes out for the empty name; with a nil pointer the code
    panics. *)
Lemma waitForV1CRD_failed_read_witness :
  (exists r w',
     waitForV1CRD [] CNPCRDName (Some (cnpInstalled [installing]))
                  (tableClient getBreaks) (defaultPoll nat) (start 0%nat)
     = (Done (Some r), w')
     /\ calls w' = [CallGet CNPName; CallDelete ""]
     /\ r = Errorf "error occurred waiting for CRD: " internalError)
  /\ fst (waitForV1CRD [] CNPCRDName (Some (cnpInstalled [installing]))
            (tableClient getBreaksNil) (defaultPoll nat) (start 0%nat))
     = Panic nilDereference.
Proof.
  split.
  - pose proof (waitForV1CRD_failed_read [] CNPCRDName
                  (Some (cnpInstalled [installing])) (tableClient getBreaks)
                  (start 0%nat) 0 _ (cnpInstalled [installing])
                  (Some emptyObject) internalError 1%nat
                  (pending_done _ _ _ _) ltac:(lia) installing_notYetReady
                  eq_refl) as H.
    cbv zeta in H. cbn iota in H.
    destruct H as (r & w' & Hrun & Hcalls & Hr).
    exists r, w'. split; [exact Hrun|]. split; [exact Hcalls | exact Hr].
  - pose proof (waitForV1CRD_failed_read [] CNPCRDName
                  (Some (cnpInstalled [installing])) (tableClient getBreaksNil)
                  (start 0%nat) 0 _ (cnpInstalled [installing])
                  None internalError 1%nat
                  (pending_done _ _ _ _) ltac:(lia) installing_notYetReady
                  eq_refl) as H.
    cbv zeta in H. cbn iota in H. rewrite H. reflexivity.
Defined.

Lemma established_at_once : observesEstablished [namesAccepted; established].
Proof.
  exists [namesAccepted], established, [].
  split; [reflexivity|]. split; [|split; reflexivity].
  constructor; [|constructor]. split; intros [Hty Hst]; discriminate.
Defined.

(** Reconciling what is installed, current and established: one Get. *)
Lemma createUpdateCRD_only_reads_witness :
  exists w',
    createUpdateCRD v1Capable (mkClientset (tableClient alreadyInstalled) noV1beta1)
                    CNPCRDName cnpBaseline (defaultPoll nat) (start 0%nat)
    = (Done None, w')
    /\ calls w' = [CallGet CNPName]
    /\ clock w' = 500 * Millisecond.
Proof.
  epose proof (createUpdateCRD_only_reads
                (mkClientset (tableClient alreadyInstalled) noV1beta1)
                CNPCRDName cnpBaseline (start 0%nat)
                (cnpInstalled [namesAccepted; established]) 1%nat 0 _ _
                eq_refl) as H.
  cbv zeta in H.
  destruct H as (w' & gets & Hrun & Hcalls & _ & Hlen & Hclock & _);
    [right; split; reflexivity | apply pending_done | lia
    | exact established_at_once |].
  exists w'. split; [exact Hrun|].
  destruct gets; [|discriminate].
  split; [exact Hcalls | exact Hclock].
Defined.

(** A first installation: not found, created, established at the third
    poll. *)
Lemma createUpdateCRD_first_install_witness :
  exists w' gets,
    createUpdateCRD v1Capable (mkClientset (tableClient freshInstall) noV1beta1)
                    CNPCRDName cnpBaseline (defaultPoll nat) (start 0%nat)
    = (Done None, w')
    /\ calls w' = CallGet CNPName :: CallCreate cnpBaseline :: gets
    /\ length gets = 2%nat
    /\ clock w' = 1500 * Millisecond.
Proof.
  epose proof (createUpdateCRD_first_install
                (mkClientset (tableClient freshInstall) noV1beta1)
                CNPCRDName cnpBaseline (start 0%nat)
                None (notFound CNPName) 1%nat (cnpInstalled []) 2%nat 2 _ _) as H.
  cbv zeta in H.
  edestruct H as (w' & gets & Hrun & Hcalls & _ & Hlen & Hclock & _);
    [reflexivity | reflexivity | reflexivity | right; split; reflexivity
    | eapply pending_step; [vm_compute; reflexivity|];
      eapply pending_step; [vm_compute; reflexivity|];
      apply pending_done
    | lia | exact established_at_once |].
  exists w', gets. split; [exact Hrun|]. split; [exact Hcalls|].
  split; [exact Hlen | exact Hclock].
Defined.

(** An upgrade of an established object: the Update is the last request. *)
Lemma createUpdateCRD_update_not_awaited_witness :
  exists w',
    createUpdateCRD v1Capable (mkClientset (tableClient upgrade) noV1beta1)
                    CNPCRDName cnpBaseline (defaultPoll nat) (start 0%nat)
    = (Done None, w')
    /\ calls w' = [CallGet CNPName; CallGet CNPName;
                   CallUpdate (overwrite cnpBaseline
                                 (cnpInstalledOld [namesAccepted; established]))]
    /\ clock w' = 1000 * Millisecond.
Proof.
  pose proof (createUpdateCRD_update_not_awaited
                (mkClientset (tableClient upgrade) noV1beta1)
                CNPCRDName cnpBaseline (start 0%nat)
                (cnpInstalledOld [namesAccepted; established])
                (cnpInstalledOld [namesAccepted; established])
                (mkVersion "v2" true true (Some "openAPIV3Schema")) []
                "openAPIV3Schema" 1%nat 2%nat
                (Some (cnpInstalled [namesAccepted; established])) 3%nat) as H.
  cbv zeta in H.
  destruct H as (w' & Hrun & Hcalls & _ & Hclock);
    [reflexivity | reflexivity | reflexivity | reflexivity
    | exact established_at_once | reflexivity | reflexivity | reflexivity |].
  exists w'. split; [exact Hrun|]. split; [exact Hcalls | exact Hclock].
Defined.

(** A run on the v1beta1 surface, and a run on the v1 surface. *)
Lemma createUpdateCRD_one_surface_witness :
  let legacy := createUpdateCRD v1beta1Only
                  (mkClientset noV1 (tableClientV1beta1 legacyUpdateRefused))
                  CNPCRDName cnpBaseline (defaultPoll nat) (start 0%nat) in
  let modern := createUpdateCRD v1Capable
                  (mkClientset (tableClient upgrade) noV1beta1)
                  CNPCRDName cnpBaseline (defaultPoll nat) (start 0%nat) in
  (exists added,
     calls (snd legacy) = calls (start 0%nat) ++ added
     /\ forallb isV1beta1 added = true)
  /\ (exists added,
        calls (snd modern) = calls (start 0%nat) ++ added
        /\ forallb isV1 added = true).
Proof.
  split.
  - exact (createUpdateCRD_one_surface v1beta1Only
             (mkClientset noV1 (tableClientV1beta1 legacyUpdateRefused))
             CNPCRDName cnpBaseline (start 0%nat) _ _ (surjective_pairing _)).
  - exact (createUpdateCRD_one_surface v1Capable
             (mkClientset (tableClient upgrade) noV1beta1)
             CNPCRDName cnpBaseline (start 0%nat) _ _ (surjective_pairing _)).
Defined.

(** A run against an apiserver that never establishes the object. *)
Lemma createUpdateCRD_time_bound_witness :
  let run := createUpdateCRD v1Capable
               (mkClientset (tableClient neverReady) noV1beta1)
               CNPCRDName cnpBaseline (defaultPoll nat) (start 0%nat) in
  clock (start 0%nat) <= clock (snd run)
  <= clock (start 0%nat) + (500 * Millisecond + 60 * Second).
Proof.
  exact (createUpdateCRD_time_bound
           (mkClientset (tableClient neverReady) noV1beta1)
           CNPCRDName cnpBaseline (start 0%nat) _ _ (surjective_pairing _)).
Defined.

(** The fallback with a conversion that fails. *)
Lemma createUpdateCRD_conversion_error_witness :
  let run := @createUpdateCRD dottedVersions ciliumConsts brokenConversion nat
               v1beta1Only (mkClientset noV1 (tableClientV1beta1 legacyUpdateRefused))
               CNPCRDName cnpBaseline (defaultPoll nat) (start 0%nat) in
  fst run
  = Done (Some (New ("unable to convert v1 CRD to internal representation: "
                     +:+ "converting (v1.CustomResourceDefinition) is not supported")))
  /\ calls (snd run) = [].
Proof.
  cbv zeta.
  pose proof (proj1 (@createUpdateCRD_conversion_error dottedVersions ciliumConsts
                       brokenConversion nat v1beta1Only
                       (mkClientset noV1 (tableClientV1beta1 legacyUpdateRefused))
                       CNPCRDName cnpBaseline (defaultPoll nat) (start 0%nat)
                       eq_refl)
                cnpBaseline
                (New "converting (v1.CustomResourceDefinition) is not supported")
                eq_refl) as H.
  cbv zeta in H. destruct H as [H _]. rewrite H. split; reflexivity.
Defined.

(** The v1beta1 update phase with a baseline without validation. *)
Lemma updateV1beta1CRD_baseline_without_validation_witness :
  let run := updateV1beta1CRD [] (cnpV1beta1 None ∅ [])
               (Some (cnpV1beta1 (Some "olderSchema") oldLabel []))
               (tableClientV1beta1 legacyUpdateRefused) (defaultPoll nat)
               (start 0%nat) in
  fst run = Done None /\ calls (snd run) = [].
Proof.
  cbv zeta.
  rewrite (updateV1beta1CRD_baseline_without_validation [] (cnpV1beta1 None ∅ [])
             (Some (cnpV1beta1 (Some "olderSchema") oldLabel []))
             (tableClientV1beta1 legacyUpdateRefused) (defaultPoll nat)
             (start 0%nat) eq_refl).
  split; reflexivity.
Defined.

(** The v1beta1 apply loop against an Update that meets a conflict. *)
Lemma updateV1beta1CRD_single_attempt_witness :
  let crd := toV1beta1 cnpBaseline in
  let run := updateV1beta1CRD [] crd
               (Some (cnpV1beta1 (Some "olderSchema") oldLabel []))
               (tableClientV1beta1 legacyUpdateRefused) (defaultPoll nat)
               (start 0%nat) in
  (calls (snd run) = calls (start 0%nat)
   /\ clock (snd run) = clock (start 0%nat))
  \/ (clock (snd run) = clock (start 0%nat) + 500 * Millisecond
      /\ (calls (snd run)
          = calls (start 0%nat) ++ [CallGetV1beta1 (Name (v1beta1.Meta crd))]
          \/ exists obj,
               calls (snd run)
               = calls (start 0%nat) ++ [CallGetV1beta1 (Name (v1beta1.Meta crd));
                                         CallUpdateV1beta1 obj])).
Proof.
  exact (updateV1beta1CRD_single_attempt [] (toV1beta1 cnpBaseline)
           (Some (cnpV1beta1 (Some "olderSchema") oldLabel []))
           (tableClientV1beta1 legacyUpdateRefused) (start 0%nat) _ _
           (surjective_pairing _)).
Defined.


(** The update phase on a baseline without versions, and on a nil cluster
    object. *)
Lemma updateV1CRD_panics_witness :
  fst (updateV1CRD [] emptyObject (Some (cnpInstalledOld []))
         (tableClient upgrade) (defaultPoll nat) (start 0%nat))
    = Panic indexOutOfRange
  /\ fst (updateV1CRD [] cnpBaseline None
            (tableClient upgrade) (defaultPoll nat) (start 0%nat))
     = Panic nilDereference
  /\ fst (updateV1CRD [] cnpBaseline (Some emptyObject)
            (tableClient upgrade) (defaultPoll nat) (start 0%nat))
     = Panic indexOutOfRange.
Proof.
  split; [|split].
  - rewrite (proj1 (updateV1CRD_panics [] emptyObject (tableClient upgrade)
                      (defaultPoll nat) (start 0%nat)) eq_refl).
    reflexivity.
  - rewrite (proj1 (proj2 (updateV1CRD_panics [] cnpBaseline (tableClient upgrade)
                             (defaultPoll nat) (start 0%nat))) eq_refl).
    reflexivity.
  - rewrite (proj2 (proj2 (updateV1CRD_panics [] cnpBaseline (tableClient upgrade)
                             (defaultPoll nat) (start 0%nat))) eq_refl
               emptyObject eq_refl).
    reflexivity.
Defined.

(** The lookup fails with an internal error. *)
Lemma createUpdateCRD_lookup_error_witness :
  let run := createUpdateCRD v1Capable
               (mkClientset (tableClient unreachable) noV1beta1)
               CNPCRDName cnpBaseline (defaultPoll nat) (start 0%nat) in
  fst run = Done (Some internalError) /\ calls (snd run) = [CallGet CNPName].
Proof.
  cbv zeta.
  erewrite (proj1 (createUpdateCRD_lookup_error v1Capable
                     (mkClientset (tableClient unreachable) noV1beta1)
                     CNPCRDName cnpBaseline (defaultPoll nat) (start 0%nat))
              eq_refl); [ | reflexivity ..].
  split; reflexivity.
Defined.

(** Nothing is installed and the Create is refused. *)
Lemma createUpdateCRD_create_error_witness :
  let run := createUpdateCRD v1Capable
               (mkClientset (tableClient createRefused) noV1beta1)
               CNPCRDName cnpBaseline (defaultPoll nat) (start 0%nat) in
  fst run = Done (Some forbidden)
  /\ calls (snd run) = [CallGet CNPName; CallCreate cnpBaseline].
Proof.
  cbv zeta.
  erewrite (proj1 (createUpdateCRD_create_error v1Capable
                     (mkClientset (tableClient createRefused) noV1beta1)
                     CNPCRDName cnpBaseline (defaultPoll nat) (start 0%nat))
              eq_refl); [ | reflexivity ..].
  split; reflexivity.
Defined.


(** The apply loop against an apiserver that refuses the Update: the
    phase ends 500 ms after it started.  The wait against an apiserver
    that never establishes the object, with all 120 ticks delivered: 121
    Gets, 60 s, the timeout error, one Delete; and with the default
    poller: 120 Gets. *)
Lemma poll_cadence_and_timeout_witness :
  (exists r w',
     updateV1CRD [] cnpBaseline (Some (cnpInstalledOld []))
                 (tableClient updateRefused) (defaultPoll nat) (start 0%nat)
     = (r, w')
     /\ clock w' = 500 * Millisecond)
  /\ (exists e w',
        waitForV1CRD [] CNPCRDName (Some (cnpInstalled [installing]))
                     (tableClient neverReady) (tickingPoll nat 120) (start 0%nat)
        = (Done (Some e), w')
        /\ clock w' = 60 * Second
        /\ calls w' = repeat (CallGet CNPName) 121 ++ [CallDelete CNPName])
  /\ (exists e w',
        waitForV1CRD [] CNPCRDName (Some (cnpInstalled [installing]))
                     (tableClient neverReady) (tickingPoll nat 119) (start 0%nat)
        = (Done (Some e), w')
        /\ clock w' = 60 * Second
        /\ calls w' = repeat (CallGet CNPName) 120 ++ [CallDelete CNPName]).
Proof.
  destruct (poll_cadence_and_timeout [] CNPCRDName cnpBaseline
              (Some (cnpInstalled [installing])) (tableClient neverReady))
    as (_ & _ & _ & _ & _ & _ & Htimeout & _).
  split; [|split].
  - eexists _, _. split; [reflexivity|].
    refine (proj1 (proj2 (proj2
              (poll_cadence_and_timeout [] CNPCRDName cnpBaseline
                 (Some (cnpInstalledOld [])) (tableClient updateRefused))))
              (cnpInstalledOld []) (start 0%nat) _ _ _ _ _);
      reflexivity.
  - destruct (Htimeout 120%nat (fun _ => True) (cnpInstalled [installing])
                (start 0%nat) ltac:(lia)
                neverReady_keepsPending I installing_notYetReady)
      as (last & w2 & e & w' & _ & _ & Hrun & Hclock & Hcalls & _).
    exists e, w'. split; [exact Hrun|]. split; [exact Hclock | exact Hcalls].
  - destruct (Htimeout 119%nat (fun _ => True) (cnpInstalled [installing])
                (start 0%nat) ltac:(lia)
                neverReady_keepsPending I installing_notYetReady)
      as (last & w2 & e & w' & _ & _ & Hrun & Hclock & Hcalls & _).
    exists e, w'. split; [exact Hrun|]. split; [exact Hclock | exact Hcalls].
Defined.

(** A lost race whose errors arrive wrapped is still a lost race: the
    lookup counts as "not found", the Create as "already exists", and the
    run returns nil after the two requests. *)
Lemma wrapped_race_is_lost :
  exists w',
    createUpdateCRD v1Capable
                    (mkClientset (tableClient raceLostWrapped) noV1beta1)
                    CNPCRDName cnpBaseline (defaultPoll nat) (start 0%nat)
    = (Done None, w')
    /\ calls w' = [CallGet CNPName; CallCreate cnpBaseline].
Proof. eexists. split; [vm_compute; reflexivity | reflexivity]. Qed.
